(** * FMPFeedbackGCPService: the four Cloud Functions over an in-memory
      Firestore, Pub/Sub topic and Mailgun endpoint.

    The handlers of [cloudfunctions/fmpfeedback_upload],
    [fmpfeedback_comment], [fmpfeedback_mailgun] and
    [fmpfeedback_caretaker] are embedded as computations in an error and
    state monad.  Documents are Python dicts ([gmap string value]); every
    remote call may raise, as scripted by an environment. *)

From Stdlib Require Import ZArith Ascii String List Lia.
From stdpp Require Import base option list gmap strings fin_maps.

Local Open Scope string_scope.
Local Open Scope Z_scope.

(** ** Python values held by documents and messages *)

Inductive value :=
| VStr (s : string)
| VBool (b : bool)
| VInt (n : Z)
| VBytes (b : list Byte.byte).

(** A document, a Pub/Sub message body and the form data of a POST are
    dicts with string keys. *)
Abbreviation doc := (gmap string value).

(** [bool(v)]: the empty string, [False], [0] and [b""] are falsy. *)
Definition truthy (v : value) : bool :=
  match v with
  | VStr s => negb (String.eqb s "")
  | VBool b => b
  | VInt n => negb (n =? 0)
  | VBytes b => match b with [] => false | _ => true end
  end.

(** [bool(d.get(k))]: a missing key gives [None], which is falsy. *)
Definition truthy_opt (o : option value) : bool :=
  match o with Some v => truthy v | None => false end.

(** [v == s] for a string [s]; values of another type are never equal. *)
Definition is_str (v : value) (s : string) : bool :=
  match v with VStr t => String.eqb t s | _ => false end.

(** [len(v)] of a [str] or [bytes] value. *)
Definition py_len (v : value) : option Z :=
  match v with
  | VStr s => Some (Z.of_nat (String.length s))
  | VBytes b => Some (Z.of_nat (List.length b))
  | _ => None
  end.

(** ** Exceptions *)

Inductive exn :=
| KeyError | TypeError | ValueError | AttributeError | OverflowError
| HTTPException (status : Z)          (* flask.abort *)
| GoogleAuthError
| NotFound | AlreadyExists | ClientError  (* NotFound, AlreadyExists <: ClientError *)
| GoogleAPIError
| HTTPError | RequestException        (* HTTPError <: RequestException *)
| OtherException.

(** ** [str] helpers *)

(** [s.removesuffix(suffix)] *)
Definition removesuffix (s suffix : string) : string :=
  let n := String.length s in
  let k := String.length suffix in
  if (k <=? n)%nat && String.eqb (substring (n - k) k s) suffix
  then substring 0 (n - k) s
  else s.

(** [s[1:-1]] *)
Definition slice_1_m1 (s : string) : string :=
  substring 1 (String.length s - 2) s.

(** ** [datetime] *)

(** The fields of a [datetime.datetime]; [tzinfo] is the UTC offset in
    seconds of an aware value, [None] for a naive one. *)
Record datetime := {
  year : Z; month : Z; day : Z;
  hour : Z; minute : Z; second : Z; microsecond : Z;
  tzinfo : option Z
}.

Definition digit (n : Z) : ascii := ascii_of_nat (48 + Z.to_nat (n mod 10)).

(** [n] printed in decimal on [w] digits, zero padded. *)
Fixpoint zpad (w : nat) (n : Z) : string :=
  match w with
  | O => ""
  | S w' => zpad w' (n / 10) ++ String (digit n) ""
  end.

(** The [+HH:MM] suffix of an aware value. *)
Definition iso_offset (tz : option Z) : string :=
  match tz with
  | None => ""
  | Some off =>
      let a := Z.abs off in
      (if off <? 0 then "-" else "+") ++ zpad 2 (a / 3600) ++ ":" ++ zpad 2 (a / 60 mod 60)
        ++ (if a mod 60 =? 0 then "" else ":" ++ zpad 2 (a mod 60))
  end.

Definition iso_date_time (d : datetime) : string :=
  zpad 4 (year d) ++ "-" ++ zpad 2 (month d) ++ "-" ++ zpad 2 (day d) ++ "T"
    ++ zpad 2 (hour d) ++ ":" ++ zpad 2 (minute d) ++ ":" ++ zpad 2 (second d).

(** [d.isoformat()]: microseconds are printed when they are not zero. *)
Definition isoformat (d : datetime) : string :=
  iso_date_time d
    ++ (if microsecond d =? 0 then "" else "." ++ zpad 6 (microsecond d))
    ++ iso_offset (tzinfo d).

(** [d.isoformat(timespec="seconds")] *)
Definition isoformat_seconds (d : datetime) : string :=
  iso_date_time d ++ iso_offset (tzinfo d).

(** [datetime.now(timezone.utc)] is the naive UTC reading made aware. *)
Definition as_utc (d : datetime) : datetime :=
  {| year := year d; month := month d; day := day d;
     hour := hour d; minute := minute d; second := second d;
     microsecond := microsecond d; tzinfo := Some 0 |}.

Definition is_leap (y : Z) : bool :=
  (y mod 4 =? 0) && (negb (y mod 100 =? 0) || (y mod 400 =? 0)).

Definition days_before_month (y m : Z) : Z :=
  nth (Z.to_nat m) [0; 0; 31; 59; 90; 120; 151; 181; 212; 243; 273; 304; 334] 0
  + (if (2 <? m) && is_leap y then 1 else 0).

Definition days_before_year (y : Z) : Z :=
  (y - 1) * 365 + (y - 1) / 4 - (y - 1) / 100 + (y - 1) / 400.

(** [d.toordinal()] *)
Definition ymd2ord (y m d : Z) : Z :=
  days_before_year y + days_before_month y m + d.

(** Microseconds of the wall-clock fields since 0001-01-01T00:00:00 minus
    one day (ordinal 0); ordering naive values compares these. *)
Definition wall_us (d : datetime) : Z :=
  ((ymd2ord (year d) (month d) (day d) * 86400
    + hour d * 3600 + minute d * 60 + second d) * 1000000) + microsecond d.

Definition us_per_minute : Z := 60 * 1000000.
Definition us_per_hour : Z := 60 * us_per_minute.
Definition us_per_day : Z := 24 * us_per_hour.

(** [datetime.min] and [datetime.max] on the same scale. *)
Definition wall_us_min : Z := us_per_day.
Definition wall_us_max : Z := (ymd2ord 9999 12 31 + 1) * us_per_day - 1.

(** ** Library functions of the Python runtime

    [mimetypes.guess_type] reads the host's MIME tables, [formataddr]
    quotes and encodes by RFC 2822 and RFC 2047, and the grammar of
    [datetime.fromisoformat] differs between Python versions: the handlers
    are embedded over any such functions. *)

Class PyLib := {
  (** [mimetypes.guess_type(filename, strict=False)[0]] *)
  guess_type : string -> option string;
  (** [email.utils.formataddr((name, address))] with a falsy [name] given
      as [None]; the result is [None] when it raises [UnicodeEncodeError] *)
  formataddr : option string -> string -> option string;
  (** [datetime.fromisoformat(s)]; [None] when it raises [ValueError] *)
  fromisoformat : string -> option datetime
}.

(** ** Module constants *)

Definition FEEDBACK_MAX_PENDING_SUBMITS : Z := 5.
Definition FEEDBACK_MAX_UPLOADS : Z := 10.
Definition FEEDBACK_MAX_UPLOAD_SIZE : Z := 1 * 1024 * 1024.

Definition FEEDBACK_PUBSUB_FIELD_ACTION := "feedbackAction".
Definition FEEDBACK_PUBSUB_FIELD_DOCID := "feedbackDocId".
Definition FEEDBACK_PUBSUB_ACTION_NEWFEEDBACK := "feedbackSumitted".
Definition FEEDBACK_PUBSUB_ACTION_CARETAKER_RETRY := "caretakerRetry".

Definition FEEDBACKDOC_FIELD_ARCHIVEDTIMESTAMP := "archivedTimestamp".
Definition FEEDBACKDOC_FIELD_CLIENTIP := "clientIp".
Definition FEEDBACKDOC_FIELD_CREATETIMESTAMP := "feedbackTimestamp".
Definition FEEDBACKDOC_FIELD_EMAIL := "feedbackEmail".
Definition FEEDBACKDOC_FIELD_HASUPLOADS := "hasUploads".
Definition FEEDBACKDOC_FIELD_MESSAGE := "feedbackMessage".
Definition FEEDBACKDOC_FIELD_NAME := "feedbackName".
Definition FEEDBACKDOC_FIELD_SUBJECT := "feedbackSubject".

Definition UPLOADDOC_FIELD_CONTENTLENGTH := "contentLength".
Definition UPLOADDOC_FIELD_DATA := "data".
Definition UPLOADDOC_FIELD_FILENAME := "filename".
Definition UPLOADDOC_FIELD_UPLOADIGNORED := "uploadIgnored".

Definition FEEDBACKDOC_FIELD_MAILGUN_MESSAGEID := "mailgunMessageId".
Definition MAILGUN_API_AUTHUSER := "api".

(** Python's [a | b] on dicts: the right operand wins. *)
Definition dict_or (a b : doc) : doc := b ∪ a.

Definition FEEDBACK_EMPTY_DOC : doc :=
  <[FEEDBACKDOC_FIELD_ARCHIVEDTIMESTAMP := VStr ""]>
  (<[FEEDBACKDOC_FIELD_CLIENTIP := VStr ""]>
  (<[FEEDBACKDOC_FIELD_CREATETIMESTAMP := VStr ""]>
  (<[FEEDBACKDOC_FIELD_EMAIL := VStr ""]>
  (<[FEEDBACKDOC_FIELD_HASUPLOADS := VBool false]>
  (<[FEEDBACKDOC_FIELD_MESSAGE := VStr ""]>
  (<[FEEDBACKDOC_FIELD_NAME := VStr ""]>
  (<[FEEDBACKDOC_FIELD_SUBJECT := VStr ""]> ∅))))))).

(** The values read from the runtime environment when a module loads.
    [MAILGUN_SENDER_ADDR], [MAILGUN_RECIPIENT] and [MAILGUN_REQUESTS_URL]
    are the constants the mailgun module derives from them;
    [MAILGUN_RUNTIME_VARS_MISSING] is set when one of the four mailgun
    variables is empty. *)
Record Config := {
  FEEDBACK_SENDER_AUTHTOKEN : option string;
  MAILGUN_REQUESTS_URL : string;
  MAILGUN_API_KEY : string;
  MAILGUN_SENDER_ADDR : string;
  MAILGUN_RECIPIENT : string;
  MAILGUN_RUNTIME_VARS_MISSING : bool;
  CARETAKER_REPUBLISH_AFTER : Z;  (* hours *)
  CARETAKER_KEEP_HISTORY : Z      (* days *)
}.

(** ** The world the functions act on *)

(** One entry of the [files] argument of [requests.post]:
    [("attachment", (filename, data, mime_type))]. *)
Record attachment := {
  att_filename : string;
  att_data : value;
  att_mime : string
}.

(** The arguments of one [requests.post] to the Mailgun endpoint. *)
Record post := {
  post_url : string;
  post_auth : string * string;
  post_files : list attachment;
  post_data : doc
}.

(** What the endpoint answers: the call raises, or returns a response
    with a status code and a JSON body ([None] when [response.json()]
    raises). *)
Inductive post_result :=
| PostRaises (e : exn)
| PostResponse (status_code : Z) (body : option doc).

(** [feedback] is the Firestore collection; [uploads] holds the
    subcollection of each parent id, in the order [get()] returns it (the
    ids of the children are not kept); [topic] is what was published,
    oldest first; [outbox] is every POST made to the Mailgun endpoint,
    oldest first. *)
Record World := {
  feedback : gmap string doc;
  uploads : gmap string (list doc);
  topic : list doc;
  outbox : list post
}.

(** What the surroundings decide during one invocation, by the index of
    the interaction: whether a remote call raises, which id Firestore
    generates, what the clock reads, and what Mailgun answers. *)
Record Env := {
  fault : nat -> option exn;
  auto_id : nat -> string;
  utcnow : nat -> datetime;
  mailgun_api : post -> post_result
}.

(** ** The monad: errors, the world, and a count of interactions *)

Inductive outcome (A : Type) :=
| Ret (a : A)
| Raise (e : exn).
Arguments Ret {A} a.
Arguments Raise {A} e.

Record state := { world : World; calls : nat }.

Definition M (A : Type) : Type := Env -> state -> outcome A * state.

Definition ret {A} (a : A) : M A := fun _ s => (Ret a, s).

Definition raise {A} (e : exn) : M A := fun _ s => (Raise e, s).

Definition bind {A B} (m : M A) (k : A -> M B) : M B :=
  fun env s =>
    match m env s with
    | (Ret a, s') => k a env s'
    | (Raise e, s') => (Raise e, s')
    end.

(** [try: m except Exception as e: h e] *)
Definition try_except {A} (m : M A) (h : exn -> M A) : M A :=
  fun env s =>
    match m env s with
    | (Ret a, s') => (Ret a, s')
    | (Raise e, s') => h e env s'
    end.

Notation "x <- m ;; k" := (bind m (fun x => k))
  (at level 100, m at next level, right associativity).
Notation "m ;;; k" := (bind m (fun _ => k))
  (at level 100, right associativity).

(** Runs a handler on a world; an exception that escapes is the outcome
    [Raise], with the effects made before it kept. *)
Definition run {A} (m : M A) (env : Env) (w : World) : outcome A * World :=
  let '(r, s) := m env {| world := w; calls := 0 |} in (r, world s).

(** [for x in l: body x] *)
Fixpoint for_each {A} (l : list A) (body : A -> M unit) : M unit :=
  match l with
  | [] => ret tt
  | x :: l' => body x ;;; for_each l' body
  end.

(** [d[k]] *)
Definition getitem (d : doc) (k : string) : M value :=
  match d !! k with
  | Some v => ret v
  | None => raise KeyError
  end.

(** A value used where the library needs a [str]. *)
Definition as_str (e : exn) (v : value) : M string :=
  match v with
  | VStr s => ret s
  | _ => raise e
  end.

(** An interaction with the surroundings: it takes the next index. *)
Definition interact {A} (f : Env -> nat -> World -> outcome A * World) : M A :=
  fun env s =>
    let '(r, w) := f env (calls s) (world s) in
    (r, {| world := w; calls := S (calls s) |}).

(** A remote call: it raises when the surroundings say so, and acts on
    the world otherwise. *)
Definition remote {A} (f : Env -> nat -> World -> outcome A * World) : M A :=
  interact (fun env n w =>
    match fault env n with
    | Some e => (Raise e, w)
    | None => f env n w
    end).

(** [datetime.utcnow()] *)
Definition datetime_utcnow : M datetime :=
  interact (fun env n w => (Ret (utcnow env n), w)).

(** ** Firestore, Pub/Sub and the Mailgun endpoint *)

Definition set_feedback (f : gmap string doc) (w : World) : World :=
  {| feedback := f; uploads := uploads w; topic := topic w; outbox := outbox w |}.

Definition set_uploads (u : gmap string (list doc)) (w : World) : World :=
  {| feedback := feedback w; uploads := u; topic := topic w; outbox := outbox w |}.

Definition set_topic (t : list doc) (w : World) : World :=
  {| feedback := feedback w; uploads := uploads w; topic := t; outbox := outbox w |}.

Definition set_outbox (o : list post) (w : World) : World :=
  {| feedback := feedback w; uploads := uploads w; topic := topic w; outbox := o |}.

(** The children of a parent id. *)
Definition children (w : World) (id : string) : list doc :=
  default [] (uploads w !! id).

(** What [DocumentReference.get()] returns: [to_dict()] is [None] when the
    document does not exist. *)
Record DocumentSnapshot := {
  snap_id : string;
  to_dict : option doc
}.

(** [firestore.Client()] and [pubsub.PublisherClient()] *)
Definition new_client : M unit :=
  remote (fun _ _ w => (Ret tt, w)).

(** [collection.where(...).get()] and [.stream()]: the documents that
    satisfy the filters, as they are when the query runs. *)
Definition fs_query (p : doc -> bool) : M (list (string * doc)) :=
  remote (fun _ _ w =>
    (Ret (List.filter (fun kv => p (snd kv)) (map_to_list (feedback w))), w)).

(** [collection.add(d)]: creates the document under a generated id. *)
Definition fs_add (d : doc) : M string :=
  remote (fun env n w =>
    let id := auto_id env n in
    match feedback w !! id with
    | Some _ => (Raise AlreadyExists, w)
    | None => (Ret id, set_feedback (<[id := d]> (feedback w)) w)
    end).

(** [collection.document(id).get()] *)
Definition fs_get (id : string) : M DocumentSnapshot :=
  remote (fun _ _ w => (Ret {| snap_id := id; to_dict := feedback w !! id |}, w)).

(** [reference.update(fields)]: sets the fields of an existing document. *)
Definition fs_update (id : string) (fields : doc) : M unit :=
  remote (fun _ _ w =>
    match feedback w !! id with
    | None => (Raise NotFound, w)
    | Some old => (Ret tt, set_feedback (<[id := dict_or old fields]> (feedback w)) w)
    end).

(** [reference.delete()]: the subcollections of the document stay. *)
Definition fs_delete (id : string) : M unit :=
  remote (fun _ _ w => (Ret tt, set_feedback (delete id (feedback w)) w)).

(** [reference.collection("uploads").get()] *)
Definition fs_uploads_get (id : string) : M (list doc) :=
  remote (fun _ _ w => (Ret (children w id), w)).

(** [reference.collection("uploads").add(d)] *)
Definition fs_uploads_add (id : string) (d : doc) : M unit :=
  remote (fun _ _ w =>
    (Ret tt, set_uploads (<[id := (children w id ++ [d])%list]> (uploads w)) w)).

(** [ps_client.get_topic(topic=topic_path)] *)
Definition ps_get_topic : M unit :=
  remote (fun _ _ w => (Ret tt, w)).

(** [ps_client.publish(topic.name, ps_message.encode()).result()]; the
    JSON text and its base64 wrapping are the channel's, the message is
    kept as the dict it encodes. *)
Definition ps_publish (msg : doc) : M unit :=
  remote (fun _ _ w => (Ret tt, set_topic (topic w ++ [msg])%list w)).

(** [requests.post(url, auth=..., files=..., data=...)] *)
Definition requests_post (p : post) : M (Z * option doc) :=
  interact (fun env _ w =>
    let w' := set_outbox (outbox w ++ [p])%list w in
    match mailgun_api env p with
    | PostRaises e => (Raise e, w')
    | PostResponse c b => (Ret (c, b), w')
    end).

(** [response.raise_for_status()] *)
Definition raise_for_status (status_code : Z) : M unit :=
  if (400 <=? status_code) && (status_code <? 600) then raise HTTPError else ret tt.

(** ** HTTP requests and responses *)

(** The body of a comment request, under its key ["request"]; a field is
    [None] when its key is missing. *)
Record requester_json := {
  rq_email : option string;
  rq_name : option string
}.

Record comment_json := {
  cm_body : option string;
  cm_uploads : option (list string)
}.

Record feedback_json := {
  fj_requester : option requester_json;
  fj_subject : option string;
  fj_comment : option comment_json
}.

Record Request := {
  method : string;
  authorization : option (string * string);  (* username, password *)
  content_type : option string;
  args : gmap string string;
  data : list Byte.byte;
  json : option feedback_json;               (* request.json["request"] *)
  headers : gmap string string;
  remote_addr : string
}.

(** What a handler returns to the framework. *)
Inductive response :=
| Text (body : string)                        (* a str: status 200 *)
| ErrorStatus (client_error : string) (status : Z)  (* a tuple (body, status) *)
| Jsonify (token : string).                   (* {"upload": {"token": token}} *)

(** [_abort_return(client_error, internal_error)]: prints, and returns
    the pair for the framework. *)
Definition http_abort_return (client_error : string) : response :=
  ErrorStatus client_error 400.

(** [request.headers.get("X-Forwarded-For", request.remote_addr)] *)
Definition client_ip (request : Request) : string :=
  default (remote_addr request) (headers request !! "X-Forwarded-For").

(** The filters [where(EMAIL, "==", email).where(ARCHIVED, "==", "")]. *)
Definition pending_for (email : string) (d : doc) : bool :=
  match d !! FEEDBACKDOC_FIELD_EMAIL, d !! FEEDBACKDOC_FIELD_ARCHIVEDTIMESTAMP with
  | Some e, Some a => is_str e email && is_str a ""
  | _, _ => false
  end.

(** ** [fmpfeedback_upload] *)

Definition upload_ignored_text : string :=
  "This upload was ignored; upload limit is 10".

Section Handlers.
Context `{PyLib}.
Variable cfg : Config.

(** Lines 146-192: the upload document and the Firestore part of the
    handler, giving the response of the early return or the token. *)
Definition upload_store (request : Request) (feedback_email upload_filename : string)
    : M (response + string) :=
  let fs_feedback_doc_id := args request !! "token" in
  let upload_doc : doc :=
    <[UPLOADDOC_FIELD_DATA := VBytes (data request)]>
    (<[UPLOADDOC_FIELD_FILENAME := VStr upload_filename]> ∅) in
  (* the statements after the if/else: contentLength, then the add *)
  let add_upload (fs_feedback_doc_id : string) (upload_doc : doc) : M (response + string) :=
    d <- getitem upload_doc UPLOADDOC_FIELD_DATA ;;
    match py_len d with
    | None => raise TypeError
    | Some n =>
        fs_uploads_add fs_feedback_doc_id
          (<[UPLOADDOC_FIELD_CONTENTLENGTH := VInt n]> upload_doc) ;;;
        ret (inr fs_feedback_doc_id)
    end in
  new_client ;;;
  if match fs_feedback_doc_id with Some t => negb (String.eqb t "") | None => false end then
    let fs_feedback_doc_id := default "" fs_feedback_doc_id in
    fs_upload_docs <- fs_uploads_get fs_feedback_doc_id ;;
    (* Prevent uploading too many attachments to a single feedback document. *)
    if FEEDBACK_MAX_UPLOADS <=? Z.of_nat (List.length fs_upload_docs) then
      add_upload fs_feedback_doc_id
        (<[UPLOADDOC_FIELD_UPLOADIGNORED := VBool true]>
         (<[UPLOADDOC_FIELD_DATA := VStr upload_ignored_text]> upload_doc))
    else
      add_upload fs_feedback_doc_id upload_doc
  else
    (* Prevent submitting too much feedback *)
    fs_feedback_docs <- fs_query (pending_for feedback_email) ;;
    if FEEDBACK_MAX_PENDING_SUBMITS <=? Z.of_nat (List.length fs_feedback_docs) then
      ret (inl (http_abort_return "TOO MUCH FEEDBACK"))
    else
      now <- datetime_utcnow ;;
      let feedback_doc : doc :=
        <[FEEDBACKDOC_FIELD_EMAIL := VStr feedback_email]>
        (<[FEEDBACKDOC_FIELD_CREATETIMESTAMP := VStr (isoformat_seconds (as_utc now))]>
        (<[FEEDBACKDOC_FIELD_CLIENTIP := VStr (client_ip request)]>
        (<[FEEDBACKDOC_FIELD_HASUPLOADS := VBool true]> ∅))) in
      fs_feedback_doc_id <- fs_add (dict_or FEEDBACK_EMPTY_DOC feedback_doc) ;;
      add_upload fs_feedback_doc_id upload_doc.

(** [fmpfeedback_upload(request)] *)
Definition fmpfeedback_upload (request : Request) : M response :=
  if String.eqb (method request) "GET" then
    match FEEDBACK_SENDER_AUTHTOKEN cfg with
    | Some (String _ _) => raise (HTTPException 405)
    | _ => ret (Text "You must define FEEDBACK_SENDER_AUTHTOKEN as a Runtime Environment Variable. See README for details.")
    end
  else
  match authorization request with
  | None => raise AttributeError
  | Some (auth_username, auth_token) =>
  let feedback_email := removesuffix auth_username "/token" in
  if String.eqb auth_username "" then ret (http_abort_return "BAD AUTH") else
  if String.eqb feedback_email auth_username then ret (http_abort_return "BAD AUTH") else
  if String.eqb auth_token "" then ret (http_abort_return "BAD TOKEN") else
  if negb (bool_decide (Some auth_token = FEEDBACK_SENDER_AUTHTOKEN cfg)) then
    ret (http_abort_return "BAD TOKEN") else
  match args request !! "filename" with
  | None => ret (http_abort_return "BAD FILENAME")
  | Some upload_filename =>
  if String.eqb upload_filename "" then ret (http_abort_return "BAD FILENAME") else
  if negb (bool_decide (content_type request = Some "application/binary")) then
    ret (http_abort_return "BAD CONTENT") else
  if match data request with [] => true | _ => false end then
    ret (http_abort_return "BAD DATA") else
  if FEEDBACK_MAX_UPLOAD_SIZE <? Z.of_nat (List.length (data request)) then
    ret (http_abort_return "BAD DATA") else
  r <- try_except (upload_store request feedback_email upload_filename)
         (fun _ => ret (inl (http_abort_return "FIRESTORE FAIL"))) ;;
  match r with
  | inl early => ret early
  | inr fs_feedback_doc_id => ret (Jsonify fs_feedback_doc_id)
  end
  end
  end.

(** ** [fmpfeedback_comment] *)

(** Lines 161-186: stores the feedback document; gives the response of
    the early return or the id of the document. *)
Definition comment_store (request : Request) (feedback_email : string)
    (feedback_doc : doc) (fs_feedback_doc_id : option string) : M (response + string) :=
  new_client ;;;
  match fs_feedback_doc_id with
  | Some fs_feedback_doc_id =>
      (* Update details for existing feedback document with attachments *)
      fs_update fs_feedback_doc_id feedback_doc ;;;
      ret (inr fs_feedback_doc_id)
  | None =>
      fs_feedback_docs <- fs_query (pending_for feedback_email) ;;
      (* Prevent submitting too much feedback *)
      if FEEDBACK_MAX_PENDING_SUBMITS <=? Z.of_nat (List.length fs_feedback_docs) then
        ret (inl (http_abort_return "TOO MUCH FEEDBACK"))
      else
        now <- datetime_utcnow ;;
        let feedback_doc : doc :=
          <[FEEDBACKDOC_FIELD_CLIENTIP := VStr (client_ip request)]>
          (<[FEEDBACKDOC_FIELD_CREATETIMESTAMP := VStr (isoformat_seconds (as_utc now))]>
          (<[FEEDBACKDOC_FIELD_EMAIL := VStr feedback_email]> feedback_doc)) in
        fs_feedback_doc_id <- fs_add (dict_or FEEDBACK_EMPTY_DOC feedback_doc) ;;
        ret (inr fs_feedback_doc_id)
  end.

(** The message published for a document id. *)
Definition pubsub_message (action fs_feedback_doc_id : string) : doc :=
  <[FEEDBACK_PUBSUB_FIELD_ACTION := VStr action]>
  (<[FEEDBACK_PUBSUB_FIELD_DOCID := VStr fs_feedback_doc_id]> ∅).

(** Lines 199-217 (and 147-165 of the caretaker): publishes one message;
    [Some] is the response of a failure. *)
Definition publish_action (action fs_feedback_doc_id : string) : M (option response) :=
  try_except
    (new_client ;;;
     r <- try_except (ps_get_topic ;;; ret true)
            (fun e => match e with NotFound => ret false | _ => raise e end) ;;
     if r : bool then
       ps_publish (pubsub_message action fs_feedback_doc_id) ;;;
       ret None
     else ret (Some (http_abort_return "PUBSUB FAIL")))
    (fun _ => ret (Some (http_abort_return "PUBSUB FAIL"))).

(** [x = next(iter(x))] under [if x:]: the first token, when there is one. *)
Definition first_upload_token (uploads : option (list string)) : option string :=
  match uploads with
  | Some (t :: _) => Some t
  | _ => None
  end.

(** [fmpfeedback_comment(request)] *)
Definition fmpfeedback_comment (request : Request) : M response :=
  if String.eqb (method request) "GET" then
    match FEEDBACK_SENDER_AUTHTOKEN cfg with
    | Some (String _ _) => raise (HTTPException 405)
    | _ => ret (Text "You must define FEEDBACK_SENDER_AUTHTOKEN as a Runtime Environment Variable. See README for details.")
    end
  else
  match authorization request with
  | None => raise AttributeError
  | Some (auth_username, auth_token) =>
  if negb (bool_decide (content_type request = Some "application/json")) then
    ret (http_abort_return "BAD CONTENT") else
  if String.eqb auth_token "" then ret (http_abort_return "BAD TOKEN") else
  if negb (bool_decide (Some auth_token = FEEDBACK_SENDER_AUTHTOKEN cfg)) then
    ret (http_abort_return "BAD TOKEN") else
  match json request with
  | Some {| fj_requester := Some requester;
            fj_subject := Some feedback_subject;
            fj_comment := Some comment |} =>
  match rq_email requester, cm_body comment with
  | Some feedback_email, Some feedback_body =>
  if String.eqb feedback_email "" then ret (http_abort_return "BAD DATA") else
  if String.eqb feedback_subject "" then ret (http_abort_return "BAD DATA") else
  if String.eqb feedback_body "" then ret (http_abort_return "BAD DATA") else
  if String.eqb auth_username "" then ret (http_abort_return "BAD AUTH") else
  if negb (String.eqb auth_username (feedback_email ++ "/token")) then
    ret (http_abort_return "BAD AUTH") else
  let feedback_doc : doc :=
    <[FEEDBACKDOC_FIELD_MESSAGE := VStr feedback_body]>
    (<[FEEDBACKDOC_FIELD_SUBJECT := VStr feedback_subject]> ∅) in
  let feedback_doc : doc :=
    match rq_name requester with
    | Some (String _ _ as feedback_name) =>
        <[FEEDBACKDOC_FIELD_NAME := VStr feedback_name]> feedback_doc
    | _ => feedback_doc
    end in
  (* An "uploads token" will be included if any files were attached *)
  let fs_feedback_doc_id :=
    match first_upload_token (cm_uploads comment) with
    | Some (String _ _ as t) => Some t
    | _ => None
    end in
  (* 1. Store feedback document in Firestore collection *)
  r <- try_except (comment_store request feedback_email feedback_doc fs_feedback_doc_id)
         (fun _ => ret (inl (http_abort_return "FIRESTORE FAIL"))) ;;
  match r with
  | inl early => ret early
  | inr fs_feedback_doc_id =>
      (* 2. Publish Pub/Sub message *)
      r <- publish_action FEEDBACK_PUBSUB_ACTION_NEWFEEDBACK fs_feedback_doc_id ;;
      match r with
      | Some failure => ret failure
      | None => ret (Text "OK")
      end
  end
  | _, _ => ret (http_abort_return "BAD DATA")
  end
  | _ => ret (http_abort_return "BAD DATA")
  end
  end.

(** ** [fmpfeedback_mailgun] *)

(** The inner [_abort_return(internal_error)] of the mailgun module:
    prints, and returns [False]. *)
Definition _abort_return : M bool := ret false.

(** Lines 255-260: the loop over the upload documents. *)
Fixpoint attach_uploads (fs_upload_docs : list doc) (attachments : list attachment)
    : M (list attachment) :=
  match fs_upload_docs with
  | [] => ret attachments
  | upload_doc :: rest =>
      filename <- getitem upload_doc UPLOADDOC_FIELD_FILENAME ;;
      data <- getitem upload_doc UPLOADDOC_FIELD_DATA ;;
      filename <- as_str TypeError filename ;;
      let mime_type := guess_type filename in
      attach_uploads rest
        (attachments ++ [{| att_filename := filename; att_data := data;
                            att_mime := default "" mime_type |}])%list
  end.

(** Lines 241-260: the attachments of the message. *)
Definition collect_attachments (fs_feedback_doc : DocumentSnapshot) (feedback_doc : doc)
    : M (list attachment) :=
  has_uploads <- getitem feedback_doc FEEDBACKDOC_FIELD_HASUPLOADS ;;
  if truthy has_uploads then
    r <- try_except
           (fs_upload_docs <- fs_uploads_get (snap_id fs_feedback_doc) ;;
            ret (Some fs_upload_docs))
           (fun _ => _abort_return ;;; ret None) ;;
    match r with
    | Some fs_upload_docs => attach_uploads fs_upload_docs []
    | None => ret []
    end
  else ret [].

(** [formataddr] on values read from a document. *)
Definition py_formataddr (name : option string) (address : string) : M string :=
  match formataddr name address with
  | Some s => ret s
  | None => raise ValueError
  end.

(** Lines 262-275: the sender, the reply address and the form data. *)
Definition compose_message (feedback_doc : doc) : M doc :=
  name <- getitem feedback_doc FEEDBACKDOC_FIELD_NAME ;;
  from_email <- getitem feedback_doc FEEDBACKDOC_FIELD_EMAIL ;;
  from_email <- as_str AttributeError from_email ;;
  from_name <- (if truthy name
                then (n <- as_str AttributeError name ;; ret (Some n))
                else ret None) ;;
  reply_to <- py_formataddr from_name from_email ;;
  sender <- py_formataddr (Some (reply_to ++ " via")) (MAILGUN_SENDER_ADDR cfg) ;;
  subject <- getitem feedback_doc FEEDBACKDOC_FIELD_SUBJECT ;;
  text <- getitem feedback_doc FEEDBACKDOC_FIELD_MESSAGE ;;
  ret (<["from" := VStr sender]>
      (<["to" := VStr (MAILGUN_RECIPIENT cfg)]>
      (<["subject" := subject]>
      (<["text" := text]>
      (<["h:sender" := VStr sender]>
      (<["h:reply-to" := VStr reply_to]>
      (<["h:X-Origin-Mailer" := VStr "FMPFeedbackGCPService.fmpfeedback_mailgun"]>
       ∅))))))).

(** [_fmpfeedback_mailgun_send(fs_feedback_doc)] *)
Definition _fmpfeedback_mailgun_send (fs_feedback_doc : DocumentSnapshot) : M bool :=
  match to_dict fs_feedback_doc with
  | None => raise TypeError
  | Some feedback_doc =>
  archived <- getitem feedback_doc FEEDBACKDOC_FIELD_ARCHIVEDTIMESTAMP ;;
  if truthy archived then ret true else
  for_each [FEEDBACKDOC_FIELD_EMAIL; FEEDBACKDOC_FIELD_SUBJECT; FEEDBACKDOC_FIELD_MESSAGE]
    (fun field =>
       v <- getitem feedback_doc field ;;
       if negb (truthy v) then _abort_return ;;; ret tt else ret tt) ;;;
  attachments <- collect_attachments fs_feedback_doc feedback_doc ;;
  message_data <- compose_message feedback_doc ;;
  r <- try_except
         (response <- requests_post
            {| post_url := MAILGUN_REQUESTS_URL cfg;
               post_auth := (MAILGUN_API_AUTHUSER, MAILGUN_API_KEY cfg);
               post_files := attachments;
               post_data := message_data |} ;;
          raise_for_status (fst response) ;;;
          ret (Some response))
         (fun _ => _abort_return ;;; ret None) ;;
  match r with
  | None => ret true
  | Some response =>
      match snd response with
      | None => raise ValueError
      | Some response_json =>
          id <- getitem response_json "id" ;;
          id <- as_str TypeError id ;;
          let message_id := slice_1_m1 id in
          now <- datetime_utcnow ;;
          let feedback_doc :=
            <[FEEDBACKDOC_FIELD_ARCHIVEDTIMESTAMP := VStr (isoformat now)]>
            (<[FEEDBACKDOC_FIELD_MAILGUN_MESSAGEID := VStr message_id]> feedback_doc) in
          (* Tag message as being dealt with *)
          fs_update (snap_id fs_feedback_doc) feedback_doc ;;;
          ret true
      end
  end
  end.

(** [fmpfeedback_mailgun_pubsub(event, context)], on the message that
    [event["data"]] decodes to. *)
Definition fmpfeedback_mailgun_pubsub (pubsub_message : doc) : M unit :=
  if MAILGUN_RUNTIME_VARS_MISSING cfg then ret tt else
  let feedback_action := pubsub_message !! FEEDBACK_PUBSUB_FIELD_ACTION in
  if negb (truthy_opt feedback_action) then ret tt else
  if negb (match feedback_action with
           | Some a => is_str a FEEDBACK_PUBSUB_ACTION_NEWFEEDBACK
                       || is_str a FEEDBACK_PUBSUB_ACTION_CARETAKER_RETRY
           | None => false
           end) then ret tt else
  match pubsub_message !! FEEDBACK_PUBSUB_FIELD_DOCID with
  | None => ret tt
  | Some fs_feedback_doc_id =>
  if negb (truthy fs_feedback_doc_id) then ret tt else
  r <- try_except
         (new_client ;;;
          id <- as_str TypeError fs_feedback_doc_id ;;
          fs_feedback_doc <- fs_get id ;;
          ret (Some fs_feedback_doc))
         (fun _ => ret None) ;;
  match r with
  | None => ret tt
  | Some fs_feedback_doc =>
      _fmpfeedback_mailgun_send fs_feedback_doc ;;; ret tt
  end
  end.

(** The filters [where(MESSAGE, "!=", "").where(ARCHIVED, "==", "")]. *)
Definition unsent (d : doc) : bool :=
  match d !! FEEDBACKDOC_FIELD_MESSAGE, d !! FEEDBACKDOC_FIELD_ARCHIVEDTIMESTAMP with
  | Some m, Some a => negb (is_str m "") && is_str a ""
  | _, _ => false
  end.

(** [fmpfeedback_mailgun_debug(request)] *)
Definition fmpfeedback_mailgun_debug : M response :=
  if MAILGUN_RUNTIME_VARS_MISSING cfg then ret (http_abort_return "CONFIG FAIL") else
  r <- try_except
         (new_client ;;; fs_feedback_docs <- fs_query unsent ;; ret (Some fs_feedback_docs))
         (fun _ => ret None) ;;
  match r with
  | None => ret (http_abort_return "FIRESTORE FAIL")
  | Some fs_feedback_docs =>
      for_each fs_feedback_docs
        (fun fs_doc =>
           _fmpfeedback_mailgun_send {| snap_id := fst fs_doc; to_dict := Some (snd fs_doc) |} ;;;
           ret tt) ;;;
      ret (Text "OK")
  end.

(** ** [fmpfeedback_caretaker] *)

(** [datetime.utcnow() - timedelta] for a span in microseconds, as the
    wall-clock microseconds of the result. *)
Definition utcnow_minus (span : Z) : M Z :=
  now <- datetime_utcnow ;;
  let t := wall_us now - span in
  if (t <? wall_us_min) || (wall_us_max <? t) then raise OverflowError else ret t.

(** [datetime.fromisoformat(v) <= threshold] for a naive [threshold]. *)
Definition parsed_before (v : value) (threshold : Z) : M bool :=
  s <- as_str TypeError v ;;
  match fromisoformat s with
  | None => raise ValueError
  | Some t =>
      match tzinfo t with
      | Some _ => raise TypeError
      | None => ret (wall_us t <=? threshold)
      end
  end.

(** The filter [where(field, "!=", "")]: the field is there and differs. *)
Definition field_ne_empty (field : string) (d : doc) : bool :=
  match d !! field with Some v => negb (is_str v "") | None => false end.

(** The filter [where(field, "==", "")]. *)
Definition field_eq_empty (field : string) (d : doc) : bool :=
  match d !! field with Some v => is_str v "" | None => false end.

(** Lines 95-106: delete archived feedback documents that have expired. *)
Definition expire_archived (delete_prior_to_date : Z) : M unit :=
  fs_query_docs <- fs_query (field_ne_empty FEEDBACKDOC_FIELD_ARCHIVEDTIMESTAMP) ;;
  for_each fs_query_docs (fun fs_feedback_doc =>
    let feedback_doc := snd fs_feedback_doc in
    archived <- getitem feedback_doc FEEDBACKDOC_FIELD_ARCHIVEDTIMESTAMP ;;
    expired <- parsed_before archived delete_prior_to_date ;;
    if expired : bool then fs_delete (fst fs_feedback_doc) else ret tt).

(** Lines 108-120: delete feedback documents that have uploads but no
    comment. *)
Definition reap_orphans (five_min_ago : Z) : M unit :=
  fs_query_docs <- fs_query (field_eq_empty FEEDBACKDOC_FIELD_MESSAGE) ;;
  for_each fs_query_docs (fun fs_feedback_doc =>
    let feedback_doc := snd fs_feedback_doc in
    created <- getitem feedback_doc FEEDBACKDOC_FIELD_CREATETIMESTAMP ;;
    old <- parsed_before created five_min_ago ;;
    if old : bool then fs_delete (fst fs_feedback_doc) else ret tt).

(** Lines 122-133: find feedback documents that look to have been
    missed. *)
Fixpoint collect_stale (docs : list (string * doc)) (republish_prior_to_date : Z)
    (stale_doc_ids : list string) : M (list string) :=
  match docs with
  | [] => ret stale_doc_ids
  | fs_feedback_doc :: rest =>
      let feedback_doc := snd fs_feedback_doc in
      created <- getitem feedback_doc FEEDBACKDOC_FIELD_CREATETIMESTAMP ;;
      stale <- parsed_before created republish_prior_to_date ;;
      collect_stale rest republish_prior_to_date
        (if stale : bool then (stale_doc_ids ++ [fst fs_feedback_doc])%list else stale_doc_ids)
  end.

Definition find_stale (republish_prior_to_date : Z) : M (list string) :=
  fs_query_docs <- fs_query (field_eq_empty FEEDBACKDOC_FIELD_ARCHIVEDTIMESTAMP) ;;
  collect_stale fs_query_docs republish_prior_to_date [].

(** Lines 146-176: the retry messages; stops at the first failure. *)
Fixpoint republish (stale_doc_ids : list string) : M response :=
  match stale_doc_ids with
  | [] => ret (Text "OK")
  | fs_feedback_doc_id :: rest =>
      r <- publish_action FEEDBACK_PUBSUB_ACTION_CARETAKER_RETRY fs_feedback_doc_id ;;
      match r with
      | Some failure => ret failure
      | None => republish rest
      end
  end.

(** [fmpfeedback_caretaker(request)] *)
Definition fmpfeedback_caretaker : M response :=
  republish_prior_to_date <- utcnow_minus (CARETAKER_REPUBLISH_AFTER cfg * us_per_hour) ;;
  delete_prior_to_date <- utcnow_minus (CARETAKER_KEEP_HISTORY cfg * us_per_day) ;;
  five_min_ago <- utcnow_minus (5 * us_per_minute) ;;
  r <- try_except
         (new_client ;;;
          expire_archived delete_prior_to_date ;;;
          reap_orphans five_min_ago ;;;
          stale_doc_ids <- find_stale republish_prior_to_date ;;
          ret (Some stale_doc_ids))
         (fun _ => ret None) ;;
  match r with
  | None => ret (http_abort_return "FIRESTORE FAIL")
  | Some stale_doc_ids => republish stale_doc_ids
  end.

End Handlers.

(** ** A runtime for the examples

    The MIME types of a few extensions, [formataddr] on ASCII names and
    addresses, and [fromisoformat] on the strings [isoformat] prints. *)

Definition ends_with (s suffix : string) : bool :=
  negb (String.eqb (removesuffix s suffix) s) || String.eqb suffix "".

Definition guess_type_table (filename : string) : option string :=
  if ends_with filename ".png" then Some "image/png"
  else if ends_with filename ".jpg" then Some "image/jpeg"
  else if ends_with filename ".txt" then Some "text/plain"
  else if ends_with filename ".pdf" then Some "application/pdf"
  else None.

Definition dquote : ascii := ascii_of_nat 34.

(** The characters of [email.utils.specialsre]. *)
Definition is_special (c : ascii) : bool :=
  existsb (Ascii.eqb c) (dquote :: list_ascii_of_string "[]\()<>@,:;.").

Fixpoint escape_quoted (s : string) : string :=
  match s with
  | "" => ""
  | String c s' =>
      (if Ascii.eqb c "\" || Ascii.eqb c dquote then String "\" (String c "") else String c "")
        ++ escape_quoted s'
  end.

Definition is_ascii (s : string) : bool :=
  forallb (fun c => (nat_of_ascii c <? 128)%nat) (list_ascii_of_string s).

Definition formataddr_ascii (name : option string) (address : string) : option string :=
  if negb (is_ascii address) then None else
  match name with
  | Some (String _ _ as name) =>
      if negb (is_ascii name) then None else
      let quotes :=
        if existsb is_special (list_ascii_of_string name) then String dquote "" else "" in
      Some (quotes ++ escape_quoted name ++ quotes ++ " <" ++ address ++ ">")
  | _ => Some address
  end.

Definition digit_value (c : ascii) : option Z :=
  let n := nat_of_ascii c in
  if (48 <=? n)%nat && (n <=? 57)%nat then Some (Z.of_nat (n - 48)) else None.

Fixpoint digits_value (s : string) (acc : Z) : option Z :=
  match s with
  | "" => Some acc
  | String c s' =>
      match digit_value c with
      | Some d => digits_value s' (acc * 10 + d)
      | None => None
      end
  end.

(** The number written on the [len] characters of [s] from [start]. *)
Definition number_at (s : string) (start len : nat) : option Z :=
  let t := substring start len s in
  if (String.length t =? len)%nat then digits_value t 0 else None.

Definition char_at (s : string) (i : nat) (c : ascii) : bool :=
  match String.get i s with Some c' => Ascii.eqb c' c | None => false end.

Definition days_in_month (y m : Z) : Z :=
  if (m =? 2) && is_leap y then 29
  else nth (Z.to_nat m) [0; 31; 28; 31; 30; 31; 30; 31; 31; 30; 31; 30; 31] 0.

(** [.ffffff] and [+HH:MM], each optional, from position 19 on. *)
Definition parse_fraction_offset (s : string) : option (Z * option Z) :=
  let frac := char_at s 19 "." in
  let p := if frac then 26%nat else 19%nat in
  match (if frac then number_at s 20 6 else Some 0) with
  | None => None
  | Some us =>
      if (String.length s =? p)%nat then Some (us, None)
      else if (String.length s =? p + 6)%nat
                && (char_at s p "+" || char_at s p "-") && char_at s (p + 3) ":" then
        match number_at s (p + 1) 2, number_at s (p + 4) 2 with
        | Some h, Some m =>
            if (h <? 24) && (m <? 60)
            then Some (us, Some ((if char_at s p "-" then -1 else 1) * (h * 3600 + m * 60)))
            else None
        | _, _ => None
        end
      else None
  end.

(** [YYYY-MM-DDTHH:MM:SS[.ffffff][+HH:MM]] *)
Definition fromisoformat_printed (s : string) : option datetime :=
  if char_at s 4 "-" && char_at s 7 "-" && char_at s 10 "T"
     && char_at s 13 ":" && char_at s 16 ":" then
    match number_at s 0 4, number_at s 5 2, number_at s 8 2,
          number_at s 11 2, number_at s 14 2, number_at s 17 2,
          parse_fraction_offset s with
    | Some y, Some mo, Some d, Some h, Some mi, Some sec, Some (us, tz) =>
        if (1 <=? y) && (1 <=? mo) && (mo <=? 12) && (1 <=? d) && (d <=? days_in_month y mo)
           && (h <? 24) && (mi <? 60) && (sec <? 60)
        then Some {| year := y; month := mo; day := d; hour := h; minute := mi;
                     second := sec; microsecond := us; tzinfo := tz |}
        else None
    | _, _, _, _, _, _, _ => None
    end
  else None.

#[export] Instance example_lib : PyLib := {|
  guess_type := guess_type_table;
  formataddr := formataddr_ascii;
  fromisoformat := fromisoformat_printed
|}.

(** ** A deployment for the examples *)

Definition example_cfg : Config :=
  {| FEEDBACK_SENDER_AUTHTOKEN := Some "secret";
     MAILGUN_REQUESTS_URL := "https://api.mailgun.net/v3/mg.example.org/messages";
     MAILGUN_API_KEY := "key";
     MAILGUN_SENDER_ADDR := "feedback@mg.example.org";
     MAILGUN_RECIPIENT := "support@example.org";
     MAILGUN_RUNTIME_VARS_MISSING := false;
     CARETAKER_REPUBLISH_AFTER := 24;
     CARETAKER_KEEP_HISTORY := 30 |}.

(** 2021-05-01T12:00:00.000250 *)
Definition example_now : datetime :=
  {| year := 2021; month := 5; day := 1; hour := 12; minute := 0; second := 0;
     microsecond := 250; tzinfo := None |}.

(** Mailgun accepts the message and names it. *)
Definition mailgun_accepts (p : post) : post_result :=
  PostResponse 200 (Some (<["id" := VStr "<20210501120000.1@mg.example.org>"]> ∅)).

(** The request to Mailgun does not get through. *)
Definition mailgun_unreachable (p : post) : post_result :=
  PostRaises RequestException.

(** Mailgun answers with an error status. *)
Definition mailgun_rejects (p : post) : post_result :=
  PostResponse 500 None.

(** Surroundings in which no remote call fails. *)
Definition example_env (now : datetime) (api : post -> post_result) : Env :=
  {| fault := fun _ => None;
     auto_id := fun n => "doc" ++ zpad 2 (Z.of_nat n);
     utcnow := fun _ => now;
     mailgun_api := api |}.

(** A record as the handlers write it. *)
Definition feedback_record (email created subject message name archived : string)
    (has_uploads : bool) : doc :=
  dict_or FEEDBACK_EMPTY_DOC
    (<[FEEDBACKDOC_FIELD_EMAIL := VStr email]>
    (<[FEEDBACKDOC_FIELD_CREATETIMESTAMP := VStr created]>
    (<[FEEDBACKDOC_FIELD_SUBJECT := VStr subject]>
    (<[FEEDBACKDOC_FIELD_MESSAGE := VStr message]>
    (<[FEEDBACKDOC_FIELD_NAME := VStr name]>
    (<[FEEDBACKDOC_FIELD_ARCHIVEDTIMESTAMP := VStr archived]>
    (<[FEEDBACKDOC_FIELD_CLIENTIP := VStr "10.0.0.1"]>
    (<[FEEDBACKDOC_FIELD_HASUPLOADS := VBool has_uploads]> ∅)))))))).

(** A world with one record, under the id [T1], and its children. *)
Definition one_record (d : doc) (cs : list doc) : World :=
  {| feedback := <["T1" := d]> ∅; uploads := <["T1" := cs]> ∅; topic := []; outbox := [] |}.

(** An upload of three bytes by [email]. *)
Definition upload_request (email : string) (token : option string) : Request :=
  {| method := "POST";
     authorization := Some (email ++ "/token", "secret");
     content_type := Some "application/binary";
     args := match token with
             | Some t => <["token" := t]> (<["filename" := "photo.png"]> ∅)
             | None => <["filename" := "photo.png"]> ∅
             end;
     data := [Byte.x01; Byte.x02; Byte.x03];
     json := None;
     headers := ∅;
     remote_addr := "10.0.0.1" |}.

(** A comment by [email]. *)
Definition comment_request (email : string) (uploads : option (list string)) : Request :=
  {| method := "POST";
     authorization := Some (email ++ "/token", "secret");
     content_type := Some "application/json";
     args := ∅;
     data := [];
     json := Some {| fj_requester := Some {| rq_email := Some email; rq_name := Some "Bob" |};
                     fj_subject := Some "Bug";
                     fj_comment := Some {| cm_body := Some "Crashes";
                                           cm_uploads := uploads |} |};
     headers := ∅;
     remote_addr := "10.0.0.2" |}.

(** A child that holds the bytes of an upload, and a placeholder. *)
Definition accepted_child : doc :=
  <[UPLOADDOC_FIELD_CONTENTLENGTH := VInt 3]>
  (<[UPLOADDOC_FIELD_DATA := VBytes [Byte.x01; Byte.x02; Byte.x03]]>
  (<[UPLOADDOC_FIELD_FILENAME := VStr "photo.png"]> ∅)).

Definition placeholder_child : doc :=
  <[UPLOADDOC_FIELD_CONTENTLENGTH := VInt 43]>
  (<[UPLOADDOC_FIELD_UPLOADIGNORED := VBool true]>
  (<[UPLOADDOC_FIELD_DATA := VStr upload_ignored_text]>
  (<[UPLOADDOC_FIELD_FILENAME := VStr "eleventh.png"]> ∅))).

(** ** The system as a whole *)

(** The ids generated during the invocation name no subcollection that
    is there already. *)
Definition fresh_ids (env : Env) (w : World) : Prop :=
  forall n, uploads w !! auto_id env n = None.

Definition empty_world : World :=
  {| feedback := ∅; uploads := ∅; topic := []; outbox := [] |}.

Section System.
Context `{PyLib}.
Variable cfg : Config.

(** One invocation of an entry point, on any input and in any
    surroundings, run from its first statement to its last with no other
    invocation in between; the channel may deliver any message.  The ids
    that Firestore generates are random: they name nothing in use. *)
Inductive step : World -> World -> Prop :=
| step_upload request env w :
    fresh_ids env w ->
    step w (snd (run (fmpfeedback_upload cfg request) env w))
| step_comment request env w :
    fresh_ids env w ->
    step w (snd (run (fmpfeedback_comment cfg request) env w))
| step_pubsub message env w :
    step w (snd (run (fmpfeedback_mailgun_pubsub cfg message) env w))
| step_debug env w :
    step w (snd (run (fmpfeedback_mailgun_debug cfg) env w))
| step_caretaker env w :
    step w (snd (run (fmpfeedback_caretaker cfg) env w)).

(** The worlds a deployment that starts empty can be in, when its
    invocations run one after another. *)
Inductive reachable : World -> Prop :=
| reachable_empty : reachable empty_world
| reachable_step w w' : reachable w -> step w w' -> reachable w'.

End System.

(** ** Notions the properties are stated with *)

(** A child whose [uploadIgnored] is set holds the placeholder text. *)
Definition is_placeholder (c : doc) : bool :=
  truthy_opt (c !! UPLOADDOC_FIELD_UPLOADIGNORED).

(** The number of children that are not placeholders. *)
Definition count_accepted (l : list doc) : nat :=
  List.length (List.filter (fun c => negb (is_placeholder c)) l).

(** The child that an upload call stores for the bytes it received. *)
Definition stores_upload (filename : string) (bytes : list Byte.byte) (c : doc) : Prop :=
  c !! UPLOADDOC_FIELD_FILENAME = Some (VStr filename)
  /\ c !! UPLOADDOC_FIELD_DATA = Some (VBytes bytes)
  /\ c !! UPLOADDOC_FIELD_UPLOADIGNORED = None
  /\ c !! UPLOADDOC_FIELD_CONTENTLENGTH = Some (VInt (Z.of_nat (List.length bytes))).

(** The child that an upload call stores in place of the bytes. *)
Definition stores_placeholder (filename : string) (c : doc) : Prop :=
  c !! UPLOADDOC_FIELD_FILENAME = Some (VStr filename)
  /\ c !! UPLOADDOC_FIELD_DATA = Some (VStr upload_ignored_text)
  /\ c !! UPLOADDOC_FIELD_UPLOADIGNORED = Some (VBool true)
  /\ c !! UPLOADDOC_FIELD_CONTENTLENGTH
     = Some (VInt (Z.of_nat (String.length upload_ignored_text))).

(** [contentLength] is the length of the stored [data]. *)
Definition content_length_ok (c : doc) : Prop :=
  exists v n, c !! UPLOADDOC_FIELD_DATA = Some v /\ py_len v = Some n
              /\ c !! UPLOADDOC_FIELD_CONTENTLENGTH = Some (VInt n).

(** The records of [email] that are open: [archivedTimestamp] is empty. *)
Definition open_records (email : string) (w : World) : gmap string doc :=
  filter (fun kv => pending_for email (snd kv) = true) (feedback w).

(** No remote call of the invocation raises. *)
Definition no_fault (env : Env) : Prop := forall n, fault env n = None.

(** The endpoint accepts a POST: it answers, with a status that
    [raise_for_status] lets through. *)
Definition accepted (r : post_result) : Prop :=
  match r with
  | PostResponse c _ => (400 <=? c) && (c <? 600) = false
  | PostRaises _ => False
  end.

(** The transport call fails: it raises, or answers an error status. *)
Definition transport_fails (r : post_result) : Prop :=
  match r with
  | PostResponse c _ => (400 <=? c) && (c <? 600) = true
  | PostRaises _ => True
  end.

(** The document has the fields of [FEEDBACK_EMPTY_DOC], with strings
    where the handlers write strings. *)
Record feedback_doc_wf (d : doc) : Prop := {
  wf_archived : exists v, d !! FEEDBACKDOC_FIELD_ARCHIVEDTIMESTAMP = Some v;
  wf_email : exists s, d !! FEEDBACKDOC_FIELD_EMAIL = Some (VStr s);
  wf_subject : exists v, d !! FEEDBACKDOC_FIELD_SUBJECT = Some v;
  wf_message : exists v, d !! FEEDBACKDOC_FIELD_MESSAGE = Some v;
  wf_name : exists s, d !! FEEDBACKDOC_FIELD_NAME = Some (VStr s);
  wf_has_uploads : exists v, d !! FEEDBACKDOC_FIELD_HASUPLOADS = Some v
}.

(** The attachment the loop builds for a child. *)
Definition attachment_of `{PyLib} (filename : string) (data : value) : attachment :=
  {| att_filename := filename; att_data := data;
     att_mime := default "" (guess_type filename) |}.

(** [a] is the attachment of the child [c]. *)
Definition attaches `{PyLib} (c : doc) (a : attachment) : Prop :=
  exists filename data,
    c !! UPLOADDOC_FIELD_FILENAME = Some (VStr filename)
    /\ c !! UPLOADDOC_FIELD_DATA = Some data
    /\ a = attachment_of filename data.

(** The upload request passes the checks of lines 103-139 for the caller
    [feedback_email] and the file name [upload_filename]. *)
Record upload_passes (cfg : Config) (request : Request)
    (feedback_email upload_filename : string) : Prop := {
  up_method : method request <> "GET";
  up_auth : exists auth_token,
      authorization request = Some (feedback_email ++ "/token", auth_token)
      /\ auth_token <> "" /\ FEEDBACK_SENDER_AUTHTOKEN cfg = Some auth_token;
  up_filename : args request !! "filename" = Some upload_filename /\ upload_filename <> "";
  up_content : content_type request = Some "application/binary";
  up_data : data request <> []
            /\ Z.of_nat (List.length (data request)) <= FEEDBACK_MAX_UPLOAD_SIZE
}.

(** The comment request passes the checks of lines 99-137 for the caller
    [feedback_email]. *)
Record comment_passes (cfg : Config) (request : Request)
    (feedback_email feedback_subject feedback_body : string)
    (requester : requester_json) (comment : comment_json) : Prop := {
  cp_method : method request <> "GET";
  cp_auth : exists auth_token,
      authorization request = Some (feedback_email ++ "/token", auth_token)
      /\ auth_token <> "" /\ FEEDBACK_SENDER_AUTHTOKEN cfg = Some auth_token;
  cp_content : content_type request = Some "application/json";
  cp_json : json request = Some {| fj_requester := Some requester;
                                   fj_subject := Some feedback_subject;
                                   fj_comment := Some comment |};
  cp_email : rq_email requester = Some feedback_email /\ feedback_email <> "";
  cp_subject : feedback_subject <> "";
  cp_body : cm_body comment = Some feedback_body /\ feedback_body <> ""
}.

(** The request names no correlation token. *)
Definition upload_without_token (request : Request) : Prop :=
  args request !! "token" = None \/ args request !! "token" = Some "".

Definition comment_without_token (comment : comment_json) : Prop :=
  match first_upload_token (cm_uploads comment) with
  | Some t => t = ""
  | None => True
  end.

(** The fields a comment call writes. *)
Definition comment_fields (feedback_subject feedback_body : string)
    (name : option string) : doc :=
  let feedback_doc : doc :=
    <[FEEDBACKDOC_FIELD_MESSAGE := VStr feedback_body]>
    (<[FEEDBACKDOC_FIELD_SUBJECT := VStr feedback_subject]> ∅) in
  match name with
  | Some (String _ _ as feedback_name) =>
      <[FEEDBACKDOC_FIELD_NAME := VStr feedback_name]> feedback_doc
  | _ => feedback_doc
  end.

(** What one upload call does to the subcollections: nothing, or one
    child more under one parent.  A child that holds the bytes goes under
    a parent that had fewer than the limit, or under the id just
    generated. *)
Definition upload_effect (request : Request) (env : Env) (w w' : World) : Prop :=
  uploads w' = uploads w
  \/ exists id filename c,
       uploads w' = <[id := (children w id ++ [c])%list]> (uploads w)
       /\ args request !! "filename" = Some filename
       /\ ((stores_upload filename (data request) c
            /\ ((List.length (children w id) < 10)%nat \/ exists n, id = auto_id env n))
           \/ stores_placeholder filename c).

(** The record is due for the scan of lines 108-120: its message is
    empty and its creation time is at or before the threshold. *)
Definition orphan_due `{PyLib} (five_min_ago : Z) (d : doc) : bool :=
  field_eq_empty FEEDBACKDOC_FIELD_MESSAGE d
  && match d !! FEEDBACKDOC_FIELD_CREATETIMESTAMP with
     | Some (VStr s) =>
         match fromisoformat s with
         | Some t => wall_us t <=? five_min_ago
         | None => false
         end
     | _ => false
     end.

(** The creation time of the record parses to a naive [datetime]. *)
Definition created_naive `{PyLib} (d : doc) : Prop :=
  exists s t, d !! FEEDBACKDOC_FIELD_CREATETIMESTAMP = Some (VStr s)
              /\ fromisoformat s = Some t /\ tzinfo t = None.

(** [formataddr] gives the reply address and the sender of the message
    for the record. *)
Definition addresses_ok `{PyLib} (cfg : Config) (d : doc) : Prop :=
  exists name email reply_to sender,
    d !! FEEDBACKDOC_FIELD_NAME = Some (VStr name)
    /\ d !! FEEDBACKDOC_FIELD_EMAIL = Some (VStr email)
    /\ formataddr (if truthy (VStr name) then Some name else None) email = Some reply_to
    /\ formataddr (Some (reply_to ++ " via")) (MAILGUN_SENDER_ADDR cfg) = Some sender.

(** The record is archived: its [archivedTimestamp] is not empty. *)
Definition archived (w : World) (id : string) : Prop :=
  exists d v, feedback w !! id = Some d
              /\ d !! FEEDBACKDOC_FIELD_ARCHIVEDTIMESTAMP = Some v /\ truthy v = true.

(** What a call of [_fmpfeedback_mailgun_send] on the snapshot [snap] can
    do to the world [w], and what it then returns: it stops at the guard
    of line 233 or at an exception before the POST; or it makes the POST,
    which fails, is accepted with the record left as it is, or is
    accepted with the record stamped. *)
Inductive send_effect `{PyLib} (cfg : Config) (env : Env) (snap : DocumentSnapshot)
    (w : World) : outcome bool -> World -> Prop :=
| send_guarded :
    send_effect cfg env snap w (Ret true) w
| send_raised e :
    send_effect cfg env snap w (Raise e) w
| send_transport_failed p :
    transport_fails (mailgun_api env p) ->
    send_effect cfg env snap w (Ret true) (set_outbox (outbox w ++ [p])%list w)
| send_not_stamped p e :
    accepted (mailgun_api env p) ->
    send_effect cfg env snap w (Raise e) (set_outbox (outbox w ++ [p])%list w)
| send_stamped p d old now message_id :
    accepted (mailgun_api env p) ->
    to_dict snap = Some d ->
    feedback w !! snap_id snap = Some old ->
    send_effect cfg env snap w (Ret true)
      (set_feedback
         (<[snap_id snap :=
              dict_or old
                (<[FEEDBACKDOC_FIELD_ARCHIVEDTIMESTAMP := VStr (isoformat now)]>
                 (<[FEEDBACKDOC_FIELD_MAILGUN_MESSAGEID := VStr message_id]> d))]>
            (feedback w))
         (set_outbox (outbox w ++ [p])%list w)).

(** The delivery of [message] in the world [w] succeeded: the handler
    returned, having made a POST that the endpoint accepted. *)
Definition delivered `{PyLib} (cfg : Config) (message : doc) (env : Env) (w : World) : Prop :=
  fst (run (fmpfeedback_mailgun_pubsub cfg message) env w) = Ret tt
  /\ exists p, outbox (snd (run (fmpfeedback_mailgun_pubsub cfg message) env w))
               = (outbox w ++ [p])%list
               /\ accepted (mailgun_api env p).

(** ** A program logic for the monad *)

(** [I] holds of the world after [m] whenever it holds before, whatever
    the surroundings do and however [m] ends. *)
Definition keeps {A} (I : World -> Prop) (m : M A) : Prop :=
  forall env s, I (world s) -> I (world (snd (m env s))).

(** In the surroundings [env], from a world where [P] holds, [m] ends in
    an outcome and a world that [Q] relates. *)
Definition triple {A} (env : Env) (P : World -> Prop) (m : M A)
    (Q : outcome A -> World -> Prop) : Prop :=
  forall s, P (world s) -> Q (fst (m env s)) (world (snd (m env s))).

(** [m] neither reads nor changes the world, nor interacts. *)
Definition stateless {A} (m : M A) : Prop :=
  exists r : outcome A, forall env s, m env s = (r, s).

(** ** Notions and examples the proofs use *)

(** [I] speaks of the [uploads] of a world only. *)
Definition uploads_only (I : World -> Prop) : Prop :=
  forall w w', uploads w' = uploads w -> I w -> I w'.

(** What holds of the subcollections of every reachable world. *)
Definition uploads_inv (w : World) : Prop :=
  forall id, (count_accepted (children w id) <= 10)%nat
             /\ Forall content_length_ok (children w id).

(** The snapshot that [get()] gives for the id in the world. *)
Definition snapshot_of (w : World) (id : string) : DocumentSnapshot :=
  {| snap_id := id; to_dict := feedback w !! id |}.

(** A record that an upload call has created and no comment call has
    finalized, with its upload. *)
Definition draft_world : World :=
  one_record
    (feedback_record "alice@example.org" "2021-05-01T11:58:00+00:00" "" "" "" "" true)
    [accepted_child].

(** A record that a comment call has finalized, with one upload. *)
Definition finalized_world : World :=
  one_record
    (feedback_record "alice@example.org" "2021-05-01T11:58:00+00:00" "Bug" "Crashes" "Alice"
       "" true)
    [accepted_child].

(** A finalized record with an accepted upload and a placeholder. *)
Definition mixed_world : World :=
  one_record
    (feedback_record "alice@example.org" "2021-05-01T11:58:00+00:00" "Bug" "Crashes" "Alice"
       "" true)
    [accepted_child; placeholder_child].

(** What the scan does to the collection for one document of the query. *)
Definition reap_one `{PyLib} (five_min_ago : Z) (m : gmap string doc) (kv : string * doc)
    : gmap string doc :=
  if orphan_due five_min_ago (snd kv) then delete (fst kv) m else m.

(** The body of the loop of lines 113-120. *)
Definition reap_body `{PyLib} (five_min_ago : Z) (fs_feedback_doc : string * doc) : M unit :=
  let feedback_doc := snd fs_feedback_doc in
  created <- getitem feedback_doc FEEDBACKDOC_FIELD_CREATETIMESTAMP ;;
  old <- parsed_before created five_min_ago ;;
  if old : bool then fs_delete (fst fs_feedback_doc) else ret tt.

(** A record with an empty message that is archived, created an hour
    before [example_now] with a naive creation time. *)
Definition archived_draft_world : World :=
  one_record
    (feedback_record "alice@example.org" "2021-05-01T11:00:00" "" "" ""
       "2021-05-01T11:30:00.000250" true)
    [accepted_child].

(** A draft with ten uploads. *)
Definition full_world : World :=
  one_record
    (feedback_record "alice@example.org" "2021-05-01T11:58:00+00:00" "" "" "" "" true)
    (replicate 10 accepted_child).

(** Five open records of one email. *)
Definition five_open_world : World :=
  let d := feedback_record "alice@example.org" "2021-05-01T11:58:00+00:00" "Bug" "Crashes"
             "Alice" "" false in
  {| feedback := <["R1" := d]> (<["R2" := d]> (<["R3" := d]> (<["R4" := d]> (<["R5" := d]> ∅))));
     uploads := ∅; topic := []; outbox := [] |}.

(** The world after a first upload to an empty store. *)
Definition first_upload_world : World :=
  snd (run (fmpfeedback_upload example_cfg (upload_request "alice@example.org" None))
         (example_env example_now mailgun_accepts) empty_world).

(** ** Notions for the further properties of the handlers *)

(** The plain-text errors that [fmpfeedback_upload] answers with. *)
Definition upload_errors : list string :=
  ["BAD AUTH"; "BAD TOKEN"; "BAD FILENAME"; "BAD CONTENT"; "BAD DATA";
   "TOO MUCH FEEDBACK"; "FIRESTORE FAIL"].

(** The stub record that an upload call without a token creates. *)
Definition upload_stub (request : Request) (feedback_email : string) (now : datetime) : doc :=
  dict_or FEEDBACK_EMPTY_DOC
    (<[FEEDBACKDOC_FIELD_EMAIL := VStr feedback_email]>
     (<[FEEDBACKDOC_FIELD_CREATETIMESTAMP := VStr (isoformat_seconds (as_utc now))]>
     (<[FEEDBACKDOC_FIELD_CLIENTIP := VStr (client_ip request)]>
     (<[FEEDBACKDOC_FIELD_HASUPLOADS := VBool true]> ∅)))).

(** Surroundings in which the remote call with index [n] raises [e], and
    no other fails. *)
Definition failing_env (now : datetime) (api : post -> post_result) (n : nat) (e : exn) : Env :=
  {| fault := fun k => if Nat.eqb k n then Some e else None;
     auto_id := fun n => "doc" ++ zpad 2 (Z.of_nat n);
     utcnow := fun _ => now;
     mailgun_api := api |}.

(** The record that a comment call without a token creates from the
    fields of the comment. *)
Definition comment_record (request : Request) (feedback_email : string)
    (feedback_doc : doc) (now : datetime) : doc :=
  dict_or FEEDBACK_EMPTY_DOC
    (<[FEEDBACKDOC_FIELD_CLIENTIP := VStr (client_ip request)]>
     (<[FEEDBACKDOC_FIELD_CREATETIMESTAMP := VStr (isoformat_seconds (as_utc now))]>
     (<[FEEDBACKDOC_FIELD_EMAIL := VStr feedback_email]> feedback_doc))).

(** Lines 277-306 of the mailgun module: the POST, and the stamp on the
    record when the endpoint has accepted the message. *)
Definition post_and_stamp (cfg : Config) (fs_feedback_doc : DocumentSnapshot)
    (feedback_doc : doc) (attachments : list attachment) (message_data : doc) : M bool :=
  r <- try_except
         (response <- requests_post
            {| post_url := MAILGUN_REQUESTS_URL cfg;
               post_auth := (MAILGUN_API_AUTHUSER, MAILGUN_API_KEY cfg);
               post_files := attachments;
               post_data := message_data |} ;;
          raise_for_status (fst response) ;;;
          ret (Some response))
         (fun _ => _abort_return ;;; ret None) ;;
  match r with
  | None => ret true
  | Some response =>
      match snd response with
      | None => raise ValueError
      | Some response_json =>
          id <- getitem response_json "id" ;;
          id <- as_str TypeError id ;;
          let message_id := slice_1_m1 id in
          now <- datetime_utcnow ;;
          let feedback_doc :=
            <[FEEDBACKDOC_FIELD_ARCHIVEDTIMESTAMP := VStr (isoformat now)]>
            (<[FEEDBACKDOC_FIELD_MAILGUN_MESSAGEID := VStr message_id]> feedback_doc) in
          fs_update (snap_id fs_feedback_doc) feedback_doc ;;;
          ret true
      end
  end.

(** The message is one the delivery function acts on: it names one of
    the two actions and a record. *)
Definition names_record (message : doc) (id : string) : Prop :=
  (message !! FEEDBACK_PUBSUB_FIELD_ACTION = Some (VStr FEEDBACK_PUBSUB_ACTION_NEWFEEDBACK)
   \/ message !! FEEDBACK_PUBSUB_FIELD_ACTION
      = Some (VStr FEEDBACK_PUBSUB_ACTION_CARETAKER_RETRY))
  /\ message !! FEEDBACK_PUBSUB_FIELD_DOCID = Some (VStr id)
  /\ id <> "".

(** The record as [_fmpfeedback_mailgun_send] stamps it. *)
Definition stamped (d : doc) (now : datetime) (mailgun_id : string) : doc :=
  <[FEEDBACKDOC_FIELD_ARCHIVEDTIMESTAMP := VStr (isoformat now)]>
  (<[FEEDBACKDOC_FIELD_MAILGUN_MESSAGEID := VStr (slice_1_m1 mailgun_id)]> d).

(** The endpoint accepts every message, and answers with the JSON body
    [body]. *)
Definition accepts_with (env : Env) (body : doc) : Prop :=
  forall p, exists c, mailgun_api env p = PostResponse c (Some body)
                      /\ (400 <=? c) && (c <? 600) = false.

(** The body that the loops of lines 98-106 and 113-120 share: parse the
    time under [field], compare, delete. *)
Definition sweep_body `{PyLib} (field : string) (threshold : Z)
    (fs_feedback_doc : string * doc) : M unit :=
  let feedback_doc := snd fs_feedback_doc in
  timestamp <- getitem feedback_doc field ;;
  before <- parsed_before timestamp threshold ;;
  if before : bool then fs_delete (fst fs_feedback_doc) else ret tt.

(** The time under [field] parses, and is at or before the threshold. *)
Definition due `{PyLib} (field : string) (threshold : Z) (d : doc) : bool :=
  match d !! field with
  | Some (VStr s) =>
      match fromisoformat s with
      | Some t => wall_us t <=? threshold
      | None => false
      end
  | _ => false
  end.

(** The time under [field] parses to a naive [datetime], as
    [datetime.utcnow().isoformat()] writes it. *)
Definition parses_naive `{PyLib} (field : string) (d : doc) : Prop :=
  exists s t, d !! field = Some (VStr s) /\ fromisoformat s = Some t /\ tzinfo t = None.

(** The time under [field] parses to an aware [datetime], as
    [datetime.now(timezone.utc).isoformat()] writes it. *)
Definition parses_aware `{PyLib} (field : string) (d : doc) : Prop :=
  exists s t offset,
    d !! field = Some (VStr s) /\ fromisoformat s = Some t /\ tzinfo t = Some offset.

(** What a deleting scan does to the collection for one document. *)
Definition sweep_one `{PyLib} (field : string) (threshold : Z) (m : gmap string doc)
    (kv : string * doc) : gmap string doc :=
  if due field threshold (snd kv) then delete (fst kv) m else m.

(** The record is archived and its archive time is at or before the
    threshold: the scan of lines 95-106 deletes it. *)
Definition expired `{PyLib} (delete_prior_to_date : Z) (d : doc) : bool :=
  field_ne_empty FEEDBACKDOC_FIELD_ARCHIVEDTIMESTAMP d
  && due FEEDBACKDOC_FIELD_ARCHIVEDTIMESTAMP delete_prior_to_date d.

(** The record is not archived and was created at or before the
    threshold: the scan of lines 122-133 collects its id. *)
Definition stale `{PyLib} (republish_prior_to_date : Z) (d : doc) : bool :=
  field_eq_empty FEEDBACKDOC_FIELD_ARCHIVEDTIMESTAMP d
  && due FEEDBACKDOC_FIELD_CREATETIMESTAMP republish_prior_to_date d.

(** The wall-clock microseconds of [now - span], when the difference is
    a [datetime]. *)
Definition in_range (now : datetime) (span : Z) : Prop :=
  wall_us_min <= wall_us now - span <= wall_us_max.

(** A finalized record that was archived forty days before
    [example_now], and one archived the same day. *)
Definition archive_world : World :=
  {| feedback :=
       <["old" := feedback_record "alice@example.org" "2021-03-22T11:58:00+00:00"
                    "Bug" "Crashes" "Alice" "2021-03-22T12:00:00.000250" false]>
       (<["new" := feedback_record "bob@example.org" "2021-05-01T09:58:00+00:00"
                     "Typo" "On page 2" "Bob" "2021-05-01T10:00:00.000250" false]> ∅);
     uploads := ∅; topic := []; outbox := [] |}.

(** The three thresholds of lines 88-90, from the three readings of the
    clock. *)
Definition republish_prior_to (cfg : Config) (env : Env) : Z :=
  wall_us (utcnow env 0%nat) - CARETAKER_REPUBLISH_AFTER cfg * us_per_hour.

Definition delete_prior_to (cfg : Config) (env : Env) : Z :=
  wall_us (utcnow env 1%nat) - CARETAKER_KEEP_HISTORY cfg * us_per_day.

Definition five_minutes_before (env : Env) : Z :=
  wall_us (utcnow env 2%nat) - 5 * us_per_minute.

(** The three subtractions give [datetime]s. *)
Definition thresholds_in_range (cfg : Config) (env : Env) : Prop :=
  in_range (utcnow env 0%nat) (CARETAKER_REPUBLISH_AFTER cfg * us_per_hour)
  /\ in_range (utcnow env 1%nat) (CARETAKER_KEEP_HISTORY cfg * us_per_day)
  /\ in_range (utcnow env 2%nat) (5 * us_per_minute).

(** The records the two deleting scans leave. *)
Definition swept `{PyLib} (cfg : Config) (env : Env) (m : gmap string doc) : gmap string doc :=
  filter (fun kv => orphan_due (five_minutes_before env) (snd kv) = false)
    (filter (fun kv => expired (delete_prior_to cfg env) (snd kv) = false) m).

(** The retry messages for a list of ids. *)
Definition retries (ids : list string) : list doc :=
  List.map (pubsub_message FEEDBACK_PUBSUB_ACTION_CARETAKER_RETRY) ids.

(** A store whose times are all naive: a record archived forty days
    before [example_now], an orphan of an hour, and a finalized record of
    two days that is not archived. *)
Definition naive_world : World :=
  {| feedback :=
       <["old" := feedback_record "alice@example.org" "2021-03-22T11:58:00"
                    "Bug" "Crashes" "Alice" "2021-03-22T12:00:00.000250" false]>
       (<["orphan" := feedback_record "bob@example.org" "2021-05-01T11:00:00"
                        "" "" "" "" true]>
       (<["missed" := feedback_record "carol@example.org" "2021-04-29T12:00:00"
                        "Typo" "On page 2" "Carol" "" false]> ∅));
     uploads := ∅; topic := []; outbox := [] |}.

(** ** Two upload calls at once *)

(** Lines 146-166, for a call with a token: the document for the bytes,
    the client, the fetch of the children and the choice between the
    document and the placeholder. *)
Definition upload_read (request : Request) (upload_filename fs_feedback_doc_id : string)
    : M doc :=
  let upload_doc : doc :=
    <[UPLOADDOC_FIELD_DATA := VBytes (data request)]>
    (<[UPLOADDOC_FIELD_FILENAME := VStr upload_filename]> ∅) in
  new_client ;;;
  fs_upload_docs <- fs_uploads_get fs_feedback_doc_id ;;
  (* Prevent uploading too many attachments to a single feedback document. *)
  if FEEDBACK_MAX_UPLOADS <=? Z.of_nat (List.length fs_upload_docs) then
    ret (<[UPLOADDOC_FIELD_UPLOADIGNORED := VBool true]>
         (<[UPLOADDOC_FIELD_DATA := VStr upload_ignored_text]> upload_doc))
  else
    ret upload_doc.

(** Lines 189-192: [contentLength], and the add of the child. *)
Definition upload_write (fs_feedback_doc_id : string) (upload_doc : doc)
    : M (response + string) :=
  d <- getitem upload_doc UPLOADDOC_FIELD_DATA ;;
  match py_len d with
  | None => raise TypeError
  | Some n =>
      fs_uploads_add fs_feedback_doc_id
        (<[UPLOADDOC_FIELD_CONTENTLENGTH := VInt n]> upload_doc) ;;;
      ret (inr fs_feedback_doc_id)
  end.

(** Two invocations for one token that run at once, each in its own
    surroundings and with its own count of interactions, on the one
    store: both fetch the children (line 159) before either adds its
    child (line 192).  Nothing in the source orders them: there is no
    transaction and no lock.  Gives what the two calls return to their
    handlers, and the world they leave. *)
Definition interleaved (requestA requestB : Request) (filenameA filenameB token : string)
    (envA envB : Env) (w : World)
    : outcome (response + string) * outcome (response + string) * World :=
  let '(readA, sA) := upload_read requestA filenameA token envA {| world := w; calls := 0 |} in
  let '(readB, sB) :=
    upload_read requestB filenameB token envB {| world := world sA; calls := 0 |} in
  let '(wroteA, sA') :=
    match readA with
    | Ret docA => upload_write token docA envA {| world := world sB; calls := calls sA |}
    | Raise e => (Raise e, {| world := world sB; calls := calls sA |})
    end in
  let '(wroteB, sB') :=
    match readB with
    | Ret docB => upload_write token docB envB {| world := world sA'; calls := calls sB |}
    | Raise e => (Raise e, {| world := world sA'; calls := calls sB |})
    end in
  (wroteA, wroteB, world sB').

(** A draft with nine uploads. *)
Definition nine_world : World :=
  one_record
    (feedback_record "alice@example.org" "2021-05-01T11:58:00+00:00" "" "" "" "" true)
    (replicate 9 accepted_child).

(** An hour after [example_now]. *)
Definition an_hour_later : datetime :=
  {| year := 2021; month := 5; day := 1; hour := 13; minute := 0; second := 0;
     microsecond := 250; tzinfo := None |}.

(** * Proofs *)

(** ** Rules of the program logic *)

Section Rules.
Context {A B : Type}.
Implicit Types (I P : World -> Prop).

Lemma keeps_ret I (a : A) : keeps I (ret a).
Proof. intros env s HI. exact HI. Qed.

Lemma keeps_raise I (e : exn) : keeps I (@raise A e).
Proof. intros env s HI. exact HI. Qed.

Lemma keeps_bind I (m : M A) (k : A -> M B) :
  keeps I m -> (forall a, keeps I (k a)) -> keeps I (bind m k).
Proof.
  intros Hm Hk env s HI. unfold bind.
  specialize (Hm env s HI).
  destruct (m env s) as [[a | e] s']; simpl in *.
  - apply (Hk a), Hm.
  - exact Hm.
Qed.

Lemma keeps_try I (m : M A) (h : exn -> M A) :
  keeps I m -> (forall e, keeps I (h e)) -> keeps I (try_except m h).
Proof.
  intros Hm Hh env s HI. unfold try_except.
  specialize (Hm env s HI).
  destruct (m env s) as [[a | e] s']; simpl in *.
  - exact Hm.
  - apply (Hh e), Hm.
Qed.

Lemma keeps_interact I (f : Env -> nat -> World -> outcome A * World) :
  (forall env n w, I w -> I (snd (f env n w))) -> keeps I (interact f).
Proof.
  intros Hf env s HI. unfold interact.
  specialize (Hf env (calls s) (world s) HI).
  destruct (f env (calls s) (world s)) as [r w']. exact Hf.
Qed.

Lemma keeps_remote I (f : Env -> nat -> World -> outcome A * World) :
  (forall env n w, I w -> I (snd (f env n w))) -> keeps I (remote f).
Proof.
  intros Hf. apply keeps_interact. intros env n w HI.
  destruct (fault env n); [exact HI | apply Hf, HI].
Qed.

Lemma triple_ret env P (a : A) (Q : outcome A -> World -> Prop) :
  (forall w, P w -> Q (Ret a) w) -> triple env P (ret a) Q.
Proof. intros HQ s HP. apply HQ, HP. Qed.

Lemma triple_raise env P (e : exn) (Q : outcome A -> World -> Prop) :
  (forall w, P w -> Q (Raise e) w) -> triple env P (raise e) Q.
Proof. intros HQ s HP. apply HQ, HP. Qed.

Lemma triple_bind env P (m : M A) (k : A -> M B)
    (R : A -> World -> Prop) (Q : outcome B -> World -> Prop) :
  triple env P m (fun r w => match r with Ret a => R a w | Raise e => Q (Raise e) w end) ->
  (forall a, triple env (R a) (k a) Q) ->
  triple env P (bind m k) Q.
Proof.
  intros Hm Hk s HP. unfold bind.
  specialize (Hm s HP).
  destruct (m env s) as [[a | e] s']; simpl in *.
  - apply (Hk a), Hm.
  - exact Hm.
Qed.

Lemma triple_try env P (m : M A) (h : exn -> M A)
    (R : exn -> World -> Prop) (Q : outcome A -> World -> Prop) :
  triple env P m (fun r w => match r with Ret a => Q (Ret a) w | Raise e => R e w end) ->
  (forall e, triple env (R e) (h e) Q) ->
  triple env P (try_except m h) Q.
Proof.
  intros Hm Hh s HP. unfold try_except.
  specialize (Hm s HP).
  destruct (m env s) as [[a | e] s']; simpl in *.
  - exact Hm.
  - apply (Hh e), Hm.
Qed.

Lemma triple_interact env P (f : Env -> nat -> World -> outcome A * World)
    (Q : outcome A -> World -> Prop) :
  (forall n w, P w -> Q (fst (f env n w)) (snd (f env n w))) ->
  triple env P (interact f) Q.
Proof.
  intros Hf s HP. unfold interact.
  specialize (Hf (calls s) (world s) HP).
  destruct (f env (calls s) (world s)) as [r w']. exact Hf.
Qed.

Lemma triple_remote env P (f : Env -> nat -> World -> outcome A * World)
    (Q : outcome A -> World -> Prop) :
  (forall n w, P w ->
     match fault env n with
     | Some e => Q (Raise e) w
     | None => Q (fst (f env n w)) (snd (f env n w))
     end) ->
  triple env P (remote f) Q.
Proof.
  intros Hf. apply triple_interact. intros n w HP.
  specialize (Hf n w HP). destruct (fault env n); exact Hf.
Qed.

Lemma triple_weaken env P P' (m : M A) (Q Q' : outcome A -> World -> Prop) :
  triple env P' m Q' ->
  (forall w, P w -> P' w) -> (forall r w, Q' r w -> Q r w) ->
  triple env P m Q.
Proof. intros Hm HP HQ s Hs. apply HQ, Hm, HP, Hs. Qed.

Lemma triple_stateless env P (m : M A) (Q : outcome A -> World -> Prop) :
  stateless m -> (forall r w, P w -> Q r w) -> triple env P m Q.
Proof. intros [r Hr] HQ s HP. rewrite Hr. apply HQ, HP. Qed.

Lemma stateless_ret (a : A) : stateless (ret a).
Proof. exists (Ret a). reflexivity. Qed.

Lemma stateless_raise (e : exn) : stateless (@raise A e).
Proof. exists (Raise e). reflexivity. Qed.

Lemma stateless_bind (m : M A) (k : A -> M B) :
  stateless m -> (forall a, stateless (k a)) -> stateless (bind m k).
Proof.
  intros [r Hr] Hk. destruct r as [a | e].
  - destruct (Hk a) as [r' Hr']. exists r'. intros env s.
    unfold bind. rewrite Hr. apply Hr'.
  - exists (Raise e). intros env s. unfold bind. rewrite Hr. reflexivity.
Qed.

Lemma stateless_keeps I (m : M A) : stateless m -> keeps I m.
Proof. intros [r Hr] env s HI. rewrite Hr. exact HI. Qed.

End Rules.

Lemma keeps_for_each {A} (I : World -> Prop) (l : list A) (body : A -> M unit) :
  (forall x, keeps I (body x)) -> keeps I (for_each l body).
Proof.
  intros Hb. induction l as [| x l IH]; simpl.
  - apply keeps_ret.
  - apply keeps_bind; [apply Hb | intros _; exact IH].
Qed.

Lemma stateless_getitem (d : doc) (k : string) : stateless (getitem d k).
Proof. unfold getitem. destruct (d !! k); [apply stateless_ret | apply stateless_raise]. Qed.

Lemma stateless_as_str (e : exn) (v : value) : stateless (as_str e v).
Proof. destruct v; simpl; first [apply stateless_ret | apply stateless_raise]. Qed.

Lemma stateless_for_each {A} (l : list A) (body : A -> M unit) :
  (forall x, stateless (body x)) -> stateless (for_each l body).
Proof.
  intros Hb. induction l as [| x l IH]; simpl.
  - apply stateless_ret.
  - apply stateless_bind; [apply Hb | intros _; exact IH].
Qed.

(** Splits a goal [keeps I m] or [stateless m] along the shape of [m]. *)
Ltac logic_step :=
  match goal with
  | |- keeps _ (ret _) => apply keeps_ret
  | |- keeps _ (raise _) => apply keeps_raise
  | |- keeps _ (getitem _ _) => apply stateless_keeps, stateless_getitem
  | |- keeps _ (as_str _ _) => apply stateless_keeps, stateless_as_str
  | |- keeps _ (bind _ _) => apply keeps_bind; [ | intros ? ]
  | |- keeps _ (try_except _ _) => apply keeps_try; [ | intros ? ]
  | |- keeps _ (for_each _ _) => apply keeps_for_each; intros ?
  | |- stateless (ret _) => apply stateless_ret
  | |- stateless (raise _) => apply stateless_raise
  | |- stateless (getitem _ _) => apply stateless_getitem
  | |- stateless (as_str _ _) => apply stateless_as_str
  | |- stateless (bind _ _) => apply stateless_bind; [ | intros ? ]
  | |- stateless (for_each _ _) => apply stateless_for_each; intros ?
  | |- keeps _ (match ?x with _ => _ end) => destruct x
  | |- stateless (match ?x with _ => _ end) => destruct x
  | |- keeps _ (let '(_, _) := ?x in _) => destruct x
  end.

(** ** Handlers that leave the subcollections alone *)

Section UploadsOnly.
Context `{PyLib}.
Variable cfg : Config.
Variable I : World -> Prop.
Hypothesis I_uploads : uploads_only I.

Lemma keeps_new_client : keeps I new_client.
Proof. apply keeps_remote. intros; simpl; assumption. Qed.

Lemma keeps_fs_query p : keeps I (fs_query p).
Proof. apply keeps_remote. intros; simpl; assumption. Qed.

Lemma keeps_fs_add d : keeps I (fs_add d).
Proof.
  apply keeps_remote. intros env n w HI. cbv zeta.
  destruct (feedback w !! auto_id env n); simpl; [assumption |].
  eapply I_uploads; [| exact HI]. reflexivity.
Qed.

Lemma keeps_fs_get id : keeps I (fs_get id).
Proof. apply keeps_remote. intros; simpl; assumption. Qed.

Lemma keeps_fs_update id fields : keeps I (fs_update id fields).
Proof.
  apply keeps_remote. intros env n w HI.
  destruct (feedback w !! id); simpl; [| assumption].
  eapply I_uploads; [| exact HI]. reflexivity.
Qed.

Lemma keeps_fs_delete id : keeps I (fs_delete id).
Proof.
  apply keeps_remote. intros env n w HI. simpl.
  eapply I_uploads; [| exact HI]. reflexivity.
Qed.

Lemma keeps_fs_uploads_get id : keeps I (fs_uploads_get id).
Proof. apply keeps_remote. intros; simpl; assumption. Qed.

Lemma keeps_ps_get_topic : keeps I ps_get_topic.
Proof. apply keeps_remote. intros; simpl; assumption. Qed.

Lemma keeps_ps_publish msg : keeps I (ps_publish msg).
Proof.
  apply keeps_remote. intros env n w HI. simpl.
  eapply I_uploads; [| exact HI]. reflexivity.
Qed.

Lemma keeps_requests_post p : keeps I (requests_post p).
Proof.
  apply keeps_interact. intros env n w HI.
  destruct (mailgun_api env p); simpl; (eapply I_uploads; [| exact HI]); reflexivity.
Qed.

Lemma keeps_datetime_utcnow : keeps I datetime_utcnow.
Proof. apply keeps_interact. intros; simpl; assumption. Qed.

Lemma keeps_raise_for_status c : keeps I (raise_for_status c).
Proof.
  unfold raise_for_status.
  destruct ((400 <=? c) && (c <? 600)); [apply keeps_raise | apply keeps_ret].
Qed.

(** Closes [keeps I m] for a handler built from the calls above. *)
Ltac frame :=
  repeat first
    [ logic_step
    | apply keeps_new_client | apply keeps_fs_query | apply keeps_fs_add
    | apply keeps_fs_get | apply keeps_fs_update | apply keeps_fs_delete
    | apply keeps_fs_uploads_get | apply keeps_ps_get_topic | apply keeps_ps_publish
    | apply keeps_requests_post | apply keeps_datetime_utcnow
    | apply keeps_raise_for_status
    | match goal with |- keeps _ (if ?b then _ else _) => destruct b end ].

Lemma keeps_publish_action action id : keeps I (publish_action action id).
Proof. unfold publish_action. frame. Qed.

Lemma keeps_comment request : keeps I (fmpfeedback_comment cfg request).
Proof.
  unfold fmpfeedback_comment, comment_store. frame; apply keeps_publish_action.
Qed.

Lemma stateless_attach_uploads l acc : stateless (attach_uploads l acc).
Proof.
  revert acc. induction l as [| c l IH]; intros acc; simpl.
  - apply stateless_ret.
  - repeat logic_step. apply IH.
Qed.

Lemma stateless_py_formataddr name address : stateless (py_formataddr name address).
Proof.
  unfold py_formataddr.
  destruct (formataddr name address); [apply stateless_ret | apply stateless_raise].
Qed.

Lemma stateless_compose_message d : stateless (compose_message cfg d).
Proof.
  unfold compose_message.
  repeat first [ logic_step | apply stateless_py_formataddr
               | match goal with |- stateless (if ?b then _ else _) => destruct b end ].
Qed.

Lemma keeps_send snap : keeps I (_fmpfeedback_mailgun_send cfg snap).
Proof.
  unfold _fmpfeedback_mailgun_send, collect_attachments, _abort_return.
  frame;
    first [ apply stateless_keeps, stateless_attach_uploads
          | apply stateless_keeps, stateless_compose_message ].
Qed.

Lemma keeps_pubsub message : keeps I (fmpfeedback_mailgun_pubsub cfg message).
Proof. unfold fmpfeedback_mailgun_pubsub. frame; apply keeps_send. Qed.

Lemma keeps_debug : keeps I (fmpfeedback_mailgun_debug cfg).
Proof. unfold fmpfeedback_mailgun_debug. frame; apply keeps_send. Qed.

Lemma keeps_utcnow_minus span : keeps I (utcnow_minus span).
Proof. unfold utcnow_minus. frame. Qed.

Lemma stateless_parsed_before v threshold : stateless (parsed_before v threshold).
Proof. unfold parsed_before. repeat logic_step. Qed.

Lemma keeps_collect_stale docs threshold acc : keeps I (collect_stale docs threshold acc).
Proof.
  revert acc. induction docs as [| d docs IH]; intros acc; simpl.
  - apply keeps_ret.
  - frame; first [apply stateless_keeps, stateless_parsed_before | apply IH].
Qed.

Lemma keeps_republish ids : keeps I (republish ids).
Proof.
  induction ids as [| id ids IH]; simpl.
  - apply keeps_ret.
  - frame; first [apply keeps_publish_action | exact IH].
Qed.

Lemma keeps_caretaker : keeps I (fmpfeedback_caretaker cfg).
Proof.
  unfold fmpfeedback_caretaker, expire_archived, reap_orphans, find_stale.
  frame;
    first [ apply keeps_utcnow_minus | apply stateless_keeps, stateless_parsed_before
          | apply keeps_collect_stale | apply keeps_republish ].
Qed.

End UploadsOnly.

(** ** Running a handler symbolically *)

(** Unfolds the monad and the remote calls, leaving the tests on the
    surroundings and on the world to case analysis. *)
Ltac exec :=
  cbv [bind ret raise try_except remote interact getitem as_str
       new_client fs_query fs_add fs_get fs_update fs_delete
       fs_uploads_get fs_uploads_add ps_get_topic ps_publish
       requests_post raise_for_status datetime_utcnow _abort_return].

Ltac exec_in H :=
  cbv [bind ret raise try_except remote interact getitem as_str
       new_client fs_query fs_add fs_get fs_update fs_delete
       fs_uploads_get fs_uploads_add ps_get_topic ps_publish
       requests_post raise_for_status datetime_utcnow _abort_return] in H.

(** The names of the fields, as the strings they are. *)
Ltac fields :=
  unfold FEEDBACKDOC_FIELD_ARCHIVEDTIMESTAMP, FEEDBACKDOC_FIELD_CLIENTIP,
    FEEDBACKDOC_FIELD_CREATETIMESTAMP, FEEDBACKDOC_FIELD_EMAIL,
    FEEDBACKDOC_FIELD_HASUPLOADS, FEEDBACKDOC_FIELD_MESSAGE,
    FEEDBACKDOC_FIELD_NAME, FEEDBACKDOC_FIELD_SUBJECT,
    FEEDBACKDOC_FIELD_MAILGUN_MESSAGEID,
    UPLOADDOC_FIELD_CONTENTLENGTH, UPLOADDOC_FIELD_DATA,
    UPLOADDOC_FIELD_FILENAME, UPLOADDOC_FIELD_UPLOADIGNORED,
    FEEDBACK_PUBSUB_FIELD_ACTION, FEEDBACK_PUBSUB_FIELD_DOCID in *.

Lemma run_world {A} (m : M A) env w :
  snd (run m env w) = world (snd (m env {| world := w; calls := 0 |})).
Proof. unfold run. destruct (m env _). reflexivity. Qed.

Lemma run_outcome {A} (m : M A) env w :
  fst (run m env w) = fst (m env {| world := w; calls := 0 |}).
Proof. unfold run. destruct (m env _). reflexivity. Qed.

Lemma run_eq {A} (m : M A) env w r s :
  m env {| world := w; calls := 0 |} = (r, s) -> run m env w = (r, world s).
Proof. unfold run. intros ->. reflexivity. Qed.

Lemma run_state {A} (m : M A) env w r w' n :
  m env {| world := w; calls := 0 |} = (r, {| world := w'; calls := n |}) ->
  run m env w = (r, w').
Proof. unfold run. intros ->. reflexivity. Qed.

Lemma run_pair {A} (m : M A) env w :
  run m env w
  = (fst (m env {| world := w; calls := 0 |}),
     world (snd (m env {| world := w; calls := 0 |}))).
Proof. unfold run. destruct (m env _). reflexivity. Qed.

(** ** Strings *)

Lemma app_nil_string (t : string) : "" ++ t = t.
Proof. reflexivity. Qed.

Lemma app_cons_string (c : ascii) (s t : string) : String c s ++ t = String c (s ++ t).
Proof. reflexivity. Qed.

Lemma substring_whole (t : string) : substring 0 (String.length t) t = t.
Proof. induction t as [| c t IH]; simpl; [reflexivity | now rewrite IH]. Qed.

Lemma substring_app_skip (s t : string) :
  substring (String.length s) (String.length t) (s ++ t) = t.
Proof.
  induction s as [| c s IH].
  - rewrite app_nil_string. apply substring_whole.
  - rewrite app_cons_string. simpl. exact IH.
Qed.

Lemma substring_app_take (s t : string) :
  substring 0 (String.length s) (s ++ t) = s.
Proof.
  induction s as [| c s IH].
  - rewrite app_nil_string. destruct t; reflexivity.
  - rewrite app_cons_string. simpl. now rewrite IH.
Qed.

Lemma length_app_string (s t : string) :
  String.length (s ++ t) = (String.length s + String.length t)%nat.
Proof.
  induction s as [| c s IH].
  - reflexivity.
  - rewrite app_cons_string. simpl. now rewrite IH.
Qed.

Lemma removesuffix_app (s suffix : string) :
  removesuffix (s ++ suffix) suffix = s.
Proof.
  unfold removesuffix. rewrite length_app_string.
  replace (String.length suffix <=? String.length s + String.length suffix)%nat with true
    by (symmetry; apply Nat.leb_le; lia).
  replace (String.length s + String.length suffix - String.length suffix)%nat
    with (String.length s) by lia.
  rewrite substring_app_skip, String.eqb_refl. simpl.
  apply substring_app_take.
Qed.

Lemma app_nonempty_ne (s t : string) : t <> "" -> s ++ t <> s.
Proof.
  intros Ht Heq. apply (f_equal String.length) in Heq.
  rewrite length_app_string in Heq. destruct t; [congruence | simpl in Heq; lia].
Qed.

Lemma app_nonempty_r (s t : string) : t <> "" -> s ++ t <> "".
Proof.
  intros Ht Heq. apply (f_equal String.length) in Heq.
  rewrite length_app_string in Heq. destruct t; [congruence | simpl in Heq; lia].
Qed.

Lemma eqb_false_of_ne (s t : string) : s <> t -> String.eqb s t = false.
Proof. apply String.eqb_neq. Qed.

Lemma zpad_length (w : nat) (n : Z) : String.length (zpad w n) = w.
Proof.
  revert n. induction w as [| w IH]; intros n; simpl; [reflexivity |].
  rewrite length_app_string, IH. simpl. lia.
Qed.

Lemma isoformat_nonempty (d : datetime) : truthy (VStr (isoformat d)) = true.
Proof.
  apply negb_true_iff, String.eqb_neq. intros Heq.
  apply (f_equal String.length) in Heq.
  unfold isoformat, iso_date_time in Heq.
  rewrite !length_app_string, !zpad_length in Heq. simpl in Heq. lia.
Qed.

(** ** Upload Ingestion *)

Lemma upload_store_effect request feedback_email upload_filename env s :
  args request !! "filename" = Some upload_filename ->
  upload_effect request env (world s)
    (world (snd (upload_store request feedback_email upload_filename env s))).
Proof.
  intros Hfn. unfold upload_store. exec.
  repeat (case_match; simpl in *; simplify_eq); try (left; reflexivity).
  all: right; eexists _, upload_filename, _; split; [reflexivity |]; split; [exact Hfn |].
  all: unfold stores_upload, stores_placeholder, FEEDBACK_MAX_UPLOADS in *; fields.
  all: simplify_map_eq.
  - right. repeat split; reflexivity.
  - left. split; [repeat split; reflexivity |]. left.
    match goal with H : (_ <=? _) = false |- _ => apply Z.leb_gt in H end. lia.
  - left. split; [repeat split; reflexivity |]. right. eexists. reflexivity.
  - left. split; [repeat split; reflexivity |]. right. eexists. reflexivity.
Qed.

Lemma upload_handler_effect cfg request env w :
  upload_effect request env w (snd (run (fmpfeedback_upload cfg request) env w)).
Proof.
  rewrite run_world. unfold fmpfeedback_upload.
  repeat case_match; try (left; reflexivity).
  all: unfold bind, try_except.
  all: match goal with
       | |- context [upload_store ?rq ?e ?f ?env ?s] =>
           pose proof (upload_store_effect rq e f env s) as Heff;
           destruct (upload_store rq e f env s) as [[[early | id] | ex] st]
       end; simpl in *; auto.
Qed.

Lemma stores_upload_ok filename bytes c :
  stores_upload filename bytes c -> content_length_ok c /\ is_placeholder c = false.
Proof.
  intros (_ & Hd & Hi & Hl). split.
  - exists (VBytes bytes), (Z.of_nat (List.length bytes)). auto.
  - unfold is_placeholder. now rewrite Hi.
Qed.

Lemma stores_placeholder_ok filename c :
  stores_placeholder filename c -> content_length_ok c /\ is_placeholder c = true.
Proof.
  intros (_ & Hd & Hi & Hl). split.
  - exists (VStr upload_ignored_text), (Z.of_nat (String.length upload_ignored_text)). auto.
  - unfold is_placeholder. now rewrite Hi.
Qed.

Lemma count_accepted_snoc l c :
  count_accepted (l ++ [c]) = (count_accepted l + if is_placeholder c then 0 else 1)%nat.
Proof.
  unfold count_accepted. rewrite List.filter_app, List.length_app. simpl.
  destruct (is_placeholder c); reflexivity.
Qed.

Lemma count_accepted_le l : (count_accepted l <= List.length l)%nat.
Proof. unfold count_accepted. apply List.filter_length_le. Qed.

Lemma uploads_inv_only : uploads_only uploads_inv.
Proof.
  intros w w' Hu Hinv id. specialize (Hinv id).
  unfold children in *. now rewrite Hu.
Qed.

Lemma upload_effect_inv request env w w' :
  fresh_ids env w -> upload_effect request env w w' -> uploads_inv w -> uploads_inv w'.
Proof.
  intros Hfresh [Hsame | (id & filename & c & Hu & _ & Hc)] Hinv.
  - eapply uploads_inv_only; eauto.
  - intros id'. specialize (Hinv id') as Hid'. unfold children in *.
    rewrite Hu, lookup_insert. case_decide as Hid; [subst id'; simpl | exact Hid'].
    destruct Hid' as [Hcount Hall].
    destruct Hc as [[Hc Hroom] | Hc].
    + apply stores_upload_ok in Hc as [Hok Hph]. split.
      * rewrite count_accepted_snoc, Hph.
        destruct Hroom as [Hlt | [n ->]].
        -- pose proof (count_accepted_le (default [] (uploads w !! id))). lia.
        -- rewrite Hfresh. simpl. unfold count_accepted. simpl. lia.
      * apply Forall_app. split; [exact Hall | now constructor].
    + apply stores_placeholder_ok in Hc as [Hok Hph]. split.
      * rewrite count_accepted_snoc, Hph. lia.
      * apply Forall_app. split; [exact Hall | now constructor].
Qed.

Lemma step_uploads_inv `{PyLib} cfg w w' :
  step cfg w w' -> uploads_inv w -> uploads_inv w'.
Proof.
  intros Hstep Hinv. destruct Hstep as [request env w Hfresh | request env w _ | msg env w | env w | env w].
  - eapply upload_effect_inv; [exact Hfresh | apply upload_handler_effect | exact Hinv].
  - rewrite run_world. now apply (keeps_comment cfg _ uploads_inv_only).
  - rewrite run_world. now apply (keeps_pubsub cfg _ uploads_inv_only).
  - rewrite run_world. now apply (keeps_debug cfg _ uploads_inv_only).
  - rewrite run_world. now apply (keeps_caretaker cfg _ uploads_inv_only).
Qed.

Lemma reachable_uploads_inv `{PyLib} cfg w : reachable cfg w -> uploads_inv w.
Proof.
  induction 1 as [| w w' _ IH Hstep].
  - intros id. unfold children. simpl. rewrite lookup_empty. simpl.
    split; [unfold count_accepted; simpl; lia | constructor].
  - eapply step_uploads_inv; eauto.
Qed.

Lemma upload_passes_run cfg request feedback_email upload_filename :
  upload_passes cfg request feedback_email upload_filename ->
  fmpfeedback_upload cfg request
  = (r <- try_except (upload_store request feedback_email upload_filename)
            (fun _ => ret (inl (http_abort_return "FIRESTORE FAIL"))) ;;
     match r with
     | inl early => ret early
     | inr fs_feedback_doc_id => ret (Jsonify fs_feedback_doc_id)
     end).
Proof.
  intros [Hm (tok & Ha & Htok & Hcfg) (Hf & Hfn) Hc (Hd & Hsz)].
  unfold fmpfeedback_upload.
  rewrite (eqb_false_of_ne _ _ Hm), Ha, removesuffix_app.
  rewrite (eqb_false_of_ne (feedback_email ++ "/token") "")
    by (apply app_nonempty_r; discriminate).
  rewrite (eqb_false_of_ne feedback_email (feedback_email ++ "/token"))
    by (intros Heq; symmetry in Heq; revert Heq; apply app_nonempty_ne; discriminate).
  rewrite (eqb_false_of_ne _ _ Htok), Hcfg.
  rewrite bool_decide_eq_true_2 by reflexivity. simpl.
  rewrite Hf, (eqb_false_of_ne _ _ Hfn), Hc.
  rewrite bool_decide_eq_true_2 by reflexivity. simpl.
  destruct (data request) as [| b l] eqn:Hdata; [congruence |].
  replace (FEEDBACK_MAX_UPLOAD_SIZE <? Z.of_nat (List.length (b :: l))) with false
    by (symmetry; apply Z.ltb_ge; exact Hsz).
  reflexivity.
Qed.

(** The Firestore part of a call with a token is the fetch and the
    choice, then the add. *)
Lemma upload_store_split request feedback_email upload_filename t :
  args request !! "token" = Some t -> t <> "" ->
  forall env s,
    upload_store request feedback_email upload_filename env s
    = (upload_doc <- upload_read request upload_filename t ;; upload_write t upload_doc) env s.
Proof.
  intros Htoken Ht env s. unfold upload_store, upload_read, upload_write.
  rewrite Htoken. simpl. rewrite (eqb_false_of_ne _ _ Ht). simpl.
  exec. simpl.
  destruct (fault env (calls s)); simpl; [reflexivity |].
  destruct (fault env (S (calls s))); simpl; [reflexivity |].
  destruct (FEEDBACK_MAX_UPLOADS <=? Z.of_nat (List.length (children (world s) t)));
    reflexivity.
Qed.

(** Two calls that both fetch the children of a parent with fewer than
    the limit both store their bytes. *)
Lemma interleaved_both_stored requestA requestB filenameA filenameB t envA envB w :
  no_fault envA -> no_fault envB ->
  Z.of_nat (List.length (children w t)) < FEEDBACK_MAX_UPLOADS ->
  exists cA cB,
    interleaved requestA requestB filenameA filenameB t envA envB w
    = (Ret (inr t), Ret (inr t),
       set_uploads (<[t := (children w t ++ [cA; cB])%list]> (uploads w)) w)
    /\ stores_upload filenameA (data requestA) cA
    /\ stores_upload filenameB (data requestB) cB.
Proof.
  intros HnfA HnfB Hroom. apply Z.leb_gt in Hroom.
  unfold interleaved, upload_read, upload_write. exec. simpl.
  repeat (rewrite HnfA; simpl). repeat (rewrite HnfB; simpl).
  rewrite Hroom. simpl. rewrite Hroom. simpl.
  fields. simplify_map_eq. repeat (rewrite HnfA; simpl). simplify_map_eq.
  repeat (rewrite HnfB; simpl).
  eexists _, _. split; [| split].
  - unfold set_uploads, children. simpl. rewrite lookup_insert_eq. simpl.
    rewrite insert_insert_eq, <- app_assoc. reflexivity.
  - unfold stores_upload. fields. simplify_map_eq. repeat split; reflexivity.
  - unfold stores_upload. fields. simplify_map_eq. repeat split; reflexivity.
Qed.

(** C5 (as amended). An upload call that names a token and passes
    authentication and validation, for a parent that already has
    [FEEDBACK_MAX_UPLOADS] (10) or more children that are not
    placeholders, returns the token and stores exactly one more child,
    with [uploadIgnored] true and the placeholder text as its data (when
    Firestore does not fail).  As long as the invocations run one after
    another, no parent has more than 10 children that are not
    placeholders.  The limit is not kept when two calls run at once: the
    Firestore part of a call with a token is the fetch of the children
    and then, apart from it, the add of the child; and two calls that
    both fetch the children of a parent with fewer than 10 before either
    adds its child both store their bytes. *)
Theorem upload_over_limit_stores_placeholder `{PyLib} (cfg : Config) :
  (forall request feedback_email upload_filename t env w,
     upload_passes cfg request feedback_email upload_filename ->
     args request !! "token" = Some t -> t <> "" ->
     no_fault env ->
     FEEDBACK_MAX_UPLOADS <= Z.of_nat (count_accepted (children w t)) ->
     exists c,
       run (fmpfeedback_upload cfg request) env w
       = (Ret (Jsonify t),
          set_uploads (<[t := (children w t ++ [c])%list]> (uploads w)) w)
       /\ stores_placeholder upload_filename c)
  /\ (forall w, reachable cfg w ->
        forall id, Z.of_nat (count_accepted (children w id)) <= FEEDBACK_MAX_UPLOADS)
  /\ (forall request feedback_email upload_filename t env s,
        args request !! "token" = Some t -> t <> "" ->
        upload_store request feedback_email upload_filename env s
        = (upload_doc <- upload_read request upload_filename t ;;
           upload_write t upload_doc) env s)
  /\ (forall requestA requestB filenameA filenameB t envA envB w,
        no_fault envA -> no_fault envB ->
        Z.of_nat (List.length (children w t)) < FEEDBACK_MAX_UPLOADS ->
        exists cA cB,
          interleaved requestA requestB filenameA filenameB t envA envB w
          = (Ret (inr t), Ret (inr t),
             set_uploads (<[t := (children w t ++ [cA; cB])%list]> (uploads w)) w)
          /\ stores_upload filenameA (data requestA) cA
          /\ stores_upload filenameB (data requestB) cB).
Proof.
  split; [| split; [| split]].
  - intros request feedback_email upload_filename t env w Hpass Htoken Ht Hnf Hcount.
    rewrite (upload_passes_run _ _ _ _ Hpass).
    eexists. split.
    + eapply run_state. unfold upload_store. exec. simpl.
      rewrite Htoken, (eqb_false_of_ne _ _ Ht). simpl.
      repeat (rewrite Hnf; simpl).
      assert ((FEEDBACK_MAX_UPLOADS <=? Z.of_nat (List.length (children w t))) = true) as ->
        by (apply Z.leb_le; pose proof (count_accepted_le (children w t)); lia).
      fields. simplify_map_eq. repeat (rewrite Hnf; simpl). reflexivity.
    + unfold stores_placeholder. fields. simplify_map_eq. repeat split; reflexivity.
  - intros w Hreach id.
    destruct (reachable_uploads_inv cfg w Hreach id) as [Hle _].
    unfold FEEDBACK_MAX_UPLOADS. lia.
  - intros request feedback_email upload_filename t env s Htoken Ht.
    now apply upload_store_split.
  - intros requestA requestB filenameA filenameB t envA envB w.
    apply interleaved_both_stored.
Qed.

(** C10. The child that an upload call stores has [contentLength] equal
    to the length of the [data] it is stored with: the number of bytes
    received when the upload is accepted, the length of the placeholder
    text (not the size of the upload) when it is ignored; and so it is
    for every child in every world the deployment can reach. *)
Theorem upload_content_length_matches_data `{PyLib} (cfg : Config) :
  (forall request env w,
     let w' := snd (run (fmpfeedback_upload cfg request) env w) in
     uploads w' = uploads w
     \/ exists id filename c,
          uploads w' = <[id := (children w id ++ [c])%list]> (uploads w)
          /\ content_length_ok c
          /\ (stores_upload filename (data request) c
              \/ stores_placeholder filename c))
  /\ (forall w, reachable cfg w ->
        forall id c, In c (children w id) -> content_length_ok c).
Proof.
  split.
  - intros request env w w'. subst w'.
    destruct (upload_handler_effect cfg request env w)
      as [Hsame | (id & filename & c & Hu & _ & [[Hc _] | Hc])].
    + left. exact Hsame.
    + right. exists id, filename, c. split; [exact Hu |].
      split; [apply (stores_upload_ok _ _ _ Hc) | left; exact Hc].
    + right. exists id, filename, c. split; [exact Hu |].
      split; [apply (stores_placeholder_ok _ _ Hc) | right; exact Hc].
  - intros w Hreach id c Hin.
    destruct (reachable_uploads_inv cfg w Hreach id) as [_ Hall].
    rewrite Forall_forall in Hall. apply Hall, list_elem_of_In, Hin.
Qed.

(** ** The quota on open records *)

Lemma list_filter_bool {A} (p : A -> bool) (l : list A) :
  List.filter p l = filter (fun x => p x = true) l.
Proof.
  induction l as [| x l IH]; [reflexivity |].
  simpl. rewrite filter_cons. destruct (p x) eqn:Hp.
  - rewrite decide_True by reflexivity. now rewrite IH.
  - rewrite decide_False by discriminate. exact IH.
Qed.

(** The query counts the open records of the caller. *)
Lemma pending_query_length (email : string) (w : World) :
  List.length (List.filter (fun kv => pending_for email (snd kv)) (map_to_list (feedback w)))
  = size (open_records email w).
Proof.
  unfold open_records. rewrite map_filter_alt, list_filter_bool.
  rewrite map_size_list_to_map; [reflexivity |].
  apply NoDup_fmap_fst.
  - intros k x y Hx Hy.
    apply list_elem_of_filter in Hx as [_ Hx]. apply list_elem_of_filter in Hy as [_ Hy].
    apply elem_of_map_to_list in Hx. apply elem_of_map_to_list in Hy. congruence.
  - apply NoDup_filter, NoDup_map_to_list.
Qed.

Lemma comment_passes_run cfg request feedback_email feedback_subject feedback_body
    requester comment :
  comment_passes cfg request feedback_email feedback_subject feedback_body requester comment ->
  fmpfeedback_comment cfg request
  = (r <- try_except
            (comment_store request feedback_email
               (comment_fields feedback_subject feedback_body (rq_name requester))
               match first_upload_token (cm_uploads comment) with
               | Some (String _ _ as t) => Some t
               | _ => None
               end)
            (fun _ => ret (inl (http_abort_return "FIRESTORE FAIL"))) ;;
     match r with
     | inl early => ret early
     | inr fs_feedback_doc_id =>
         r <- publish_action FEEDBACK_PUBSUB_ACTION_NEWFEEDBACK fs_feedback_doc_id ;;
         match r with
         | Some failure => ret failure
         | None => ret (Text "OK")
         end
     end).
Proof.
  intros [Hm (tok & Ha & Htok & Hcfg) Hc Hj (He & Hne) Hs (Hb & Hnb)].
  unfold fmpfeedback_comment.
  rewrite (eqb_false_of_ne _ _ Hm), Ha, Hc.
  rewrite bool_decide_eq_true_2 by reflexivity. simpl.
  rewrite (eqb_false_of_ne _ _ Htok), Hcfg.
  rewrite bool_decide_eq_true_2 by reflexivity. simpl.
  rewrite Hj, He, Hb.
  rewrite (eqb_false_of_ne _ _ Hne), (eqb_false_of_ne _ _ Hs), (eqb_false_of_ne _ _ Hnb).
  rewrite (eqb_false_of_ne (feedback_email ++ "/token") "")
    by (apply app_nonempty_r; discriminate).
  rewrite String.eqb_refl. simpl.
  reflexivity.
Qed.

Lemma upload_store_quota request feedback_email upload_filename env s :
  upload_without_token request ->
  FEEDBACK_MAX_PENDING_SUBMITS <= Z.of_nat (size (open_records feedback_email (world s))) ->
  world (snd (upload_store request feedback_email upload_filename env s)) = world s
  /\ (fst (upload_store request feedback_email upload_filename env s)
       = Ret (inl (http_abort_return "TOO MUCH FEEDBACK"))
      \/ exists e, fst (upload_store request feedback_email upload_filename env s) = Raise e).
Proof.
  intros Hno Hquota. rewrite <- pending_query_length in Hquota.
  apply Z.leb_le in Hquota.
  unfold upload_store. exec. simpl.
  assert (match args request !! "token" with
          | Some t => negb (String.eqb t "")
          | None => false
          end = false) as ->
    by (destruct Hno as [-> | ->]; reflexivity).
  destruct (fault env (calls s)); simpl; [split; [reflexivity | right; eauto] |].
  destruct (fault env (S (calls s))); simpl; [split; [reflexivity | right; eauto] |].
  rewrite Hquota. simpl. split; [reflexivity | left; reflexivity].
Qed.

Lemma upload_quota_world cfg request env w :
  upload_without_token request ->
  (forall auth_username auth_token,
     authorization request = Some (auth_username, auth_token) ->
     FEEDBACK_MAX_PENDING_SUBMITS
     <= Z.of_nat (size (open_records (removesuffix auth_username "/token") w))) ->
  snd (run (fmpfeedback_upload cfg request) env w) = w
  /\ forall t, fst (run (fmpfeedback_upload cfg request) env w) <> Ret (Jsonify t).
Proof.
  intros Hno Hquota. rewrite run_world, run_outcome. unfold fmpfeedback_upload.
  repeat case_match; try (split; [reflexivity | discriminate]).
  all: specialize (Hquota _ _ eq_refl).
  all: unfold bind, try_except.
  all: match goal with
       | |- context [upload_store ?rq ?e ?f ?env ?s] =>
           destruct (upload_store_quota rq e f env s Hno Hquota) as [Hw [Hr | [e' Hr]]];
           destruct (upload_store rq e f env s) as [[[early | id] | ex] st]
       end; simpl in *; simplify_eq.
  all: split; [reflexivity | discriminate].
Qed.

Lemma comment_store_quota request feedback_email feedback_doc env s :
  FEEDBACK_MAX_PENDING_SUBMITS <= Z.of_nat (size (open_records feedback_email (world s))) ->
  world (snd (comment_store request feedback_email feedback_doc None env s)) = world s
  /\ (fst (comment_store request feedback_email feedback_doc None env s)
       = Ret (inl (http_abort_return "TOO MUCH FEEDBACK"))
      \/ exists e, fst (comment_store request feedback_email feedback_doc None env s) = Raise e).
Proof.
  intros Hquota. rewrite <- pending_query_length in Hquota.
  apply Z.leb_le in Hquota.
  unfold comment_store. exec. simpl.
  destruct (fault env (calls s)); simpl; [split; [reflexivity | right; eauto] |].
  destruct (fault env (S (calls s))); simpl; [split; [reflexivity | right; eauto] |].
  rewrite Hquota. simpl. split; [reflexivity | left; reflexivity].
Qed.

Lemma comment_quota_world cfg request env w :
  (forall requester subject comment,
     json request = Some {| fj_requester := Some requester; fj_subject := Some subject;
                            fj_comment := Some comment |} ->
     comment_without_token comment
     /\ forall feedback_email, rq_email requester = Some feedback_email ->
          FEEDBACK_MAX_PENDING_SUBMITS <= Z.of_nat (size (open_records feedback_email w))) ->
  snd (run (fmpfeedback_comment cfg request) env w) = w
  /\ fst (run (fmpfeedback_comment cfg request) env w) <> Ret (Text "OK").
Proof.
  intros Hquota. rewrite run_world, run_outcome. unfold fmpfeedback_comment.
  repeat case_match; try (split; [reflexivity | discriminate]).
  all: destruct (Hquota _ _ _ eq_refl) as [Hno Hq].
  all: match goal with He : rq_email _ = Some ?e |- _ => specialize (Hq e He) end.
  all: unfold comment_without_token in Hno;
    repeat match goal with
           | Ht : first_upload_token _ = _ |- _ => rewrite Ht in Hno
           end; try discriminate.
  all: unfold bind, try_except.
  all: match goal with
       | |- context [comment_store ?rq ?e ?d None ?env ?s] =>
           destruct (comment_store_quota rq e d env s Hq) as [Hw [Hr | [e' Hr]]];
           destruct (comment_store rq e d None env s) as [[[early | id] | ex] st]
       end; simpl in *; simplify_eq.
  all: split; [reflexivity | discriminate].
Qed.

(** C6. An upload call or a comment call that names no token, made when
    the store holds [FEEDBACK_MAX_PENDING_SUBMITS] (5) or more open
    records of the caller's email, answers the plain text TOO MUCH
    FEEDBACK with status 400 and leaves the world as it was: no record
    and no child is created.  That answer is the one of a call that
    passes the checks before the quota, with Firestore not failing; any
    other such call does not succeed either and creates nothing. *)
Theorem quota_exceeded_creates_nothing (cfg : Config) :
  (forall request feedback_email upload_filename env w,
     upload_passes cfg request feedback_email upload_filename ->
     upload_without_token request ->
     no_fault env ->
     FEEDBACK_MAX_PENDING_SUBMITS <= Z.of_nat (size (open_records feedback_email w)) ->
     run (fmpfeedback_upload cfg request) env w
     = (Ret (ErrorStatus "TOO MUCH FEEDBACK" 400), w))
  /\ (forall request feedback_email feedback_subject feedback_body requester comment env w,
     comment_passes cfg request feedback_email feedback_subject feedback_body
       requester comment ->
     comment_without_token comment ->
     no_fault env ->
     FEEDBACK_MAX_PENDING_SUBMITS <= Z.of_nat (size (open_records feedback_email w)) ->
     run (fmpfeedback_comment cfg request) env w
     = (Ret (ErrorStatus "TOO MUCH FEEDBACK" 400), w))
  /\ (forall request env w,
     upload_without_token request ->
     (forall auth_username auth_token,
        authorization request = Some (auth_username, auth_token) ->
        FEEDBACK_MAX_PENDING_SUBMITS
        <= Z.of_nat (size (open_records (removesuffix auth_username "/token") w))) ->
     snd (run (fmpfeedback_upload cfg request) env w) = w
     /\ forall t, fst (run (fmpfeedback_upload cfg request) env w) <> Ret (Jsonify t))
  /\ (forall request env w,
     (forall requester subject comment,
        json request = Some {| fj_requester := Some requester; fj_subject := Some subject;
                               fj_comment := Some comment |} ->
        comment_without_token comment
        /\ forall feedback_email, rq_email requester = Some feedback_email ->
             FEEDBACK_MAX_PENDING_SUBMITS
             <= Z.of_nat (size (open_records feedback_email w))) ->
     snd (run (fmpfeedback_comment cfg request) env w) = w
     /\ fst (run (fmpfeedback_comment cfg request) env w) <> Ret (Text "OK")).
Proof.
  split; [| split; [| split]].
  - intros request feedback_email upload_filename env w Hpass Hno Hnf Hquota.
    rewrite (upload_passes_run _ _ _ _ Hpass).
    rewrite <- pending_query_length in Hquota. apply Z.leb_le in Hquota.
    eapply run_state. unfold upload_store. exec. simpl.
    assert (match args request !! "token" with
            | Some t => negb (String.eqb t "")
            | None => false
            end = false) as ->
      by (destruct Hno as [-> | ->]; reflexivity).
    repeat (rewrite Hnf; simpl). rewrite Hquota. reflexivity.
  - intros request feedback_email feedback_subject feedback_body requester comment env w
      Hpass Hno Hnf Hquota.
    rewrite (comment_passes_run _ _ _ _ _ _ _ Hpass).
    rewrite <- pending_query_length in Hquota. apply Z.leb_le in Hquota.
    assert (match first_upload_token (cm_uploads comment) with
            | Some (String _ _ as t) => Some t
            | _ => None
            end = None) as ->.
    { unfold comment_without_token in Hno.
      destruct (first_upload_token (cm_uploads comment)) as [[| c t] |];
        [reflexivity | discriminate | reflexivity]. }
    eapply run_state. unfold comment_store. exec. simpl.
    repeat (rewrite Hnf; simpl). rewrite Hquota. reflexivity.
  - apply upload_quota_world.
  - apply comment_quota_world.
Qed.

(** ** Comment Finalization *)

(** Publishing adds at most one message to the topic and touches nothing
    else. *)
Lemma publish_action_world action id env s :
  (fst (publish_action action id env s) = Ret None
   /\ world (snd (publish_action action id env s))
      = set_topic (topic (world s) ++ [pubsub_message action id])%list (world s))
  \/ (fst (publish_action action id env s) = Ret (Some (http_abort_return "PUBSUB FAIL"))
      /\ world (snd (publish_action action id env s)) = world s).
Proof.
  unfold publish_action. exec. simpl.
  repeat (case_match; simpl in *; simplify_eq); eauto.
Qed.

Lemma token_given (t : string) :
  t <> "" -> match t with String _ _ => Some t | _ => None end = Some t.
Proof. destruct t; [congruence | reflexivity]. Qed.

Lemma comment_store_update request feedback_email feedback_doc t d env w :
  feedback w !! t = Some d ->
  fault env 0%nat = None -> fault env 1%nat = None ->
  comment_store request feedback_email feedback_doc (Some t) env {| world := w; calls := 0 |}
  = (Ret (inr t),
     {| world := set_feedback (<[t := dict_or d feedback_doc]> (feedback w)) w; calls := 2 |}).
Proof.
  intros Hd Hf0 Hf1. unfold comment_store. exec. simpl.
  rewrite Hf0. simpl. rewrite Hf1, Hd. reflexivity.
Qed.

Lemma example_comment_passes (email : string) (uploads : option (list string)) :
  email <> "" ->
  comment_passes example_cfg (comment_request email uploads) email "Bug" "Crashes"
    {| rq_email := Some email; rq_name := Some "Bob" |}
    {| cm_body := Some "Crashes"; cm_uploads := uploads |}.
Proof.
  intros He. split; simpl; try reflexivity; try discriminate.
  - exists "secret". repeat split; [discriminate].
  - split; [reflexivity | exact He].
  - split; [reflexivity | discriminate].
Qed.

(** C9. A comment call that names a token and passes authentication and
    validation writes its subject, message and name (when one is given)
    into the record the token names, whatever [feedbackEmail] that record
    holds: the caller's email is not compared with it.  So there is a
    store in which a caller finalizes the record of another user. *)
Theorem comment_with_token_updates_any_owner :
  (forall cfg request feedback_email feedback_subject feedback_body requester comment
          t d env w,
     comment_passes cfg request feedback_email feedback_subject feedback_body
       requester comment ->
     first_upload_token (cm_uploads comment) = Some t -> t <> "" ->
     feedback w !! t = Some d ->
     fault env 0%nat = None -> fault env 1%nat = None ->
     feedback (snd (run (fmpfeedback_comment cfg request) env w))
     = <[t := dict_or d (comment_fields feedback_subject feedback_body (rq_name requester))]>
         (feedback w))
  /\ (exists cfg request env w t d d' owner caller subject body requester comment,
        comment_passes cfg request caller subject body requester comment
        /\ first_upload_token (cm_uploads comment) = Some t
        /\ feedback w !! t = Some d
        /\ d !! FEEDBACKDOC_FIELD_EMAIL = Some (VStr owner)
        /\ owner <> caller
        /\ fst (run (fmpfeedback_comment cfg request) env w) = Ret (Text "OK")
        /\ feedback (snd (run (fmpfeedback_comment cfg request) env w)) !! t = Some d'
        /\ d' !! FEEDBACKDOC_FIELD_EMAIL = Some (VStr owner)
        /\ d' !! FEEDBACKDOC_FIELD_MESSAGE = Some (VStr body)).
Proof.
  split.
  - intros cfg request feedback_email feedback_subject feedback_body requester comment
      t d env w Hpass Htoken Ht Hd Hf0 Hf1.
    rewrite (comment_passes_run _ _ _ _ _ _ _ Hpass), Htoken, (token_given t Ht).
    rewrite run_world. unfold bind at 1. unfold try_except.
    rewrite (comment_store_update _ _ _ _ _ _ _ Hd Hf0 Hf1).
    unfold bind.
    match goal with
    | |- context [publish_action ?a ?i ?e ?s] =>
        destruct (publish_action_world a i e s) as [[_ Hw] | [_ Hw]];
        destruct (publish_action a i e s) as [[[failure |] | ex] st]
    end; simpl in *; rewrite Hw; reflexivity.
  - exists example_cfg, (comment_request "bob@example.org" (Some ["T1"])),
      (example_env example_now mailgun_accepts),
      (one_record
         (feedback_record "alice@example.org" "2021-05-01T11:58:00+00:00" "" "" "" "" true)
         [accepted_child]),
      "T1",
      (feedback_record "alice@example.org" "2021-05-01T11:58:00+00:00" "" "" "" "" true),
      (feedback_record "alice@example.org" "2021-05-01T11:58:00+00:00" "Bug" "Crashes" "Bob"
         "" true),
      "alice@example.org", "bob@example.org", "Bug", "Crashes",
      {| rq_email := Some "bob@example.org"; rq_name := Some "Bob" |},
      {| cm_body := Some "Crashes"; cm_uploads := Some ["T1"] |}.
    split; [apply example_comment_passes; discriminate |].
    repeat split; try discriminate; vm_compute; reflexivity.
Qed.

(** ** Notification Delivery *)

Section Delivery.
Context `{PyLib}.
Variable cfg : Config.

Lemma send_archived snap d v env s :
  to_dict snap = Some d ->
  d !! FEEDBACKDOC_FIELD_ARCHIVEDTIMESTAMP = Some v ->
  truthy v = true ->
  _fmpfeedback_mailgun_send cfg snap env s = (Ret true, s).
Proof.
  intros Hd Hv Ht. unfold _fmpfeedback_mailgun_send. rewrite Hd.
  unfold bind at 1. unfold getitem. rewrite Hv. cbv [ret]. rewrite Ht. reflexivity.
Qed.

(** The checks of lines 237-239 change nothing and stop nothing. *)
Lemma stateless_field_checks (feedback_doc : doc) :
  stateless
    (for_each [FEEDBACKDOC_FIELD_EMAIL; FEEDBACKDOC_FIELD_SUBJECT; FEEDBACKDOC_FIELD_MESSAGE]
       (fun field =>
          v <- getitem feedback_doc field ;;
          if negb (truthy v) then _abort_return ;;; ret tt else ret tt)).
Proof.
  unfold _abort_return. repeat logic_step.
Qed.

Lemma collect_attachments_world snap d env s :
  world (snd (collect_attachments snap d env s)) = world s.
Proof.
  unfold collect_attachments. exec.
  destruct (d !! FEEDBACKDOC_FIELD_HASUPLOADS) as [v |]; [| reflexivity].
  destruct (truthy v); [| reflexivity]. simpl.
  destruct (fault env (calls s)); simpl; [reflexivity |].
  match goal with
  | |- context [attach_uploads ?l ?acc ?e ?st] =>
      destruct (stateless_attach_uploads l acc) as [r Hr]; rewrite Hr
  end.
  reflexivity.
Qed.

Lemma triple_quiet {A} env (w0 : World) (m : M A) (Q : outcome A -> World -> Prop) :
  (forall e s, world (snd (m e s)) = world s) ->
  (forall r, Q r w0) ->
  triple env (fun w => w = w0) m Q.
Proof. intros Hm HQ s Hs. rewrite Hm, Hs. apply HQ. Qed.

Lemma stateless_quiet {A} (m : M A) :
  stateless m -> forall e s, world (snd (m e s)) = world s.
Proof. intros [r Hr] e s. now rewrite Hr. Qed.

(** Closes a goal on what the endpoint answered from the case at hand. *)
Ltac answer :=
  unfold accepted, transport_fails;
  match goal with
  | Hp : mailgun_api _ _ = _ |- _ => rewrite Hp
  end; simpl; auto.

Lemma send_effect_holds snap env s :
  send_effect cfg env snap (world s)
    (fst (_fmpfeedback_mailgun_send cfg snap env s))
    (world (snd (_fmpfeedback_mailgun_send cfg snap env s))).
Proof.
  enough (triple env (fun w => w = world s) (_fmpfeedback_mailgun_send cfg snap)
            (send_effect cfg env snap (world s))) as Ht by (apply Ht; reflexivity).
  generalize (world s) as w0. clear s. intros w0.
  unfold _fmpfeedback_mailgun_send.
  destruct (to_dict snap) as [d |] eqn:Hd;
    [| apply triple_raise; intros w ->; first [apply send_guarded | apply send_raised]].
  eapply triple_bind with (R := fun _ w => w = w0).
  { apply triple_quiet; [apply stateless_quiet, stateless_getitem |].
    intros [v | e]; [reflexivity | first [apply send_guarded | apply send_raised]]. }
  intros archived_at.
  destruct (truthy archived_at); [apply triple_ret; intros w ->; first [apply send_guarded | apply send_raised] |].
  eapply triple_bind with (R := fun _ w => w = w0).
  { apply triple_quiet; [apply stateless_quiet, stateless_field_checks |].
    intros [v | e]; [reflexivity | first [apply send_guarded | apply send_raised]]. }
  intros _.
  eapply triple_bind with (R := fun _ w => w = w0).
  { apply triple_quiet; [apply collect_attachments_world |].
    intros [v | e]; [reflexivity | first [apply send_guarded | apply send_raised]]. }
  intros attachments.
  eapply triple_bind with (R := fun _ w => w = w0).
  { apply triple_quiet; [apply stateless_quiet, stateless_compose_message |].
    intros [v | e]; [reflexivity | first [apply send_guarded | apply send_raised]]. }
  intros message_data s Hs. simpl in Hs. subst w0.
  exec. simpl.
  repeat (case_match; simplify_eq; simpl);
    first [ apply send_transport_failed; answer
          | eapply send_stamped; [answer | eassumption | eassumption]
          | apply send_not_stamped; answer ].
Qed.

(** The entry point changes nothing, or loads the record that the
    message names and hands it to [_fmpfeedback_mailgun_send]. *)
Lemma pubsub_cases message env w :
  (fst (run (fmpfeedback_mailgun_pubsub cfg message) env w) = Ret tt
   /\ snd (run (fmpfeedback_mailgun_pubsub cfg message) env w) = w)
  \/ exists id r,
       message !! FEEDBACK_PUBSUB_FIELD_DOCID = Some (VStr id)
       /\ send_effect cfg env {| snap_id := id; to_dict := feedback w !! id |} w r
            (snd (run (fmpfeedback_mailgun_pubsub cfg message) env w))
       /\ fst (run (fmpfeedback_mailgun_pubsub cfg message) env w)
          = match r with Ret _ => Ret tt | Raise e => Raise e end.
Proof.
  rewrite run_world, run_outcome. unfold fmpfeedback_mailgun_pubsub.
  repeat (case_match; simpl in *; try discriminate); try (left; split; reflexivity).
  all: exec; simpl.
  all: match goal with
       | |- context [fault ?e 0%nat] => destruct (fault e 0%nat)
       end; simpl; [left; split; reflexivity |].
  all: match goal with
       | Hid : _ !! FEEDBACK_PUBSUB_FIELD_DOCID = Some ?v |- _ => destruct v as [id | | |]
       end; simpl; try (left; split; reflexivity).
  all: match goal with
       | |- context [fault ?e 1%nat] => destruct (fault e 1%nat)
       end; simpl; [left; split; reflexivity |].
  all: right; exists id.
  all: match goal with
       | |- context [_fmpfeedback_mailgun_send ?c ?snap ?e ?st] =>
           pose proof (send_effect_holds snap e st) as Heff;
           destruct (_fmpfeedback_mailgun_send c snap e st) as [[b | ex] st']
       end; simpl in *; eauto.
Qed.

(** The guard of line 233, seen from the entry point. *)
Lemma pubsub_archived_noop message env w :
  (forall id, message !! FEEDBACK_PUBSUB_FIELD_DOCID = Some (VStr id) -> archived w id) ->
  run (fmpfeedback_mailgun_pubsub cfg message) env w = (Ret tt, w).
Proof.
  intros Harch. unfold fmpfeedback_mailgun_pubsub.
  repeat (case_match; simpl in *; try discriminate); try reflexivity.
  all: match goal with
       | Hid : _ !! FEEDBACK_PUBSUB_FIELD_DOCID = Some ?v |- _ => destruct v as [id | | |]
       end.
  all: rewrite run_pair; exec; simpl.
  all: match goal with
       | |- context [fault ?e 0%nat] => destruct (fault e 0%nat)
       end; simpl; [reflexivity |]; try reflexivity.
  all: match goal with
       | |- context [fault ?e 1%nat] => destruct (fault e 1%nat)
       end; simpl; [reflexivity |].
  all: destruct (Harch id) as (d & at_ & Hd & Hv & Ht); [assumption || reflexivity |].
  all: erewrite send_archived; [reflexivity | simpl; exact Hd | exact Hv | exact Ht].
Qed.

Lemma accepted_not_failed r : accepted r -> transport_fails r -> False.
Proof. destruct r; simpl; [tauto | congruence]. Qed.

Lemma snoc_inj {A} (l : list A) (x y : A) : (l ++ [x] = l ++ [y])%list -> x = y.
Proof. intros Heq. apply app_inv_head in Heq. congruence. Qed.

Lemma snoc_ne {A} (l : list A) (x : A) : l <> (l ++ [x])%list.
Proof.
  intros Heq. apply (f_equal (@List.length A)) in Heq.
  rewrite List.length_app in Heq. simpl in Heq. lia.
Qed.

(** A delivery that succeeded has stamped the record it names. *)
Lemma delivered_archived message env w :
  delivered cfg message env w ->
  forall id, message !! FEEDBACK_PUBSUB_FIELD_DOCID = Some (VStr id) ->
    archived (snd (run (fmpfeedback_mailgun_pubsub cfg message) env w)) id.
Proof.
  intros [Hret (p & Hout & Hacc)] id Hid.
  pose proof (pubsub_cases message env w) as Hcases.
  destruct (run (fmpfeedback_mailgun_pubsub cfg message) env w) as [r1 w1].
  simpl in *. subst r1.
  destruct Hcases as [[_ Hw] | (id' & r & Hid' & Heff & Hr)].
  - subst w1. exfalso. eapply snoc_ne. exact Hout.
  - assert (id' = id) as -> by congruence.
    inversion Heff as [Hr0 Hw | e Hr0 Hw | p' Hfail Hr0 Hw | p' e Hacc' Hr0 Hw
                       | p' d old now mid Hacc' Hd Hold Hr0 Hw];
      subst r w1; simpl in *.
    + exfalso. eapply snoc_ne. exact Hout.
    + discriminate.
    + apply snoc_inj in Hout. subst p'. exfalso. eapply accepted_not_failed; eauto.
    + discriminate.
    + unfold archived. simpl.
      rewrite lookup_insert_eq. eexists _, _. split; [reflexivity |].
      split; [| apply (isoformat_nonempty now)].
      unfold dict_or. rewrite lookup_union_l'; [apply lookup_insert_eq |].
      rewrite lookup_insert_eq. eauto.
Qed.

End Delivery.

(** C1. On a record whose [archivedTimestamp] is not empty,
    [_fmpfeedback_mailgun_send] returns [True] and leaves the world as it
    was: no POST is made and the record is not updated.  So when a
    delivery of a message has succeeded, delivering the same message
    again, in any surroundings, sends nothing and stamps nothing: it
    returns and leaves the world as it was. *)
Theorem archived_record_is_not_sent_again `{PyLib} (cfg : Config) :
  (forall snap d v env w,
     to_dict snap = Some d ->
     d !! FEEDBACKDOC_FIELD_ARCHIVEDTIMESTAMP = Some v ->
     truthy v = true ->
     run (_fmpfeedback_mailgun_send cfg snap) env w = (Ret true, w))
  /\ (forall message env1 env2 w,
     delivered cfg message env1 w ->
     run (fmpfeedback_mailgun_pubsub cfg message) env2
       (snd (run (fmpfeedback_mailgun_pubsub cfg message) env1 w))
     = (Ret tt, snd (run (fmpfeedback_mailgun_pubsub cfg message) env1 w))).
Proof.
  split.
  - intros snap d v env w Hd Hv Ht.
    rewrite run_pair, (send_archived cfg snap d v env _ Hd Hv Ht). reflexivity.
  - intros message env1 env2 w Hdel.
    apply pubsub_archived_noop. intros id Hid.
    apply delivered_archived; assumption.
Qed.

Lemma archived_record_is_not_sent_again_witness :
  delivered example_cfg (pubsub_message FEEDBACK_PUBSUB_ACTION_NEWFEEDBACK "T1")
    (example_env example_now mailgun_accepts) finalized_world
  /\ run (fmpfeedback_mailgun_pubsub example_cfg
            (pubsub_message FEEDBACK_PUBSUB_ACTION_NEWFEEDBACK "T1"))
       (example_env example_now mailgun_unreachable)
       (snd (run (fmpfeedback_mailgun_pubsub example_cfg
                    (pubsub_message FEEDBACK_PUBSUB_ACTION_NEWFEEDBACK "T1"))
               (example_env example_now mailgun_accepts) finalized_world))
     = (Ret tt,
        snd (run (fmpfeedback_mailgun_pubsub example_cfg
                    (pubsub_message FEEDBACK_PUBSUB_ACTION_NEWFEEDBACK "T1"))
               (example_env example_now mailgun_accepts) finalized_world)).
Proof.
  assert (delivered example_cfg (pubsub_message FEEDBACK_PUBSUB_ACTION_NEWFEEDBACK "T1")
            (example_env example_now mailgun_accepts) finalized_world) as Hdel.
  { split; [vm_compute; reflexivity |].
    eexists. split; [vm_compute; reflexivity | vm_compute; reflexivity]. }
  split; [exact Hdel |].
  apply (proj2 (archived_record_is_not_sent_again example_cfg)). exact Hdel.
Defined.

Lemma send_outcome `{PyLib} cfg snap env w :
  fst (run (_fmpfeedback_mailgun_send cfg snap) env w) = Ret true
  \/ exists e, fst (run (_fmpfeedback_mailgun_send cfg snap) env w) = Raise e.
Proof.
  rewrite run_outcome.
  pose proof (send_effect_holds cfg snap env {| world := w; calls := 0 |}) as Heff.
  inversion Heff; eauto.
Qed.

(** When the POST that a call makes fails, the call returns [True] and
    the collection is as it was. *)
Lemma send_transport_failure `{PyLib} cfg snap env w p :
  outbox (snd (run (_fmpfeedback_mailgun_send cfg snap) env w)) = (outbox w ++ [p])%list ->
  transport_fails (mailgun_api env p) ->
  fst (run (_fmpfeedback_mailgun_send cfg snap) env w) = Ret true
  /\ feedback (snd (run (_fmpfeedback_mailgun_send cfg snap) env w)) = feedback w.
Proof.
  rewrite run_outcome, run_world.
  pose proof (send_effect_holds cfg snap env {| world := w; calls := 0 |}) as Heff.
  destruct (_fmpfeedback_mailgun_send cfg snap env {| world := w; calls := 0 |}) as [r st].
  simpl in *. intros Hout Hfail.
  inversion Heff as [Hr0 Hw | e Hr0 Hw | p' Hfail' Hr0 Hw | p' e Hacc Hr0 Hw
                     | p' d old now mid Hacc Hd Hold Hr0 Hw];
    subst r; rewrite <- Hw in Hout; simpl in Hout.
  - exfalso. eapply snoc_ne. exact Hout.
  - exfalso. eapply snoc_ne. exact Hout.
  - split; [reflexivity | reflexivity].
  - apply snoc_inj in Hout. subst p'. exfalso. eapply accepted_not_failed; eauto.
  - apply snoc_inj in Hout. subst p'. exfalso. eapply accepted_not_failed; eauto.
Qed.

(** C2 (the code departs from the specification). [_fmpfeedback_mailgun_send]
    never returns [False]: the value of [_abort_return] is dropped at
    lines 289-293, and the function goes on to [return True].  Whenever
    the POST it makes fails, it returns [True]; the collection is left as
    it was, as specified.  So it is on a finalized record that is not
    archived, with the request to Mailgun raising or answered by status
    500. *)
Theorem transport_failure_returns_true :
  (forall (runtime : PyLib) cfg snap env w,
     fst (run (_fmpfeedback_mailgun_send cfg snap) env w) = Ret true
     \/ exists e, fst (run (_fmpfeedback_mailgun_send cfg snap) env w) = Raise e)
  /\ (forall (runtime : PyLib) cfg snap env w p,
     outbox (snd (run (_fmpfeedback_mailgun_send cfg snap) env w)) = (outbox w ++ [p])%list ->
     transport_fails (mailgun_api env p) ->
     fst (run (_fmpfeedback_mailgun_send cfg snap) env w) = Ret true
     /\ feedback (snd (run (_fmpfeedback_mailgun_send cfg snap) env w)) = feedback w)
  /\ (let r := run (_fmpfeedback_mailgun_send example_cfg (snapshot_of finalized_world "T1"))
                 (example_env example_now mailgun_unreachable) finalized_world in
      fst r = Ret true
      /\ feedback (snd r) = feedback finalized_world
      /\ List.length (outbox (snd r)) = 1%nat)
  /\ (let r := run (_fmpfeedback_mailgun_send example_cfg (snapshot_of finalized_world "T1"))
                 (example_env example_now mailgun_rejects) finalized_world in
      fst r = Ret true
      /\ feedback (snd r) = feedback finalized_world
      /\ List.length (outbox (snd r)) = 1%nat).
Proof.
  split; [intros runtime cfg snap env w; apply send_outcome |].
  split; [intros runtime cfg snap env w p; apply send_transport_failure |].
  split; repeat split; vm_compute; reflexivity.
Qed.

(** C3 (the code departs from the specification). On a draft, whose subject and
    message are empty, [_fmpfeedback_mailgun_send] does not stop: the
    value of [_abort_return] is dropped at line 239 and the loop goes on.
    The draft is posted to Mailgun, with an empty subject and text, and
    the record is stamped as archived. *)
Theorem draft_is_sent_and_archived :
  let r := run (_fmpfeedback_mailgun_send example_cfg (snapshot_of draft_world "T1"))
             (example_env example_now mailgun_accepts) draft_world in
  fst r = Ret true
  /\ (exists p, outbox (snd r) = [p]
                /\ post_data p !! "subject" = Some (VStr "")
                /\ post_data p !! "text" = Some (VStr ""))
  /\ (exists d, feedback (snd r) !! "T1" = Some d
                /\ d !! FEEDBACKDOC_FIELD_MESSAGE = Some (VStr "")
                /\ d !! FEEDBACKDOC_FIELD_ARCHIVEDTIMESTAMP
                   = Some (VStr "2021-05-01T12:00:00.000250")).
Proof.
  split; [vm_compute; reflexivity |].
  split.
  - eexists. split; [vm_compute; reflexivity |].
    split; vm_compute; reflexivity.
  - eexists. split; [vm_compute; reflexivity |].
    split; vm_compute; reflexivity.
Qed.

(** ** The attachments of the message *)

Section Attachments.
Context `{PyLib}.
Variable cfg : Config.

Lemma attach_uploads_all (l : list doc) (acc : list attachment) :
  Forall (fun c => exists a, attaches c a) l ->
  exists atts, Forall2 attaches l atts
               /\ forall env s, attach_uploads l acc env s = (Ret (acc ++ atts)%list, s).
Proof.
  intros Hall. revert acc.
  induction Hall as [| c l (a & filename & data & Hf & Hd & ->) _ IH]; intros acc.
  - exists []. split; [constructor |]. intros env s. simpl. now rewrite app_nil_r.
  - destruct (IH (acc ++ [attachment_of filename data])%list) as (atts & Hatts & Hrun).
    exists (attachment_of filename data :: atts). split.
    + constructor; [| exact Hatts]. exists filename, data. auto.
    + intros env s. simpl. unfold bind, getitem. rewrite Hf, Hd. simpl.
      rewrite Hrun. now rewrite <- app_assoc.
Qed.

Lemma getitem_some (d : doc) (k : string) (v : value) :
  d !! k = Some v -> getitem d k = ret v.
Proof. intros Hk. unfold getitem. now rewrite Hk. Qed.

Lemma bind_ret_l {A B} (a : A) (k : A -> M B) : bind (ret a) k = k a.
Proof. reflexivity. Qed.

Lemma field_checks_pass (d : doc) :
  feedback_doc_wf d ->
  for_each [FEEDBACKDOC_FIELD_EMAIL; FEEDBACKDOC_FIELD_SUBJECT; FEEDBACKDOC_FIELD_MESSAGE]
    (fun field =>
       v <- getitem d field ;;
       if negb (truthy v) then _abort_return ;;; ret tt else ret tt)
  = ret tt.
Proof.
  intros [_ [em He] [vs Hs] [vm Hm] _ _].
  simpl. rewrite (getitem_some _ _ _ He), (getitem_some _ _ _ Hs), (getitem_some _ _ _ Hm).
  rewrite !bind_ret_l. unfold _abort_return.
  destruct (negb (truthy (VStr em))), (negb (truthy vs)), (negb (truthy vm)); reflexivity.
Qed.

Lemma compose_message_ok (d : doc) :
  feedback_doc_wf d -> addresses_ok cfg d ->
  exists message_data, forall env s, compose_message cfg d env s = (Ret message_data, s).
Proof.
  intros [_ _ [vs Hs] [vm Hm] _ _] (name & email & reply_to & sender & Hn & He & Hr & Hsd).
  eexists. intros env s.
  unfold compose_message, bind, getitem, py_formataddr. rewrite Hn, He, Hs, Hm.
  cbv [ret as_str].
  destruct (truthy (VStr name)); cbv [ret as_str]; rewrite Hr, Hsd; reflexivity.
Qed.

(** C4 (as amended). For a record that is not archived and has
    [hasUploads] set, the message that [_fmpfeedback_mailgun_send] posts
    has exactly one attachment per child of the record, in the order of
    the children, placeholders included: each attachment has the file
    name and the data of its child, and the MIME type guessed from the
    file name, or the empty string when there is no guess.  (The record
    and its children have the fields the handlers write, and the fetch of
    the children does not fail.) *)
Theorem every_child_is_attached snap d archived_at has_uploads env w :
  to_dict snap = Some d ->
  feedback_doc_wf d ->
  addresses_ok cfg d ->
  d !! FEEDBACKDOC_FIELD_ARCHIVEDTIMESTAMP = Some archived_at ->
  truthy archived_at = false ->
  d !! FEEDBACKDOC_FIELD_HASUPLOADS = Some has_uploads ->
  truthy has_uploads = true ->
  fault env 0%nat = None ->
  Forall (fun c => exists a, attaches c a) (children w (snap_id snap)) ->
  exists p,
    outbox (snd (run (_fmpfeedback_mailgun_send cfg snap) env w)) = (outbox w ++ [p])%list
    /\ Forall2 attaches (children w (snap_id snap)) (post_files p).
Proof.
  intros Hd Hwf Haddr Harch Hnot Hhas Hyes Hfault Hall.
  destruct (attach_uploads_all _ [] Hall) as (atts & Hatts & Hrun).
  destruct (compose_message_ok d Hwf Haddr) as [message_data Hmd].
  rewrite run_world. unfold _fmpfeedback_mailgun_send. rewrite Hd.
  rewrite (getitem_some _ _ _ Harch), bind_ret_l, Hnot.
  rewrite (field_checks_pass d Hwf), bind_ret_l.
  unfold collect_attachments.
  rewrite (getitem_some _ _ _ Hhas), bind_ret_l, Hyes.
  exec. simpl. rewrite Hfault. simpl. rewrite Hrun, Hmd. simpl.
  exists {| post_url := MAILGUN_REQUESTS_URL cfg;
            post_auth := (MAILGUN_API_AUTHUSER, MAILGUN_API_KEY cfg);
            post_files := atts;
            post_data := message_data |}.
  split; [| exact Hatts].
  repeat (case_match; simplify_eq; simpl); reflexivity.
Qed.

End Attachments.

Lemma every_child_is_attached_witness :
  exists p,
    outbox (snd (run (_fmpfeedback_mailgun_send example_cfg (snapshot_of mixed_world "T1"))
                   (example_env example_now mailgun_accepts) mixed_world))
    = (outbox mixed_world ++ [p])%list
    /\ Forall2 attaches (children mixed_world "T1") (post_files p).
Proof.
  apply (every_child_is_attached example_cfg (snapshot_of mixed_world "T1")
           (feedback_record "alice@example.org" "2021-05-01T11:58:00+00:00" "Bug" "Crashes"
              "Alice" "" true)
           (VStr "") (VBool true)).
  - vm_compute. reflexivity.
  - split; eexists; vm_compute; reflexivity.
  - eexists _, _, _, _. repeat split; vm_compute; reflexivity.
  - vm_compute. reflexivity.
  - reflexivity.
  - vm_compute. reflexivity.
  - reflexivity.
  - reflexivity.
  - repeat constructor; eexists; eexists _, _; repeat split; vm_compute; reflexivity.
Defined.

(** C4 (as first stated, it fails). The record has one child that is
    not a placeholder and one placeholder; the message posted for it has
    two attachments, and one of them carries the placeholder text. *)
Lemma placeholder_child_is_attached :
  count_accepted (children mixed_world "T1") = 1%nat
  /\ exists p,
       outbox (snd (run (_fmpfeedback_mailgun_send example_cfg (snapshot_of mixed_world "T1"))
                      (example_env example_now mailgun_accepts) mixed_world))
       = [p]
       /\ List.length (post_files p) = 2%nat
       /\ exists a, In a (post_files p) /\ att_data a = VStr upload_ignored_text.
Proof.
  split; [vm_compute; reflexivity |].
  eexists. split; [vm_compute; reflexivity |].
  split; [reflexivity |].
  eexists. split; [right; left; reflexivity | reflexivity].
Qed.

(** ** The action of a notification *)

Lemma comment_store_topic request feedback_email feedback_doc token env s :
  topic (world (snd (comment_store request feedback_email feedback_doc token env s)))
  = topic (world s)
  /\ forall early,
       fst (comment_store request feedback_email feedback_doc token env s) = Ret (inl early) ->
       early = http_abort_return "TOO MUCH FEEDBACK".
Proof.
  unfold comment_store. exec. simpl.
  repeat (case_match; simplify_eq; simpl); split; try reflexivity; congruence.
Qed.

(** A comment call that answers OK has published one message, with the
    action [FEEDBACK_PUBSUB_ACTION_NEWFEEDBACK]. *)
Lemma comment_ok_published cfg request env w :
  fst (run (fmpfeedback_comment cfg request) env w) = Ret (Text "OK") ->
  exists id,
    topic (snd (run (fmpfeedback_comment cfg request) env w))
    = (topic w ++ [pubsub_message FEEDBACK_PUBSUB_ACTION_NEWFEEDBACK id])%list.
Proof.
  rewrite run_world, run_outcome. unfold fmpfeedback_comment.
  repeat case_match; try discriminate.
  all: unfold bind, try_except.
  all: match goal with
       | |- context [comment_store ?rq ?e ?d ?t ?env ?s] =>
           destruct (comment_store_topic rq e d t env s) as [Htopic Hearly];
           destruct (comment_store rq e d t env s) as [[[early | id] | ex] st]
       end; simpl in *; try discriminate.
  all: try (rewrite (Hearly _ eq_refl); discriminate).
  all: match goal with
       | |- context [publish_action ?a ?i ?e ?s] =>
           destruct (publish_action_world a i e s) as [[Hr Hw] | [Hr Hw]];
           destruct (publish_action a i e s) as [[[failure' |] | ex] st']
       end; simpl in *; simplify_eq; try discriminate.
  all: intros _; exists id; rewrite Hw; simpl; now rewrite Htopic.
Qed.

Lemma pubsub_ignores `{PyLib} cfg message env w :
  (forall a, message !! FEEDBACK_PUBSUB_FIELD_ACTION = Some (VStr a) ->
             a <> FEEDBACK_PUBSUB_ACTION_NEWFEEDBACK
             /\ a <> FEEDBACK_PUBSUB_ACTION_CARETAKER_RETRY) ->
  run (fmpfeedback_mailgun_pubsub cfg message) env w = (Ret tt, w).
Proof.
  intros Hother. unfold fmpfeedback_mailgun_pubsub.
  destruct (MAILGUN_RUNTIME_VARS_MISSING cfg); [reflexivity |].
  destruct (message !! FEEDBACK_PUBSUB_FIELD_ACTION) as [[a | b | n | b] |];
    simpl; try reflexivity.
  - destruct (Hother a eq_refl) as [Hnew Hretry].
    rewrite (eqb_false_of_ne _ _ Hnew), (eqb_false_of_ne _ _ Hretry). simpl.
    destruct (negb (String.eqb a "")); reflexivity.
  - destruct (negb b); reflexivity.
  - destruct (negb (negb (n =? 0))); reflexivity.
  - destruct b; reflexivity.
Qed.

Lemma pubsub_same_for_both `{PyLib} cfg id env w :
  run (fmpfeedback_mailgun_pubsub cfg
         (pubsub_message FEEDBACK_PUBSUB_ACTION_NEWFEEDBACK id)) env w
  = run (fmpfeedback_mailgun_pubsub cfg
           (pubsub_message FEEDBACK_PUBSUB_ACTION_CARETAKER_RETRY id)) env w.
Proof.
  unfold fmpfeedback_mailgun_pubsub, pubsub_message.
  rewrite !lookup_insert_eq.
  rewrite !lookup_insert_ne by discriminate.
  rewrite !lookup_insert_eq.
  reflexivity.
Qed.

(** C8 (as amended). The message that a successful comment call
    publishes has the action "feedbackSumitted", spelled as in the three
    modules.  The delivery function leaves the world as it was, and does
    not fail, for a message whose action is any value other than the
    strings "feedbackSumitted" and "caretakerRetry"; it treats those two
    alike, and for each of them there is a world in which it posts the
    message of the record to Mailgun. *)
Theorem notification_action_literals :
  (forall cfg request env w,
     fst (run (fmpfeedback_comment cfg request) env w) = Ret (Text "OK") ->
     exists id message,
       topic (snd (run (fmpfeedback_comment cfg request) env w)) = (topic w ++ [message])%list
       /\ message !! "feedbackAction" = Some (VStr "feedbackSumitted")
       /\ message !! "feedbackDocId" = Some (VStr id))
  /\ (forall (runtime : PyLib) cfg message env w,
     (forall a, message !! "feedbackAction" = Some (VStr a) ->
                a <> "feedbackSumitted" /\ a <> "caretakerRetry") ->
     run (fmpfeedback_mailgun_pubsub cfg message) env w = (Ret tt, w))
  /\ (forall (runtime : PyLib) cfg id env w,
     run (fmpfeedback_mailgun_pubsub cfg (pubsub_message "feedbackSumitted" id)) env w
     = run (fmpfeedback_mailgun_pubsub cfg (pubsub_message "caretakerRetry" id)) env w)
  /\ List.length
       (outbox (snd (run (fmpfeedback_mailgun_pubsub example_cfg
                            (pubsub_message "caretakerRetry" "T1"))
                       (example_env example_now mailgun_accepts) finalized_world)))
     = 1%nat.
Proof.
  split; [| split; [| split]].
  - intros cfg request env w Hok.
    destruct (comment_ok_published cfg request env w Hok) as [id Htopic].
    exists id, (pubsub_message FEEDBACK_PUBSUB_ACTION_NEWFEEDBACK id).
    split; [exact Htopic |]. unfold pubsub_message. fields.
    split; [apply lookup_insert_eq |].
    rewrite lookup_insert_ne by discriminate. apply lookup_insert_eq.
  - intros runtime cfg message env w Hother. apply pubsub_ignores. exact Hother.
  - intros runtime cfg id env w. apply pubsub_same_for_both.
  - vm_compute. reflexivity.
Qed.

Lemma notification_action_literals_witness :
  exists id message,
    topic (snd (run (fmpfeedback_comment example_cfg (comment_request "bob@example.org" None))
                  (example_env example_now mailgun_accepts) empty_world))
    = (topic empty_world ++ [message])%list
    /\ message !! "feedbackAction" = Some (VStr "feedbackSumitted")
    /\ message !! "feedbackDocId" = Some (VStr id).
Proof.
  apply (proj1 notification_action_literals example_cfg
           (comment_request "bob@example.org" None)
           (example_env example_now mailgun_accepts) empty_world).
  vm_compute. reflexivity.
Defined.

(** C8 (as first stated, it fails). A comment call that succeeds
    publishes a message whose action is not "feedbackSubmitted"; and a
    message with the action "feedbackSubmitted", for a finalized record
    that is not archived, is ignored: nothing is posted to Mailgun. *)
Lemma published_action_is_not_feedbackSubmitted :
  fst (run (fmpfeedback_comment example_cfg (comment_request "bob@example.org" None))
         (example_env example_now mailgun_accepts) empty_world)
  = Ret (Text "OK")
  /\ (exists message,
        topic (snd (run (fmpfeedback_comment example_cfg
                           (comment_request "bob@example.org" None))
                      (example_env example_now mailgun_accepts) empty_world))
        = [message]
        /\ message !! "feedbackAction" <> Some (VStr "feedbackSubmitted"))
  /\ run (fmpfeedback_mailgun_pubsub example_cfg (pubsub_message "feedbackSubmitted" "T1"))
       (example_env example_now mailgun_accepts) finalized_world
     = (Ret tt, finalized_world).
Proof.
  split; [vm_compute; reflexivity |].
  split.
  - eexists. split; [vm_compute; reflexivity |]. vm_compute. discriminate.
  - vm_compute. reflexivity.
Qed.

(** ** The scan for orphans *)

Section Orphans.
Context `{PyLib}.
Variable five_min_ago : Z.

Lemma reap_orphans_body :
  reap_orphans five_min_ago
  = (fs_query_docs <- fs_query (field_eq_empty FEEDBACKDOC_FIELD_MESSAGE) ;;
     for_each fs_query_docs (reap_body five_min_ago)).
Proof. reflexivity. Qed.

Lemma for_each_cons {A} (x : A) (l : list A) (body : A -> M unit) :
  for_each (x :: l) body = (body x ;;; for_each l body).
Proof. reflexivity. Qed.

Lemma reap_loop (l : list (string * doc)) env s :
  no_fault env ->
  Forall (fun kv => field_eq_empty FEEDBACKDOC_FIELD_MESSAGE (snd kv) = true
                    /\ created_naive (snd kv)) l ->
  exists n,
    for_each l (reap_body five_min_ago) env s
    = (Ret tt,
       {| world := set_feedback (foldl (reap_one five_min_ago) (feedback (world s)) l)
                     (world s);
          calls := n |}).
Proof.
  intros Hnf Hall. revert s.
  induction Hall as [| [id d] l [Hmsg (ts & t & Hts & Hparse & Hnaive)] _ IH]; intros s.
  - exists (calls s). simpl. destruct s as [[] ?]; reflexivity.
  - assert (orphan_due five_min_ago d = (wall_us t <=? five_min_ago)) as Hdue.
    { unfold orphan_due. simpl in Hmsg, Hts. rewrite Hmsg, Hts, Hparse. reflexivity. }
    rewrite for_each_cons. unfold reap_body at 1, parsed_before. exec. simpl in *.
    rewrite Hts, Hparse, Hnaive. simpl.
    destruct (wall_us t <=? five_min_ago) eqn:Hold.
    + rewrite Hnf. simpl.
      match goal with
      | |- context [for_each l _ env ?st] => destruct (IH st) as [n Hn]
      end.
      exists n. rewrite Hn. simpl.
      replace (reap_one five_min_ago (feedback (world s)) (id, d))
        with (delete id (feedback (world s)))
        by (unfold reap_one; simpl; now rewrite Hdue).
      reflexivity.
    + destruct (IH s) as [n Hn]. exists n. rewrite Hn. simpl.
      replace (reap_one five_min_ago (feedback (world s)) (id, d))
        with (feedback (world s))
        by (unfold reap_one; simpl; now rewrite Hdue).
      reflexivity.
Qed.

End Orphans.

Section OrphanScan.
Context `{PyLib}.
Variable five_min_ago : Z.

Lemma reap_fold_none l (m : gmap string doc) k :
  m !! k = None -> foldl (reap_one five_min_ago) m l !! k = None.
Proof.
  revert m. induction l as [| [id d] l IH]; intros m Hk; simpl; [exact Hk |].
  apply IH. unfold reap_one. simpl.
  destruct (orphan_due five_min_ago d); [| exact Hk].
  rewrite lookup_delete. case_decide; [reflexivity | exact Hk].
Qed.

Lemma reap_fold_due l (m : gmap string doc) k d :
  In (k, d) l -> orphan_due five_min_ago d = true ->
  foldl (reap_one five_min_ago) m l !! k = None.
Proof.
  revert m. induction l as [| [id d'] l IH]; intros m Hin Hdue; simpl; [destruct Hin |].
  destruct Hin as [Heq | Hin].
  - inversion Heq; subst. apply reap_fold_none.
    unfold reap_one. simpl. rewrite Hdue. apply lookup_delete_eq.
  - apply IH; assumption.
Qed.

Lemma reap_fold_keep l (m : gmap string doc) k :
  (forall d, In (k, d) l -> orphan_due five_min_ago d = false) ->
  foldl (reap_one five_min_ago) m l !! k = m !! k.
Proof.
  revert m. induction l as [| [id d'] l IH]; intros m Hkeep; simpl; [reflexivity |].
  rewrite IH by (intros d Hin; apply Hkeep; right; exact Hin).
  unfold reap_one. simpl.
  destruct (orphan_due five_min_ago d') eqn:Hdue; [| reflexivity].
  apply lookup_delete_ne. intros ->.
  rewrite (Hkeep d') in Hdue by (left; reflexivity). discriminate.
Qed.

Lemma orphan_due_message d :
  orphan_due five_min_ago d = true -> field_eq_empty FEEDBACKDOC_FIELD_MESSAGE d = true.
Proof. unfold orphan_due. intros Hdue. apply andb_true_iff in Hdue. tauto. Qed.

Lemma in_query (p : doc -> bool) (m : gmap string doc) k d :
  In (k, d) (List.filter (fun kv => p (snd kv)) (map_to_list m))
  <-> m !! k = Some d /\ p d = true.
Proof.
  rewrite List.filter_In, <- list_elem_of_In, elem_of_map_to_list. reflexivity.
Qed.

Lemma reap_fold_filter (m : gmap string doc) :
  foldl (reap_one five_min_ago) m
    (List.filter (fun kv => field_eq_empty FEEDBACKDOC_FIELD_MESSAGE (snd kv))
       (map_to_list m))
  = filter (fun kv => orphan_due five_min_ago (snd kv) = false) m.
Proof.
  apply map_eq. intros k.
  destruct (m !! k) as [d |] eqn:Hk.
  - destruct (orphan_due five_min_ago d) eqn:Hdue.
    + rewrite (reap_fold_due _ _ k d);
        [| apply in_query; split; [exact Hk | apply orphan_due_message, Hdue] | exact Hdue].
      symmetry. apply map_lookup_filter_None. right.
      intros d' Hd'. simpl. congruence.
    + rewrite reap_fold_keep.
      * rewrite Hk. symmetry. apply map_lookup_filter_Some. split; [exact Hk | exact Hdue].
      * intros d' Hin. apply in_query in Hin as [Hd' _]. congruence.
  - rewrite reap_fold_none by exact Hk.
    symmetry. apply map_lookup_filter_None. left. exact Hk.
Qed.

End OrphanScan.

(** On creation times that parse to naive [datetime]s, which the
    threshold can be compared with (the handlers write none), the scan
    for orphans deletes exactly the records whose [feedbackMessage] is
    empty and whose creation time is at or before five minutes ago,
    whatever their [archivedTimestamp]; the other records stay, and
    nothing else changes, when Firestore does not fail. *)
Theorem orphan_scan_deletes_by_message_and_age `{PyLib} (now : datetime) env w :
  no_fault env ->
  (forall id d, feedback w !! id = Some d ->
     field_eq_empty FEEDBACKDOC_FIELD_MESSAGE d = true -> created_naive d) ->
  run (reap_orphans (wall_us now - 5 * us_per_minute)) env w
  = (Ret tt,
     set_feedback
       (filter (fun kv => orphan_due (wall_us now - 5 * us_per_minute) (snd kv) = false)
          (feedback w))
       w).
Proof.
  intros Hnf Hnaive.
  rewrite reap_orphans_body. unfold run, bind at 1, fs_query, remote, interact.
  rewrite Hnf. cbn [world calls].
  match goal with
  | |- context [for_each ?l _ env ?st] =>
      destruct (reap_loop (wall_us now - 5 * us_per_minute) l env st Hnf) as [n Hn]
  end.
  { apply List.Forall_forall. intros [id d] Hin.
    apply in_query in Hin as [Hd Hmsg]. split; [exact Hmsg | eapply Hnaive; eauto]. }
  rewrite Hn. cbn [world]. now rewrite reap_fold_filter.
Qed.

Lemma orphan_scan_deletes_by_message_and_age_witness :
  run (reap_orphans (wall_us example_now - 5 * us_per_minute))
    (example_env example_now mailgun_accepts) archived_draft_world
  = (Ret tt,
     set_feedback
       (filter (fun kv => orphan_due (wall_us example_now - 5 * us_per_minute) (snd kv) = false)
          (feedback archived_draft_world))
       archived_draft_world).
Proof.
  apply (orphan_scan_deletes_by_message_and_age example_now
           (example_env example_now mailgun_accepts) archived_draft_world).
  - intros n. reflexivity.
  - intros id d Hd _. simpl in Hd.
    rewrite lookup_insert in Hd. case_decide; [| rewrite lookup_empty in Hd; discriminate].
    inversion Hd. eexists _, _. repeat split; vm_compute; reflexivity.
Defined.

(** The query of line 112 has no filter on [archivedTimestamp]: with a
    naive creation time, a record whose [archivedTimestamp] is not empty,
    with an empty message and created an hour ago, is deleted by the scan
    for orphans. *)
Lemma archived_record_is_reaped :
  (exists d, feedback archived_draft_world !! "T1" = Some d
             /\ d !! FEEDBACKDOC_FIELD_ARCHIVEDTIMESTAMP
                = Some (VStr "2021-05-01T11:30:00.000250"))
  /\ feedback (snd (run (reap_orphans (wall_us example_now - 5 * us_per_minute))
                      (example_env example_now mailgun_accepts) archived_draft_world))
       !! "T1"
     = None.
Proof.
  split.
  - eexists. split; vm_compute; reflexivity.
  - vm_compute. reflexivity.
Qed.

(** On a draft as the upload call writes it, whose creation time carries
    the offset of UTC, the comparison with the naive threshold raises:
    the scan stops, the sweep answers FIRESTORE FAIL, and the draft is
    not deleted. *)
Lemma orphan_scan_raises_on_aware_creation_time :
  fst (run (reap_orphans (wall_us example_now - 5 * us_per_minute))
         (example_env example_now mailgun_accepts) draft_world)
  = Raise TypeError
  /\ run (fmpfeedback_caretaker example_cfg)
       (example_env example_now mailgun_accepts) draft_world
     = (Ret (ErrorStatus "FIRESTORE FAIL" 400), draft_world).
Proof. split; vm_compute; reflexivity. Qed.

(** ** The theorems at concrete inputs *)

Lemma example_upload_passes (email : string) (token : option string) :
  upload_passes example_cfg (upload_request email token) email "photo.png".
Proof.
  split; simpl; try reflexivity; try discriminate.
  - exists "secret". repeat split; [discriminate].
  - split; [destruct token; vm_compute; reflexivity | discriminate].
  - split; [discriminate | vm_compute; discriminate].
Qed.

Lemma upload_over_limit_stores_placeholder_witness :
  exists c,
    run (fmpfeedback_upload example_cfg (upload_request "alice@example.org" (Some "T1")))
      (example_env example_now mailgun_accepts) full_world
    = (Ret (Jsonify "T1"),
       set_uploads (<["T1" := (children full_world "T1" ++ [c])%list]> (uploads full_world))
         full_world)
    /\ stores_placeholder "photo.png" c.
Proof.
  apply (proj1 (upload_over_limit_stores_placeholder example_cfg)
           (upload_request "alice@example.org" (Some "T1")) "alice@example.org").
  - apply example_upload_passes.
  - vm_compute. reflexivity.
  - discriminate.
  - intros n. reflexivity.
  - vm_compute. discriminate.
Defined.

(** C5 (as first stated, it fails). A parent has nine children, none a
    placeholder.  Two upload calls for it run at once: both fetch the
    nine children, and then both add their child.  Both return the token,
    and the parent has eleven children that are not placeholders.  (Run
    one after the other, the two calls leave ten, and one placeholder.) *)
Lemma interleaved_uploads_pass_the_limit :
  count_accepted (children nine_world "T1") = 9%nat
  /\ (forall env s,
        upload_store (upload_request "alice@example.org" (Some "T1")) "alice@example.org"
          "photo.png" env s
        = (upload_doc <- upload_read (upload_request "alice@example.org" (Some "T1"))
                           "photo.png" "T1" ;;
           upload_write "T1" upload_doc) env s)
  /\ (exists w',
        interleaved (upload_request "alice@example.org" (Some "T1"))
          (upload_request "alice@example.org" (Some "T1")) "photo.png" "photo.png" "T1"
          (example_env example_now mailgun_accepts) (example_env example_now mailgun_accepts)
          nine_world
        = (Ret (inr "T1"), Ret (inr "T1"), w')
        /\ count_accepted (children w' "T1") = 11%nat)
  /\ count_accepted
       (children
          (snd (run (fmpfeedback_upload example_cfg
                       (upload_request "alice@example.org" (Some "T1")))
                  (example_env example_now mailgun_accepts)
                  (snd (run (fmpfeedback_upload example_cfg
                               (upload_request "alice@example.org" (Some "T1")))
                          (example_env example_now mailgun_accepts) nine_world))))
          "T1")
     = 10%nat.
Proof.
  split; [vm_compute; reflexivity |].
  split; [intros env s; apply upload_store_split; [vm_compute; reflexivity | discriminate] |].
  split; [eexists; split; vm_compute; reflexivity |].
  vm_compute. reflexivity.
Qed.

Lemma quota_exceeded_creates_nothing_witness :
  run (fmpfeedback_upload example_cfg (upload_request "alice@example.org" None))
    (example_env example_now mailgun_accepts) five_open_world
  = (Ret (ErrorStatus "TOO MUCH FEEDBACK" 400), five_open_world).
Proof.
  apply (proj1 (quota_exceeded_creates_nothing example_cfg)
           (upload_request "alice@example.org" None) "alice@example.org" "photo.png").
  - apply example_upload_passes.
  - left. vm_compute. reflexivity.
  - intros n. reflexivity.
  - vm_compute. discriminate.
Defined.

Lemma comment_with_token_updates_any_owner_witness :
  feedback (snd (run (fmpfeedback_comment example_cfg
                        (comment_request "bob@example.org" (Some ["T1"])))
                   (example_env example_now mailgun_accepts) draft_world))
  = <["T1" := dict_or
                (feedback_record "alice@example.org" "2021-05-01T11:58:00+00:00" "" "" ""
                   "" true)
                (comment_fields "Bug" "Crashes" (Some "Bob"))]>
      (feedback draft_world).
Proof.
  apply (proj1 comment_with_token_updates_any_owner example_cfg
           (comment_request "bob@example.org" (Some ["T1"]))
           "bob@example.org" "Bug" "Crashes"
           {| rq_email := Some "bob@example.org"; rq_name := Some "Bob" |}
           {| cm_body := Some "Crashes"; cm_uploads := Some ["T1"] |}).
  - apply example_comment_passes. discriminate.
  - reflexivity.
  - discriminate.
  - vm_compute. reflexivity.
  - reflexivity.
  - reflexivity.
Defined.

Lemma first_upload_world_reachable : reachable example_cfg first_upload_world.
Proof.
  unfold first_upload_world.
  apply reachable_step with (w := empty_world); [apply reachable_empty |].
  apply step_upload. intros n. apply lookup_empty.
Qed.

Lemma upload_content_length_matches_data_witness :
  content_length_ok accepted_child.
Proof.
  apply (proj2 (upload_content_length_matches_data example_cfg)
           first_upload_world first_upload_world_reachable "doc03" accepted_child).
  vm_compute. left. reflexivity.
Defined.

(** * More of the handlers *)

(** ** Upload Ingestion: answers and effects *)

(** What the Firestore part of an upload call leaves behind, by the way
    it ends. *)
Lemma upload_store_cases request feedback_email upload_filename env s :
  let r := upload_store request feedback_email upload_filename env s in
  match fst r with
  | Ret (inl early) =>
      early = http_abort_return "TOO MUCH FEEDBACK" /\ world (snd r) = world s
  | Ret (inr _) => True
  | Raise _ =>
      uploads (world (snd r)) = uploads (world s)
      /\ topic (world (snd r)) = topic (world s)
      /\ outbox (world (snd r)) = outbox (world s)
      /\ (feedback (world (snd r)) = feedback (world s)
          \/ exists id now,
               feedback (world s) !! id = None
               /\ feedback (world (snd r))
                  = <[id := upload_stub request feedback_email now]> (feedback (world s)))
  end.
Proof.
  unfold upload_store. exec.
  repeat (case_match; simpl in *; simplify_eq); auto 10.
  all: repeat split; try reflexivity.
  all: try (left; reflexivity).
  all: right; eexists _, _; split; [eassumption | reflexivity].
Qed.

Ltac validation_error c :=
  right; left; exists c; split;
  [unfold upload_errors; simpl; tauto | split; [discriminate | reflexivity]].

Lemma upload_cases cfg request env w :
  let r := run (fmpfeedback_upload cfg request) env w in
  (method request = "GET" /\ snd r = w
   /\ (fst r = Raise (HTTPException 405) \/ exists body, fst r = Ret (Text body)))
  \/ (method request <> "GET" /\ authorization request = None
      /\ r = (Raise AttributeError, w))
  \/ (method request <> "GET" /\ authorization request <> None
      /\ ((exists t, fst r = Ret (Jsonify t))
          \/ (exists c, In c upload_errors /\ c <> "FIRESTORE FAIL"
                        /\ r = (Ret (ErrorStatus c 400), w))
          \/ (fst r = Ret (ErrorStatus "FIRESTORE FAIL" 400)
              /\ uploads (snd r) = uploads w /\ topic (snd r) = topic w
              /\ outbox (snd r) = outbox w
              /\ (feedback (snd r) = feedback w
                  \/ exists id email now,
                       feedback w !! id = None
                       /\ feedback (snd r)
                          = <[id := upload_stub request email now]> (feedback w))))).
Proof.
  intros r. subst r. rewrite run_pair. unfold fmpfeedback_upload.
  destruct (String.eqb (method request) "GET") eqn:Hm.
  { left. apply String.eqb_eq in Hm. split; [exact Hm |].
    destruct (FEEDBACK_SENDER_AUTHTOKEN cfg) as [[| c t] |]; simpl; eauto. }
  apply String.eqb_neq in Hm. right.
  destruct (authorization request) as [[auth_username auth_token] |];
    [right | left; auto].
  split; [exact Hm |]. split; [discriminate |].
  repeat (case_match; try solve [validation_error "BAD AUTH" | validation_error "BAD TOKEN"
                                | validation_error "BAD FILENAME"
                                | validation_error "BAD CONTENT"
                                | validation_error "BAD DATA"]).
  all: unfold bind, try_except.
  all: match goal with
       | |- context [upload_store ?rq ?e ?f ?env ?s] =>
           pose proof (upload_store_cases rq e f env s) as Hc;
           destruct (upload_store rq e f env s) as [[[early | id] | ex] st]
       end; simpl in *.
  all: try match type of Hc with
           | _ = _ /\ _ =>
               destruct Hc as [-> Hw]; right; left; exists "TOO MUCH FEEDBACK"; split;
               [unfold upload_errors; simpl; tauto | split; [discriminate |]];
               unfold http_abort_return; simpl; rewrite Hw; reflexivity
           end.
  all: try (left; eexists; reflexivity).
  all: right; right; destruct Hc as (Hu & Ht & Ho & Hf); repeat split; auto.
  all: destruct Hf as [Hf | (id & now & Hn & Hf)]; [left; exact Hf | right; eauto].
Qed.

(** X1. A call of [fmpfeedback_upload] that is not a GET and carries
    credentials never raises: it answers the token, or one of the seven
    plain-text errors with status 400.  Without an Authorization header
    it raises [AttributeError] and touches nothing. *)
Theorem upload_answers_token_or_error cfg request env w :
  method request <> "GET" ->
  (authorization request <> None ->
   (exists t, fst (run (fmpfeedback_upload cfg request) env w) = Ret (Jsonify t))
   \/ (exists c, In c upload_errors
                 /\ fst (run (fmpfeedback_upload cfg request) env w)
                    = Ret (ErrorStatus c 400)))
  /\ (authorization request = None ->
      run (fmpfeedback_upload cfg request) env w = (Raise AttributeError, w)).
Proof.
  intros Hm.
  destruct (upload_cases cfg request env w)
    as [(Hget & _) | [(_ & Hnone & Hr) | (_ & Hsome & Hr)]]; [congruence | |].
  - split; [congruence | intros _; exact Hr].
  - split; [intros _ | congruence].
    destruct Hr as [Ht | [(c & Hin & _ & Hr) | (Hr & _)]].
    + left. exact Ht.
    + right. exists c. split; [exact Hin | now rewrite Hr].
    + right. exists "FIRESTORE FAIL". split; [unfold upload_errors; simpl; tauto | exact Hr].
Qed.

Lemma upload_answers_token_or_error_witness :
  ((exists t, fst (run (fmpfeedback_upload example_cfg
                          (upload_request "alice@example.org" None))
                     (example_env example_now mailgun_accepts) five_open_world)
              = Ret (Jsonify t))
   \/ (exists c, In c upload_errors
                 /\ fst (run (fmpfeedback_upload example_cfg
                                (upload_request "alice@example.org" None))
                           (example_env example_now mailgun_accepts) five_open_world)
                    = Ret (ErrorStatus c 400))).
Proof.
  apply (upload_answers_token_or_error example_cfg (upload_request "alice@example.org" None)
           (example_env example_now mailgun_accepts) five_open_world).
  - discriminate.
  - discriminate.
Defined.

(** X2. When [fmpfeedback_upload] answers an error, it has stored no
    child, published nothing and sent nothing; unless the error is
    FIRESTORE FAIL it has changed nothing at all, and with FIRESTORE FAIL
    the most it leaves behind is one new stub record. *)
Theorem upload_error_stores_no_child cfg request env w c status :
  fst (run (fmpfeedback_upload cfg request) env w) = Ret (ErrorStatus c status) ->
  let w' := snd (run (fmpfeedback_upload cfg request) env w) in
  uploads w' = uploads w /\ topic w' = topic w /\ outbox w' = outbox w
  /\ (c <> "FIRESTORE FAIL" -> w' = w)
  /\ (feedback w' = feedback w
      \/ exists id email now,
           feedback w !! id = None
           /\ feedback w' = <[id := upload_stub request email now]> (feedback w)).
Proof.
  intros Hr w'. subst w'.
  destruct (upload_cases cfg request env w)
    as [(_ & Hw & [He | (body & He)]) | [(_ & _ & He) | (_ & _ & He)]].
  - rewrite He in Hr. discriminate.
  - rewrite He in Hr. discriminate.
  - rewrite He in Hr. discriminate.
  - destruct He as [(t & He) | [(c' & _ & Hc' & He) | (He & Hu & Ht & Ho & Hf)]].
    + rewrite He in Hr. discriminate.
    + rewrite He. simpl. auto 6.
    + rewrite He in Hr. injection Hr as <- <-.
      repeat split; auto. congruence.
Qed.

Lemma upload_error_stores_no_child_witness :
  let w' := snd (run (fmpfeedback_upload example_cfg (upload_request "alice@example.org" None))
                   (failing_env example_now mailgun_accepts 4 ClientError) empty_world) in
  uploads w' = uploads empty_world /\ topic w' = topic empty_world
  /\ outbox w' = outbox empty_world
  /\ ("FIRESTORE FAIL" <> "FIRESTORE FAIL" -> w' = empty_world)
  /\ (feedback w' = feedback empty_world
      \/ exists id email now,
           feedback empty_world !! id = None
           /\ feedback w'
              = <[id := upload_stub (upload_request "alice@example.org" None) email now]>
                  (feedback empty_world)).
Proof.
  apply (upload_error_stores_no_child example_cfg (upload_request "alice@example.org" None)
           (failing_env example_now mailgun_accepts 4 ClientError) empty_world
           "FIRESTORE FAIL" 400).
  vm_compute. reflexivity.
Defined.

Lemma upload_stub_open request feedback_email now :
  pending_for feedback_email (upload_stub request feedback_email now) = true
  /\ field_eq_empty FEEDBACKDOC_FIELD_MESSAGE (upload_stub request feedback_email now) = true
  /\ upload_stub request feedback_email now !! FEEDBACKDOC_FIELD_HASUPLOADS
     = Some (VBool true)
  /\ upload_stub request feedback_email now !! FEEDBACKDOC_FIELD_CREATETIMESTAMP
     = Some (VStr (isoformat_seconds (as_utc now))).
Proof.
  unfold pending_for, field_eq_empty, upload_stub, dict_or, FEEDBACK_EMPTY_DOC. fields.
  repeat (rewrite lookup_union_l' by (simplify_map_eq; eauto)).
  simplify_map_eq. simpl. rewrite String.eqb_refl. auto.
Qed.

Lemma without_token_test request :
  upload_without_token request ->
  match args request !! "token" with
  | Some t => negb (String.eqb t "")
  | None => false
  end = false.
Proof. intros [-> | ->]; reflexivity. Qed.

(** X3. An upload call without a token that passes the checks, made under
    the quota with Firestore not failing, creates one stub record for the
    caller under the generated id (open, with an empty message and
    [hasUploads] true, stamped with the UTC time to the second) and one
    child under it with the bytes received, and answers with that id as
    the token. *)
Theorem upload_without_token_creates_stub cfg request feedback_email upload_filename env w :
  upload_passes cfg request feedback_email upload_filename ->
  upload_without_token request ->
  no_fault env ->
  Z.of_nat (size (open_records feedback_email w)) < FEEDBACK_MAX_PENDING_SUBMITS ->
  feedback w !! auto_id env 3%nat = None ->
  exists stub c,
    run (fmpfeedback_upload cfg request) env w
    = (Ret (Jsonify (auto_id env 3%nat)),
       set_uploads
         (<[auto_id env 3%nat := (children w (auto_id env 3%nat) ++ [c])%list]> (uploads w))
         (set_feedback (<[auto_id env 3%nat := stub]> (feedback w)) w))
    /\ stub = upload_stub request feedback_email (utcnow env 2%nat)
    /\ pending_for feedback_email stub = true
    /\ field_eq_empty FEEDBACKDOC_FIELD_MESSAGE stub = true
    /\ stub !! FEEDBACKDOC_FIELD_HASUPLOADS = Some (VBool true)
    /\ stub !! FEEDBACKDOC_FIELD_CREATETIMESTAMP
       = Some (VStr (isoformat_seconds (as_utc (utcnow env 2%nat))))
    /\ stores_upload upload_filename (data request) c.
Proof.
  intros Hpass Hno Hnf Hquota Hfresh.
  rewrite (upload_passes_run _ _ _ _ Hpass).
  rewrite <- pending_query_length in Hquota. apply Z.leb_gt in Hquota.
  eexists _, _. split; [| split; [reflexivity |]].
  - eapply run_state. unfold upload_store. exec. simpl.
    rewrite (without_token_test _ Hno).
    repeat (rewrite Hnf; simpl). rewrite Hquota.
    repeat (rewrite Hnf; simpl). rewrite Hfresh.
    fields. simplify_map_eq. repeat (rewrite Hnf; simpl). reflexivity.
  - destruct (upload_stub_open request feedback_email (utcnow env 2%nat))
      as (H1 & H2 & H3 & H4).
    repeat (split; [assumption |]).
    unfold stores_upload. fields. simplify_map_eq. repeat split; reflexivity.
Qed.

Lemma upload_without_token_creates_stub_witness :
  exists stub c,
    run (fmpfeedback_upload example_cfg (upload_request "alice@example.org" None))
      (example_env example_now mailgun_accepts) empty_world
    = (Ret (Jsonify "doc03"),
       set_uploads (<["doc03" := (children empty_world "doc03" ++ [c])%list]>
                      (uploads empty_world))
         (set_feedback (<["doc03" := stub]> (feedback empty_world)) empty_world))
    /\ stub = upload_stub (upload_request "alice@example.org" None) "alice@example.org"
                example_now
    /\ pending_for "alice@example.org" stub = true
    /\ field_eq_empty FEEDBACKDOC_FIELD_MESSAGE stub = true
    /\ stub !! FEEDBACKDOC_FIELD_HASUPLOADS = Some (VBool true)
    /\ stub !! FEEDBACKDOC_FIELD_CREATETIMESTAMP
       = Some (VStr (isoformat_seconds (as_utc example_now)))
    /\ stores_upload "photo.png" [Byte.x01; Byte.x02; Byte.x03] c.
Proof.
  apply (upload_without_token_creates_stub example_cfg
           (upload_request "alice@example.org" None) "alice@example.org" "photo.png"
           (example_env example_now mailgun_accepts) empty_world).
  - apply example_upload_passes.
  - left. vm_compute. reflexivity.
  - intros n. reflexivity.
  - vm_compute. reflexivity.
  - vm_compute. reflexivity.
Defined.

(** X4. An upload call with a token that passes the checks, for a parent
    with fewer than [FEEDBACK_MAX_UPLOADS] (10) children, stores the
    bytes received as one more child under the token and answers the
    token.  It neither reads nor writes the record: the token need not
    name one. *)
Theorem upload_with_token_appends_child cfg request feedback_email upload_filename t env w :
  upload_passes cfg request feedback_email upload_filename ->
  args request !! "token" = Some t -> t <> "" ->
  no_fault env ->
  Z.of_nat (List.length (children w t)) < FEEDBACK_MAX_UPLOADS ->
  exists c,
    run (fmpfeedback_upload cfg request) env w
    = (Ret (Jsonify t), set_uploads (<[t := (children w t ++ [c])%list]> (uploads w)) w)
    /\ stores_upload upload_filename (data request) c.
Proof.
  intros Hpass Htoken Ht Hnf Hroom.
  rewrite (upload_passes_run _ _ _ _ Hpass). apply Z.leb_gt in Hroom.
  eexists. split.
  - eapply run_state. unfold upload_store. exec. simpl.
    rewrite Htoken, (eqb_false_of_ne _ _ Ht). simpl.
    repeat (rewrite Hnf; simpl). rewrite Hroom.
    fields. simplify_map_eq. repeat (rewrite Hnf; simpl). reflexivity.
  - unfold stores_upload. fields. simplify_map_eq. repeat split; reflexivity.
Qed.

Lemma upload_with_token_appends_child_witness :
  exists c,
    run (fmpfeedback_upload example_cfg (upload_request "alice@example.org" (Some "nobody")))
      (example_env example_now mailgun_accepts) draft_world
    = (Ret (Jsonify "nobody"),
       set_uploads (<["nobody" := (children draft_world "nobody" ++ [c])%list]>
                      (uploads draft_world)) draft_world)
    /\ stores_upload "photo.png" [Byte.x01; Byte.x02; Byte.x03] c.
Proof.
  apply (upload_with_token_appends_child example_cfg
           (upload_request "alice@example.org" (Some "nobody")) "alice@example.org"
           "photo.png" "nobody" (example_env example_now mailgun_accepts) draft_world).
  - apply example_upload_passes.
  - vm_compute. reflexivity.
  - discriminate.
  - intros n. reflexivity.
  - vm_compute. reflexivity.
Defined.

(** X5. When the stub record has been created and storing the child then
    fails, [fmpfeedback_upload] answers FIRESTORE FAIL and the stub stays
    in the store, without a child: the creation is not undone. *)
Theorem upload_failure_leaves_stub cfg request feedback_email upload_filename env w e :
  upload_passes cfg request feedback_email upload_filename ->
  upload_without_token request ->
  (forall n, (n < 4)%nat -> fault env n = None) ->
  fault env 4%nat = Some e ->
  Z.of_nat (size (open_records feedback_email w)) < FEEDBACK_MAX_PENDING_SUBMITS ->
  feedback w !! auto_id env 3%nat = None ->
  run (fmpfeedback_upload cfg request) env w
  = (Ret (ErrorStatus "FIRESTORE FAIL" 400),
     set_feedback
       (<[auto_id env 3%nat := upload_stub request feedback_email (utcnow env 2%nat)]>
          (feedback w)) w).
Proof.
  intros Hpass Hno Hnf He Hquota Hfresh.
  rewrite (upload_passes_run _ _ _ _ Hpass).
  rewrite <- pending_query_length in Hquota. apply Z.leb_gt in Hquota.
  eapply run_state. unfold upload_store. exec. simpl.
  rewrite (without_token_test _ Hno).
  rewrite (Hnf 0%nat) by lia. simpl. rewrite (Hnf 1%nat) by lia. simpl. rewrite Hquota.
  simpl. rewrite (Hnf 3%nat) by lia. simpl. rewrite Hfresh.
  fields. simplify_map_eq. reflexivity.
Qed.

Lemma upload_failure_leaves_stub_witness :
  run (fmpfeedback_upload example_cfg (upload_request "alice@example.org" None))
    (failing_env example_now mailgun_accepts 4 ClientError) empty_world
  = (Ret (ErrorStatus "FIRESTORE FAIL" 400),
     set_feedback
       (<["doc03" := upload_stub (upload_request "alice@example.org" None)
                       "alice@example.org" example_now]> (feedback empty_world))
       empty_world).
Proof.
  apply (upload_failure_leaves_stub example_cfg (upload_request "alice@example.org" None)
           "alice@example.org" "photo.png"
           (failing_env example_now mailgun_accepts 4 ClientError) empty_world ClientError).
  - apply example_upload_passes.
  - left. vm_compute. reflexivity.
  - intros n Hn. do 4 (destruct n as [| n]; [reflexivity |]). lia.
  - reflexivity.
  - vm_compute. reflexivity.
  - vm_compute. reflexivity.
Defined.

(** ** Comment Finalization: answers and effects *)

Lemma no_token_given (comment : comment_json) :
  comment_without_token comment ->
  match first_upload_token (cm_uploads comment) with
  | Some (String _ _ as t) => Some t
  | _ => None
  end = None.
Proof.
  unfold comment_without_token.
  destruct (first_upload_token (cm_uploads comment)) as [[| c t] |];
    [reflexivity | discriminate | reflexivity].
Qed.

Lemma comment_fields_lookup feedback_subject feedback_body name :
  comment_fields feedback_subject feedback_body name !! FEEDBACKDOC_FIELD_MESSAGE
  = Some (VStr feedback_body)
  /\ comment_fields feedback_subject feedback_body name !! FEEDBACKDOC_FIELD_SUBJECT
     = Some (VStr feedback_subject)
  /\ comment_fields feedback_subject feedback_body name !! FEEDBACKDOC_FIELD_HASUPLOADS = None
  /\ comment_fields feedback_subject feedback_body name !! FEEDBACKDOC_FIELD_ARCHIVEDTIMESTAMP
     = None.
Proof.
  unfold comment_fields. fields.
  destruct name as [[| c n] |]; simplify_map_eq; auto.
Qed.

Lemma comment_record_fields request feedback_email feedback_subject feedback_body name now :
  let d := comment_record request feedback_email
             (comment_fields feedback_subject feedback_body name) now in
  d !! FEEDBACKDOC_FIELD_EMAIL = Some (VStr feedback_email)
  /\ d !! FEEDBACKDOC_FIELD_SUBJECT = Some (VStr feedback_subject)
  /\ d !! FEEDBACKDOC_FIELD_MESSAGE = Some (VStr feedback_body)
  /\ d !! FEEDBACKDOC_FIELD_HASUPLOADS = Some (VBool false)
  /\ d !! FEEDBACKDOC_FIELD_ARCHIVEDTIMESTAMP = Some (VStr "")
  /\ d !! FEEDBACKDOC_FIELD_CREATETIMESTAMP = Some (VStr (isoformat_seconds (as_utc now))).
Proof.
  intros d. subst d.
  destruct (comment_fields_lookup feedback_subject feedback_body name)
    as (Hm & Hs & Hh & Ha).
  unfold comment_record, dict_or, FEEDBACK_EMPTY_DOC. fields.
  repeat split.
  - apply lookup_union_Some_raw. left. now simplify_map_eq.
  - apply lookup_union_Some_raw. left. now simplify_map_eq.
  - apply lookup_union_Some_raw. left. now simplify_map_eq.
  - apply lookup_union_Some_raw. right. now simplify_map_eq.
  - apply lookup_union_Some_raw. right. now simplify_map_eq.
  - apply lookup_union_Some_raw. left. now simplify_map_eq.
Qed.

(** X6. A comment call without a token that passes the checks, made
    under the quota with Firestore and Pub/Sub not failing, creates one
    record under the generated id (with the caller's email, the subject
    and the message, [hasUploads] false and an empty [archivedTimestamp])
    and publishes one message that names the id; it answers OK. *)
Theorem comment_without_token_creates_record cfg request feedback_email feedback_subject
    feedback_body requester comment env w :
  comment_passes cfg request feedback_email feedback_subject feedback_body
    requester comment ->
  comment_without_token comment ->
  no_fault env ->
  Z.of_nat (size (open_records feedback_email w)) < FEEDBACK_MAX_PENDING_SUBMITS ->
  feedback w !! auto_id env 3%nat = None ->
  exists d,
    run (fmpfeedback_comment cfg request) env w
    = (Ret (Text "OK"),
       set_topic
         (topic w ++ [pubsub_message FEEDBACK_PUBSUB_ACTION_NEWFEEDBACK (auto_id env 3%nat)])%list
         (set_feedback (<[auto_id env 3%nat := d]> (feedback w)) w))
    /\ d = comment_record request feedback_email
             (comment_fields feedback_subject feedback_body (rq_name requester))
             (utcnow env 2%nat)
    /\ d !! FEEDBACKDOC_FIELD_EMAIL = Some (VStr feedback_email)
    /\ d !! FEEDBACKDOC_FIELD_SUBJECT = Some (VStr feedback_subject)
    /\ d !! FEEDBACKDOC_FIELD_MESSAGE = Some (VStr feedback_body)
    /\ d !! FEEDBACKDOC_FIELD_HASUPLOADS = Some (VBool false)
    /\ d !! FEEDBACKDOC_FIELD_ARCHIVEDTIMESTAMP = Some (VStr "")
    /\ d !! FEEDBACKDOC_FIELD_CREATETIMESTAMP
       = Some (VStr (isoformat_seconds (as_utc (utcnow env 2%nat)))).
Proof.
  intros Hpass Hno Hnf Hquota Hfresh.
  rewrite (comment_passes_run _ _ _ _ _ _ _ Hpass), (no_token_given _ Hno).
  rewrite <- pending_query_length in Hquota. apply Z.leb_gt in Hquota.
  eexists. split; [| split; [reflexivity | apply comment_record_fields]].
  eapply run_state. unfold comment_store, publish_action. exec. simpl.
  repeat (rewrite Hnf; simpl). rewrite Hquota. simpl.
  repeat (rewrite Hnf; simpl). rewrite Hfresh. simpl.
  repeat (rewrite Hnf; simpl). reflexivity.
Qed.

Lemma comment_without_token_creates_record_witness :
  exists d,
    run (fmpfeedback_comment example_cfg (comment_request "bob@example.org" None))
      (example_env example_now mailgun_accepts) empty_world
    = (Ret (Text "OK"),
       set_topic
         (topic empty_world ++ [pubsub_message FEEDBACK_PUBSUB_ACTION_NEWFEEDBACK "doc03"])%list
         (set_feedback (<["doc03" := d]> (feedback empty_world)) empty_world))
    /\ d = comment_record (comment_request "bob@example.org" None) "bob@example.org"
             (comment_fields "Bug" "Crashes" (Some "Bob")) example_now
    /\ d !! FEEDBACKDOC_FIELD_EMAIL = Some (VStr "bob@example.org")
    /\ d !! FEEDBACKDOC_FIELD_SUBJECT = Some (VStr "Bug")
    /\ d !! FEEDBACKDOC_FIELD_MESSAGE = Some (VStr "Crashes")
    /\ d !! FEEDBACKDOC_FIELD_HASUPLOADS = Some (VBool false)
    /\ d !! FEEDBACKDOC_FIELD_ARCHIVEDTIMESTAMP = Some (VStr "")
    /\ d !! FEEDBACKDOC_FIELD_CREATETIMESTAMP
       = Some (VStr (isoformat_seconds (as_utc example_now))).
Proof.
  apply (comment_without_token_creates_record example_cfg
           (comment_request "bob@example.org" None) "bob@example.org" "Bug" "Crashes"
           {| rq_email := Some "bob@example.org"; rq_name := Some "Bob" |}
           {| cm_body := Some "Crashes"; cm_uploads := None |}
           (example_env example_now mailgun_accepts) empty_world).
  - apply example_comment_passes. discriminate.
  - exact I.
  - intros n. reflexivity.
  - vm_compute. reflexivity.
  - vm_compute. reflexivity.
Defined.

(** X7. A comment call that names a token under which the store holds no
    record answers FIRESTORE FAIL: it creates no record, publishes
    nothing and leaves the world as it was. *)
Theorem comment_unknown_token_fails cfg request feedback_email feedback_subject
    feedback_body requester comment t env w :
  comment_passes cfg request feedback_email feedback_subject feedback_body
    requester comment ->
  first_upload_token (cm_uploads comment) = Some t -> t <> "" ->
  feedback w !! t = None ->
  run (fmpfeedback_comment cfg request) env w
  = (Ret (ErrorStatus "FIRESTORE FAIL" 400), w).
Proof.
  intros Hpass Htoken Ht Hnone.
  rewrite (comment_passes_run _ _ _ _ _ _ _ Hpass), Htoken, (token_given t Ht).
  rewrite run_pair. unfold comment_store. exec. simpl.
  destruct (fault env 0%nat); simpl; [reflexivity |].
  destruct (fault env 1%nat); simpl; [reflexivity |].
  rewrite Hnone. reflexivity.
Qed.

Lemma comment_unknown_token_fails_witness :
  run (fmpfeedback_comment example_cfg (comment_request "bob@example.org" (Some ["gone"])))
    (example_env example_now mailgun_accepts) draft_world
  = (Ret (ErrorStatus "FIRESTORE FAIL" 400), draft_world).
Proof.
  apply (comment_unknown_token_fails example_cfg
           (comment_request "bob@example.org" (Some ["gone"])) "bob@example.org"
           "Bug" "Crashes"
           {| rq_email := Some "bob@example.org"; rq_name := Some "Bob" |}
           {| cm_body := Some "Crashes"; cm_uploads := Some ["gone"] |} "gone").
  - apply example_comment_passes. discriminate.
  - reflexivity.
  - discriminate.
  - vm_compute. reflexivity.
Defined.

Lemma comment_store_frame request feedback_email feedback_doc token env s :
  let s' := snd (comment_store request feedback_email feedback_doc token env s) in
  uploads (world s') = uploads (world s) /\ topic (world s') = topic (world s)
  /\ outbox (world s') = outbox (world s).
Proof.
  unfold comment_store. exec. simpl.
  repeat (case_match; simplify_eq; simpl); auto.
Qed.

(** X8. A comment call that does not answer OK has published nothing;
    and no comment call, however it ends, adds a child or posts to
    Mailgun. *)
Theorem comment_failure_publishes_nothing cfg request env w :
  (fst (run (fmpfeedback_comment cfg request) env w) <> Ret (Text "OK") ->
   topic (snd (run (fmpfeedback_comment cfg request) env w)) = topic w)
  /\ uploads (snd (run (fmpfeedback_comment cfg request) env w)) = uploads w
  /\ outbox (snd (run (fmpfeedback_comment cfg request) env w)) = outbox w.
Proof.
  rewrite run_world, run_outcome. unfold fmpfeedback_comment.
  repeat case_match; try (split; [intros _ | split]; reflexivity).
  all: unfold bind, try_except.
  all: match goal with
       | |- context [comment_store ?rq ?e ?d ?t ?env ?s] =>
           destruct (comment_store_frame rq e d t env s) as (Hu & Ht & Ho);
           destruct (comment_store rq e d t env s) as [[[early | id] | ex] st]
       end; simpl in *; try (split; [intros _ | split]; assumption).
  all: match goal with
       | |- context [publish_action ?a ?i ?e ?s] =>
           destruct (publish_action_world a i e s) as [[Hr Hw] | [Hr Hw]];
           destruct (publish_action a i e s) as [[[failure' |] | ex] st']
       end; simpl in *; simplify_eq; rewrite Hw; simpl.
  all: (split; [intros Hne | split]); try assumption; congruence.
Qed.

(** X9. When the record has been updated and publishing then fails (the
    publisher client, the topic lookup or the publish call raises),
    [fmpfeedback_comment] answers PUBSUB FAIL and the update stays: the
    record is finalized in the store though no notification was
    published. *)
Theorem comment_publish_failure_keeps_record cfg request feedback_email feedback_subject
    feedback_body requester comment t d env w :
  comment_passes cfg request feedback_email feedback_subject feedback_body
    requester comment ->
  first_upload_token (cm_uploads comment) = Some t -> t <> "" ->
  feedback w !! t = Some d ->
  fault env 0%nat = None -> fault env 1%nat = None ->
  fault env 2%nat <> None \/ fault env 3%nat <> None \/ fault env 4%nat <> None ->
  run (fmpfeedback_comment cfg request) env w
  = (Ret (ErrorStatus "PUBSUB FAIL" 400),
     set_feedback
       (<[t := dict_or d (comment_fields feedback_subject feedback_body (rq_name requester))]>
          (feedback w)) w).
Proof.
  intros Hpass Htoken Ht Hd Hf0 Hf1 Hfail.
  rewrite (comment_passes_run _ _ _ _ _ _ _ Hpass), Htoken, (token_given t Ht).
  unfold run, bind at 1, try_except at 1.
  rewrite (comment_store_update _ _ _ _ _ _ _ Hd Hf0 Hf1).
  unfold publish_action. exec. simpl.
  destruct (fault env 2%nat) as [e2 |]; simpl; [reflexivity |].
  destruct (fault env 3%nat) as [e3 |]; simpl; [destruct e3; reflexivity |].
  destruct (fault env 4%nat) as [e4 |]; simpl; [reflexivity |].
  destruct Hfail as [Hf | [Hf | Hf]]; congruence.
Qed.

Lemma comment_publish_failure_keeps_record_witness :
  run (fmpfeedback_comment example_cfg (comment_request "bob@example.org" (Some ["T1"])))
    (failing_env example_now mailgun_accepts 3 NotFound) draft_world
  = (Ret (ErrorStatus "PUBSUB FAIL" 400),
     set_feedback
       (<["T1" := dict_or
                    (feedback_record "alice@example.org" "2021-05-01T11:58:00+00:00" "" ""
                       "" "" true)
                    (comment_fields "Bug" "Crashes" (Some "Bob"))]> (feedback draft_world))
       draft_world).
Proof.
  apply (comment_publish_failure_keeps_record example_cfg
           (comment_request "bob@example.org" (Some ["T1"])) "bob@example.org"
           "Bug" "Crashes"
           {| rq_email := Some "bob@example.org"; rq_name := Some "Bob" |}
           {| cm_body := Some "Crashes"; cm_uploads := Some ["T1"] |} "T1").
  - apply example_comment_passes. discriminate.
  - reflexivity.
  - discriminate.
  - vm_compute. reflexivity.
  - reflexivity.
  - reflexivity.
  - right. left. discriminate.
Defined.

(** ** Notification Delivery: the POST and the stamp *)

Section Sending.
Context `{PyLib}.
Variable cfg : Config.

Lemma compose_message_fields (d : doc) :
  feedback_doc_wf d -> addresses_ok cfg d ->
  exists message_data,
    (forall env s, compose_message cfg d env s = (Ret message_data, s))
    /\ message_data !! "to" = Some (VStr (MAILGUN_RECIPIENT cfg))
    /\ message_data !! "subject" = d !! FEEDBACKDOC_FIELD_SUBJECT
    /\ message_data !! "text" = d !! FEEDBACKDOC_FIELD_MESSAGE.
Proof.
  intros [_ _ [vs Hs] [vm Hm] _ _] (name & email & reply_to & sender & Hn & He & Hr & Hsd).
  eexists. split; [| split; [| split]].
  - intros env s.
    unfold compose_message, bind, getitem, py_formataddr. rewrite Hn, He, Hs, Hm.
    cbv [ret as_str].
    destruct (truthy (VStr name)); cbv [ret as_str]; rewrite Hr, Hsd; reflexivity.
  - now simplify_map_eq.
  - rewrite Hs. now simplify_map_eq.
  - rewrite Hm. now simplify_map_eq.
Qed.

(** The function up to the POST, on a record that is not archived. *)
Lemma send_to_post snap d archived_at :
  to_dict snap = Some d ->
  feedback_doc_wf d ->
  d !! FEEDBACKDOC_FIELD_ARCHIVEDTIMESTAMP = Some archived_at ->
  truthy archived_at = false ->
  forall message_data,
    (forall env s, compose_message cfg d env s = (Ret message_data, s)) ->
    forall env s attachments s',
      collect_attachments snap d env s = (Ret attachments, s') ->
      _fmpfeedback_mailgun_send cfg snap env s
      = post_and_stamp cfg snap d attachments message_data env s'.
Proof.
  intros Hd Hwf Harch Hnot message_data Hmd env s attachments s' Hcollect.
  unfold _fmpfeedback_mailgun_send. rewrite Hd.
  rewrite (getitem_some _ _ _ Harch), bind_ret_l, Hnot.
  rewrite (field_checks_pass d Hwf), bind_ret_l.
  unfold bind at 1. rewrite Hcollect.
  unfold bind at 1. rewrite Hmd.
  reflexivity.
Qed.

Lemma collect_attachments_none snap d has_uploads env s :
  d !! FEEDBACKDOC_FIELD_HASUPLOADS = Some has_uploads ->
  truthy has_uploads = false ->
  collect_attachments snap d env s = (Ret [], s).
Proof.
  intros Hhas Hno. unfold collect_attachments.
  rewrite (getitem_some _ _ _ Hhas), bind_ret_l, Hno. reflexivity.
Qed.

Lemma collect_attachments_all snap d has_uploads env s :
  d !! FEEDBACKDOC_FIELD_HASUPLOADS = Some has_uploads ->
  truthy has_uploads = true ->
  fault env (calls s) = None ->
  Forall (fun c => exists a, attaches c a) (children (world s) (snap_id snap)) ->
  exists attachments,
    Forall2 attaches (children (world s) (snap_id snap)) attachments
    /\ collect_attachments snap d env s
       = (Ret attachments, {| world := world s; calls := S (calls s) |}).
Proof.
  intros Hhas Hyes Hfault Hall.
  destruct (attach_uploads_all _ [] Hall) as (atts & Hatts & Hrun).
  exists atts. split; [exact Hatts |].
  unfold collect_attachments.
  rewrite (getitem_some _ _ _ Hhas), bind_ret_l, Hyes.
  exec. simpl. rewrite Hfault. simpl. rewrite Hrun. reflexivity.
Qed.

Lemma collect_attachments_failed snap d has_uploads env s e :
  d !! FEEDBACKDOC_FIELD_HASUPLOADS = Some has_uploads ->
  truthy has_uploads = true ->
  fault env (calls s) = Some e ->
  collect_attachments snap d env s = (Ret [], {| world := world s; calls := S (calls s) |}).
Proof.
  intros Hhas Hyes Hfault. unfold collect_attachments.
  rewrite (getitem_some _ _ _ Hhas), bind_ret_l, Hyes.
  exec. simpl. rewrite Hfault. reflexivity.
Qed.

(** The POST is accepted and the update goes through. *)
Lemma post_and_stamp_ok snap d old attachments message_data body raw env s :
  accepts_with env body ->
  body !! "id" = Some (VStr raw) ->
  fault env (S (S (calls s))) = None ->
  feedback (world s) !! snap_id snap = Some old ->
  post_and_stamp cfg snap d attachments message_data env s
  = (Ret true,
     {| world :=
          set_feedback
            (<[snap_id snap := dict_or old (stamped d (utcnow env (S (calls s))) raw)]>
               (feedback (world s)))
            (set_outbox
               (outbox (world s)
                ++ [{| post_url := MAILGUN_REQUESTS_URL cfg;
                       post_auth := (MAILGUN_API_AUTHUSER, MAILGUN_API_KEY cfg);
                       post_files := attachments;
                       post_data := message_data |}])%list (world s));
        calls := S (S (S (calls s))) |}).
Proof.
  intros Hacc Hid Hfault Hold. unfold post_and_stamp. exec. simpl.
  match goal with
  | |- context [mailgun_api env ?p] => destruct (Hacc p) as (c & -> & Hc)
  end.
  simpl. rewrite Hc. simpl. rewrite Hid. simpl. rewrite Hfault, Hold. reflexivity.
Qed.

(** The POST is accepted and the record is not stamped: the answer
    cannot be read, or the update raises. *)
Lemma post_and_stamp_lost snap d attachments message_data body env s :
  accepts_with env body ->
  (forall raw, body !! "id" = Some (VStr raw) -> fault env (S (S (calls s))) <> None) ->
  exists e,
    fst (post_and_stamp cfg snap d attachments message_data env s) = Raise e
    /\ world (snd (post_and_stamp cfg snap d attachments message_data env s))
       = set_outbox
           (outbox (world s)
            ++ [{| post_url := MAILGUN_REQUESTS_URL cfg;
                   post_auth := (MAILGUN_API_AUTHUSER, MAILGUN_API_KEY cfg);
                   post_files := attachments;
                   post_data := message_data |}])%list (world s).
Proof.
  intros Hacc Hlost. unfold post_and_stamp. exec. simpl.
  match goal with
  | |- context [mailgun_api env ?p] => destruct (Hacc p) as (c & -> & Hc)
  end.
  simpl. rewrite Hc. simpl.
  destruct (body !! "id") as [[raw | b | n | b] |]; simpl; eauto.
  specialize (Hlost raw eq_refl).
  destruct (fault env (S (S (calls s)))); simpl; [eauto | congruence].
Qed.

(** The entry point, up to the call on the snapshot of the record. *)
Lemma pubsub_to_send message id env w :
  MAILGUN_RUNTIME_VARS_MISSING cfg = false ->
  names_record message id ->
  fault env 0%nat = None -> fault env 1%nat = None ->
  fmpfeedback_mailgun_pubsub cfg message env {| world := w; calls := 0 |}
  = (_fmpfeedback_mailgun_send cfg (snapshot_of w id) ;;; ret tt)
      env {| world := w; calls := 2 |}.
Proof.
  intros Hvars (Haction & Hid & Hne) Hf0 Hf1.
  unfold fmpfeedback_mailgun_pubsub. rewrite Hvars, Hid.
  assert (truthy (VStr id) = true) as Hyes
    by (simpl; now rewrite (eqb_false_of_ne _ _ Hne)).
  destruct Haction as [-> | ->]; simpl; rewrite (eqb_false_of_ne _ _ Hne); simpl.
  all: exec; simpl; rewrite Hf0; simpl; rewrite Hf1; reflexivity.
Qed.

End Sending.

Lemma stamped_lookup d now raw :
  stamped d now raw !! FEEDBACKDOC_FIELD_ARCHIVEDTIMESTAMP = Some (VStr (isoformat now))
  /\ stamped d now raw !! FEEDBACKDOC_FIELD_MAILGUN_MESSAGEID
     = Some (VStr (slice_1_m1 raw))
  /\ forall k, k <> FEEDBACKDOC_FIELD_ARCHIVEDTIMESTAMP ->
               k <> FEEDBACKDOC_FIELD_MAILGUN_MESSAGEID ->
               stamped d now raw !! k = d !! k.
Proof.
  unfold stamped. split; [apply lookup_insert_eq |]. split.
  - rewrite lookup_insert_ne by discriminate. apply lookup_insert_eq.
  - intros k Ha Hm. now rewrite !lookup_insert_ne by congruence.
Qed.

(** The stamp overwrites the record with the snapshot it was taken
    from. *)
Lemma dict_or_stamped d now raw : dict_or d (stamped d now raw) = stamped d now raw.
Proof.
  unfold dict_or. apply map_eq. intros k.
  destruct (stamped d now raw !! k) as [v |] eqn:Hk.
  - now apply lookup_union_Some_l.
  - apply lookup_union_None_2; [exact Hk |].
    unfold stamped in Hk.
    apply lookup_insert_None in Hk as [Hk _].
    apply lookup_insert_None in Hk as [Hk _]. exact Hk.
Qed.

(** The delivery of a record that is not archived, when nothing fails. *)
Lemma delivery_ok `{PyLib} cfg message id d archived_at has_uploads
    body raw env w :
  MAILGUN_RUNTIME_VARS_MISSING cfg = false ->
  names_record message id ->
  feedback w !! id = Some d ->
  feedback_doc_wf d -> addresses_ok cfg d ->
  d !! FEEDBACKDOC_FIELD_ARCHIVEDTIMESTAMP = Some archived_at ->
  truthy archived_at = false ->
  d !! FEEDBACKDOC_FIELD_HASUPLOADS = Some has_uploads ->
  (truthy has_uploads = true ->
   Forall (fun c => exists a, attaches c a) (children w id)) ->
  no_fault env ->
  accepts_with env body ->
  body !! "id" = Some (VStr raw) ->
  exists p now,
    run (fmpfeedback_mailgun_pubsub cfg message) env w
    = (Ret tt,
       set_feedback (<[id := stamped d now raw]> (feedback w))
         (set_outbox (outbox w ++ [p])%list w))
    /\ post_url p = MAILGUN_REQUESTS_URL cfg
    /\ post_auth p = (MAILGUN_API_AUTHUSER, MAILGUN_API_KEY cfg)
    /\ post_data p !! "to" = Some (VStr (MAILGUN_RECIPIENT cfg))
    /\ post_data p !! "subject" = d !! FEEDBACKDOC_FIELD_SUBJECT
    /\ post_data p !! "text" = d !! FEEDBACKDOC_FIELD_MESSAGE
    /\ (if truthy has_uploads then Forall2 attaches (children w id) (post_files p)
        else post_files p = [])
    /\ stamped d now raw !! FEEDBACKDOC_FIELD_ARCHIVEDTIMESTAMP = Some (VStr (isoformat now))
    /\ stamped d now raw !! FEEDBACKDOC_FIELD_MAILGUN_MESSAGEID
       = Some (VStr (slice_1_m1 raw))
    /\ (exists n, now = utcnow env n).
Proof.
  intros Hvars Hmsg Hd Hwf Haddr Harch Hnot Hhas Hkids Hnf Hacc Hraw.
  destruct (compose_message_fields cfg d Hwf Haddr) as (md & Hmd & Hto & Hsubj & Htext).
  pose proof (send_to_post cfg (snapshot_of w id) d archived_at Hd Hwf Harch Hnot md Hmd)
    as Hsend.
  pose proof (stamped_lookup d) as Hst.
  destruct (truthy has_uploads) eqn:Hyes.
  - destruct (collect_attachments_all (snapshot_of w id) d has_uploads env
                {| world := w; calls := 2 |} Hhas Hyes (Hnf _) (Hkids eq_refl))
      as (atts & Hatts & Hcollect).
    eexists _, (utcnow env 4%nat). split.
    { eapply run_state.
      rewrite (pubsub_to_send cfg message id env w Hvars Hmsg (Hnf _) (Hnf _)).
      unfold bind at 1. rewrite (Hsend _ _ _ _ Hcollect).
      erewrite post_and_stamp_ok; [| exact Hacc | exact Hraw | apply Hnf | exact Hd].
      simpl. rewrite dict_or_stamped. reflexivity. }
    repeat split; try reflexivity; try apply Hst; try assumption; eauto.
  - pose proof (collect_attachments_none (snapshot_of w id) d has_uploads env
                  {| world := w; calls := 2 |} Hhas Hyes) as Hcollect.
    eexists _, (utcnow env 3%nat). split.
    { eapply run_state.
      rewrite (pubsub_to_send cfg message id env w Hvars Hmsg (Hnf _) (Hnf _)).
      unfold bind at 1. rewrite (Hsend _ _ _ _ Hcollect).
      erewrite post_and_stamp_ok; [| exact Hacc | exact Hraw | apply Hnf | exact Hd].
      simpl. rewrite dict_or_stamped. reflexivity. }
    repeat split; try reflexivity; try apply Hst; try assumption; eauto.
Qed.

(** X10. A message that names one of the two actions and a record that
    is not archived is delivered, when nothing fails and Mailgun accepts:
    one message is posted to the configured URL with the API key, to the
    configured recipient, with the subject and the text of the record and
    one attachment per child when [hasUploads] is set (none when it is
    not, whatever children there are); and the record is stamped with the
    UTC time of the stamp and the Mailgun id without its first and last
    characters, its other fields unchanged. *)
Theorem delivery_posts_and_stamps `{PyLib} cfg message id d archived_at has_uploads
    body raw env w :
  MAILGUN_RUNTIME_VARS_MISSING cfg = false ->
  names_record message id ->
  feedback w !! id = Some d ->
  feedback_doc_wf d -> addresses_ok cfg d ->
  d !! FEEDBACKDOC_FIELD_ARCHIVEDTIMESTAMP = Some archived_at ->
  truthy archived_at = false ->
  d !! FEEDBACKDOC_FIELD_HASUPLOADS = Some has_uploads ->
  (truthy has_uploads = true ->
   Forall (fun c => exists a, attaches c a) (children w id)) ->
  no_fault env ->
  accepts_with env body ->
  body !! "id" = Some (VStr raw) ->
  exists p now,
    run (fmpfeedback_mailgun_pubsub cfg message) env w
    = (Ret tt,
       set_feedback (<[id := stamped d now raw]> (feedback w))
         (set_outbox (outbox w ++ [p])%list w))
    /\ post_url p = MAILGUN_REQUESTS_URL cfg
    /\ post_auth p = (MAILGUN_API_AUTHUSER, MAILGUN_API_KEY cfg)
    /\ post_data p !! "to" = Some (VStr (MAILGUN_RECIPIENT cfg))
    /\ post_data p !! "subject" = d !! FEEDBACKDOC_FIELD_SUBJECT
    /\ post_data p !! "text" = d !! FEEDBACKDOC_FIELD_MESSAGE
    /\ (if truthy has_uploads then Forall2 attaches (children w id) (post_files p)
        else post_files p = [])
    /\ stamped d now raw !! FEEDBACKDOC_FIELD_ARCHIVEDTIMESTAMP = Some (VStr (isoformat now))
    /\ stamped d now raw !! FEEDBACKDOC_FIELD_MAILGUN_MESSAGEID
       = Some (VStr (slice_1_m1 raw))
    /\ (exists n, now = utcnow env n).
Proof. apply delivery_ok. Qed.

Lemma example_accepts now :
  accepts_with (example_env now mailgun_accepts)
    (<["id" := VStr "<20210501120000.1@mg.example.org>"]> ∅).
Proof. intros p. exists 200. split; reflexivity. Qed.

Lemma example_names_record action id :
  action = FEEDBACK_PUBSUB_ACTION_NEWFEEDBACK
  \/ action = FEEDBACK_PUBSUB_ACTION_CARETAKER_RETRY ->
  id <> "" -> names_record (pubsub_message action id) id.
Proof.
  intros Ha Hid. unfold names_record, pubsub_message.
  rewrite lookup_insert_eq, lookup_insert_ne by discriminate.
  rewrite lookup_insert_eq. destruct Ha as [-> | ->]; auto.
Qed.

Lemma example_record_wf email created subject message name archived_at has_uploads :
  feedback_doc_wf (feedback_record email created subject message name archived_at has_uploads).
Proof. split; eexists; vm_compute; reflexivity. Qed.

Lemma delivery_posts_and_stamps_witness :
  exists p now,
    run (fmpfeedback_mailgun_pubsub example_cfg
           (pubsub_message FEEDBACK_PUBSUB_ACTION_NEWFEEDBACK "T1"))
      (example_env example_now mailgun_accepts) finalized_world
    = (Ret tt,
       set_feedback
         (<["T1" := stamped
                      (feedback_record "alice@example.org" "2021-05-01T11:58:00+00:00"
                         "Bug" "Crashes" "Alice" "" true)
                      now "<20210501120000.1@mg.example.org>"]> (feedback finalized_world))
         (set_outbox (outbox finalized_world ++ [p])%list finalized_world))
    /\ post_url p = MAILGUN_REQUESTS_URL example_cfg
    /\ post_auth p = (MAILGUN_API_AUTHUSER, MAILGUN_API_KEY example_cfg)
    /\ post_data p !! "to" = Some (VStr (MAILGUN_RECIPIENT example_cfg))
    /\ post_data p !! "subject"
       = feedback_record "alice@example.org" "2021-05-01T11:58:00+00:00"
           "Bug" "Crashes" "Alice" "" true !! FEEDBACKDOC_FIELD_SUBJECT
    /\ post_data p !! "text"
       = feedback_record "alice@example.org" "2021-05-01T11:58:00+00:00"
           "Bug" "Crashes" "Alice" "" true !! FEEDBACKDOC_FIELD_MESSAGE
    /\ (if truthy (VBool true)
        then Forall2 attaches (children finalized_world "T1") (post_files p)
        else post_files p = [])
    /\ stamped
         (feedback_record "alice@example.org" "2021-05-01T11:58:00+00:00"
            "Bug" "Crashes" "Alice" "" true)
         now "<20210501120000.1@mg.example.org>" !! FEEDBACKDOC_FIELD_ARCHIVEDTIMESTAMP
       = Some (VStr (isoformat now))
    /\ stamped
         (feedback_record "alice@example.org" "2021-05-01T11:58:00+00:00"
            "Bug" "Crashes" "Alice" "" true)
         now "<20210501120000.1@mg.example.org>" !! FEEDBACKDOC_FIELD_MAILGUN_MESSAGEID
       = Some (VStr (slice_1_m1 "<20210501120000.1@mg.example.org>"))
    /\ (exists n, now = utcnow (example_env example_now mailgun_accepts) n).
Proof.
  apply (delivery_posts_and_stamps example_cfg
           (pubsub_message FEEDBACK_PUBSUB_ACTION_NEWFEEDBACK "T1") "T1"
           (feedback_record "alice@example.org" "2021-05-01T11:58:00+00:00"
              "Bug" "Crashes" "Alice" "" true)
           (VStr "") (VBool true)
           (<["id" := VStr "<20210501120000.1@mg.example.org>"]> ∅)
           "<20210501120000.1@mg.example.org>").
  - reflexivity.
  - apply example_names_record; [left; reflexivity | discriminate].
  - vm_compute. reflexivity.
  - apply example_record_wf.
  - eexists _, _, _, _. repeat split; vm_compute; reflexivity.
  - vm_compute. reflexivity.
  - reflexivity.
  - vm_compute. reflexivity.
  - intros _. repeat constructor; eexists; eexists _, _; repeat split; vm_compute; reflexivity.
  - intros n. reflexivity.
  - apply example_accepts.
  - vm_compute. reflexivity.
Defined.

(** X11. For a message that names a record the store does not hold (the
    record was deleted, say), the delivery function raises [TypeError]:
    [get()] gives a snapshot whose [to_dict()] is [None], which line 233
    subscripts.  Nothing is changed, and the exception leaves the entry
    point, so the message is not acknowledged. *)
Theorem delivery_of_missing_record_raises `{PyLib} cfg message id env w :
  MAILGUN_RUNTIME_VARS_MISSING cfg = false ->
  names_record message id ->
  feedback w !! id = None ->
  fault env 0%nat = None -> fault env 1%nat = None ->
  run (fmpfeedback_mailgun_pubsub cfg message) env w = (Raise TypeError, w).
Proof.
  intros Hvars Hmsg Hnone Hf0 Hf1.
  eapply run_state. rewrite (pubsub_to_send cfg message id env w Hvars Hmsg Hf0 Hf1).
  unfold bind, _fmpfeedback_mailgun_send, snapshot_of. simpl. rewrite Hnone. reflexivity.
Qed.

Lemma delivery_of_missing_record_raises_witness :
  run (fmpfeedback_mailgun_pubsub example_cfg
         (pubsub_message FEEDBACK_PUBSUB_ACTION_CARETAKER_RETRY "gone"))
    (example_env example_now mailgun_accepts) finalized_world
  = (Raise TypeError, finalized_world).
Proof.
  apply (delivery_of_missing_record_raises example_cfg
           (pubsub_message FEEDBACK_PUBSUB_ACTION_CARETAKER_RETRY "gone") "gone").
  - reflexivity.
  - apply example_names_record; [right; reflexivity | discriminate].
  - vm_compute. reflexivity.
  - reflexivity.
  - reflexivity.
Defined.

(** Whatever the endpoint answers, the POST is made. *)
Lemma post_and_stamp_outbox cfg snap d attachments message_data env s :
  outbox (world (snd (post_and_stamp cfg snap d attachments message_data env s)))
  = (outbox (world s)
     ++ [{| post_url := MAILGUN_REQUESTS_URL cfg;
            post_auth := (MAILGUN_API_AUTHUSER, MAILGUN_API_KEY cfg);
            post_files := attachments;
            post_data := message_data |}])%list.
Proof.
  unfold post_and_stamp. exec. simpl.
  repeat (case_match; simplify_eq; simpl); reflexivity.
Qed.

(** X12. When the fetch of the children fails, the delivery function
    does not stop: the message is posted without any attachment; and
    when Mailgun accepts it and the update goes through, the record is
    stamped as archived, so that its uploads are never sent. *)
Theorem failed_fetch_sends_without_attachments `{PyLib} cfg message id d archived_at
    has_uploads e env w :
  MAILGUN_RUNTIME_VARS_MISSING cfg = false ->
  names_record message id ->
  feedback w !! id = Some d ->
  feedback_doc_wf d -> addresses_ok cfg d ->
  d !! FEEDBACKDOC_FIELD_ARCHIVEDTIMESTAMP = Some archived_at ->
  truthy archived_at = false ->
  d !! FEEDBACKDOC_FIELD_HASUPLOADS = Some has_uploads ->
  truthy has_uploads = true ->
  fault env 0%nat = None -> fault env 1%nat = None ->
  fault env 2%nat = Some e ->
  exists p,
    outbox (snd (run (fmpfeedback_mailgun_pubsub cfg message) env w)) = (outbox w ++ [p])%list
    /\ post_files p = []
    /\ forall body raw,
         accepts_with env body -> body !! "id" = Some (VStr raw) ->
         fault env 5%nat = None ->
         run (fmpfeedback_mailgun_pubsub cfg message) env w
         = (Ret tt,
            set_feedback (<[id := stamped d (utcnow env 4%nat) raw]> (feedback w))
              (set_outbox (outbox w ++ [p])%list w)).
Proof.
  intros Hvars Hmsg Hd Hwf Haddr Harch Hnot Hhas Hyes Hf0 Hf1 Hf2.
  destruct (compose_message_fields cfg d Hwf Haddr) as (md & Hmd & _).
  pose proof (send_to_post cfg (snapshot_of w id) d archived_at Hd Hwf Harch Hnot md Hmd
                env {| world := w; calls := 2 |} _ _
                (collect_attachments_failed (snapshot_of w id) d has_uploads env
                   {| world := w; calls := 2 |} e Hhas Hyes Hf2)) as Hsend.
  exists {| post_url := MAILGUN_REQUESTS_URL cfg;
            post_auth := (MAILGUN_API_AUTHUSER, MAILGUN_API_KEY cfg);
            post_files := [];
            post_data := md |}.
  split; [| split; [reflexivity |]].
  - rewrite run_world, (pubsub_to_send cfg message id env w Hvars Hmsg Hf0 Hf1).
    unfold bind at 1. rewrite Hsend.
    match goal with
    | |- context [post_and_stamp ?c ?sn ?dd ?a ?m ?e ?s] =>
        pose proof (post_and_stamp_outbox c sn dd a m e s) as Hout;
        destruct (post_and_stamp c sn dd a m e s) as [[b | ex] st]
    end; simpl in *; exact Hout.
  - intros body raw Hacc Hraw Hf5.
    eapply run_state. rewrite (pubsub_to_send cfg message id env w Hvars Hmsg Hf0 Hf1).
    unfold bind at 1. rewrite Hsend.
    erewrite post_and_stamp_ok; [| exact Hacc | exact Hraw | exact Hf5 | exact Hd].
    simpl. rewrite dict_or_stamped. reflexivity.
Qed.

Lemma failed_fetch_sends_without_attachments_witness :
  exists p,
    outbox (snd (run (fmpfeedback_mailgun_pubsub example_cfg
                        (pubsub_message FEEDBACK_PUBSUB_ACTION_NEWFEEDBACK "T1"))
                   (failing_env example_now mailgun_accepts 2 ClientError) finalized_world))
    = (outbox finalized_world ++ [p])%list
    /\ post_files p = []
    /\ forall body raw,
         accepts_with (failing_env example_now mailgun_accepts 2 ClientError) body ->
         body !! "id" = Some (VStr raw) ->
         fault (failing_env example_now mailgun_accepts 2 ClientError) 5%nat = None ->
         run (fmpfeedback_mailgun_pubsub example_cfg
                (pubsub_message FEEDBACK_PUBSUB_ACTION_NEWFEEDBACK "T1"))
           (failing_env example_now mailgun_accepts 2 ClientError) finalized_world
         = (Ret tt,
            set_feedback
              (<["T1" := stamped
                           (feedback_record "alice@example.org" "2021-05-01T11:58:00+00:00"
                              "Bug" "Crashes" "Alice" "" true)
                           (utcnow (failing_env example_now mailgun_accepts 2 ClientError)
                              4%nat) raw]> (feedback finalized_world))
              (set_outbox (outbox finalized_world ++ [p])%list finalized_world)).
Proof.
  apply (failed_fetch_sends_without_attachments example_cfg
           (pubsub_message FEEDBACK_PUBSUB_ACTION_NEWFEEDBACK "T1") "T1"
           (feedback_record "alice@example.org" "2021-05-01T11:58:00+00:00"
              "Bug" "Crashes" "Alice" "" true)
           (VStr "") (VBool true) ClientError).
  - reflexivity.
  - apply example_names_record; [left; reflexivity | discriminate].
  - vm_compute. reflexivity.
  - apply example_record_wf.
  - eexists _, _, _, _. repeat split; vm_compute; reflexivity.
  - vm_compute. reflexivity.
  - reflexivity.
  - vm_compute. reflexivity.
  - reflexivity.
  - reflexivity.
  - reflexivity.
  - reflexivity.
Defined.

(** X13. When Mailgun has accepted the message and the record is then
    not stamped (the answer carries no string under [id], or the update
    raises), the exception leaves the delivery function with the message
    sent and the record as it was: not archived.  A later delivery of the
    same message, with Firestore answering, posts the same message a
    second time, whatever Mailgun then answers. *)
Theorem lost_stamp_sends_again `{PyLib} cfg message id d archived_at has_uploads
    body1 env1 env2 w :
  MAILGUN_RUNTIME_VARS_MISSING cfg = false ->
  names_record message id ->
  feedback w !! id = Some d ->
  feedback_doc_wf d -> addresses_ok cfg d ->
  d !! FEEDBACKDOC_FIELD_ARCHIVEDTIMESTAMP = Some archived_at ->
  truthy archived_at = false ->
  d !! FEEDBACKDOC_FIELD_HASUPLOADS = Some has_uploads ->
  (truthy has_uploads = true ->
   Forall (fun c => exists a, attaches c a) (children w id)) ->
  (forall n, (n < 3)%nat -> fault env1 n = None) ->
  accepts_with env1 body1 ->
  (forall raw1, body1 !! "id" = Some (VStr raw1) ->
                fault env1 (if truthy has_uploads then 5 else 4)%nat <> None) ->
  (forall n, (n < 3)%nat -> fault env2 n = None) ->
  exists e p,
    run (fmpfeedback_mailgun_pubsub cfg message) env1 w
    = (Raise e, set_outbox (outbox w ++ [p])%list w)
    /\ outbox (snd (run (fmpfeedback_mailgun_pubsub cfg message) env2
                      (set_outbox (outbox w ++ [p])%list w)))
       = (outbox w ++ [p; p])%list.
Proof.
  intros Hvars Hmsg Hd Hwf Haddr Harch Hnot Hhas Hkids Hnf1 Hacc1 Hlost Hnf2.
  destruct (compose_message_fields cfg d Hwf Haddr) as (md & Hmd & _).
  pose proof (send_to_post cfg (snapshot_of w id) d archived_at Hd Hwf Harch Hnot md Hmd)
    as Hsend.
  assert (exists atts,
            (forall env s, fault env (calls s) = None -> uploads (world s) = uploads w ->
               collect_attachments (snapshot_of w id) d env s
               = (Ret atts, {| world := world s;
                               calls := if truthy has_uploads then S (calls s)
                                        else calls s |})))
    as (atts & Hcollect).
  { destruct (truthy has_uploads) eqn:Hyes.
    - destruct (attach_uploads_all _ [] (Hkids eq_refl)) as (atts & _ & Hrun).
      exists atts. intros env s Hf Hu. unfold collect_attachments.
      rewrite (getitem_some _ _ _ Hhas), bind_ret_l, Hyes.
      exec. simpl. rewrite Hf. simpl. unfold children. rewrite Hu.
      unfold children in Hrun. rewrite Hrun. reflexivity.
    - exists []. intros env s _ _.
      rewrite (collect_attachments_none _ d has_uploads env s Hhas Hyes).
      destruct s; reflexivity. }
  pose (p := {| post_url := MAILGUN_REQUESTS_URL cfg;
                post_auth := (MAILGUN_API_AUTHUSER, MAILGUN_API_KEY cfg);
                post_files := atts;
                post_data := md |}).
  assert (exists e, run (fmpfeedback_mailgun_pubsub cfg message) env1 w
                    = (Raise e, set_outbox (outbox w ++ [p])%list w)) as [e He].
  { rewrite run_pair.
    rewrite (pubsub_to_send cfg message id env1 w Hvars Hmsg
               (Hnf1 0%nat ltac:(lia)) (Hnf1 1%nat ltac:(lia))).
    unfold bind at 1 2.
    rewrite (Hsend _ _ _ _ (Hcollect env1 {| world := w; calls := 2 |}
                              (Hnf1 2%nat ltac:(lia)) eq_refl)).
    match goal with
    | |- context [post_and_stamp ?c ?sn ?dd ?a ?m ?e ?s] =>
        destruct (post_and_stamp_lost c sn dd a m body1 e s Hacc1) as (ex & Hr & Hw);
        [| destruct (post_and_stamp c sn dd a m e s) as [r st] ]
    end.
    - simpl. destruct (truthy has_uploads); exact Hlost.
    - simpl in *. subst r. exists ex. simpl. now rewrite Hw. }
  exists e, p. split; [exact He |].
  rewrite run_world.
  rewrite (pubsub_to_send cfg message id env2 _ Hvars Hmsg
             (Hnf2 0%nat ltac:(lia)) (Hnf2 1%nat ltac:(lia))).
  unfold bind at 1.
  change (snapshot_of (set_outbox (outbox w ++ [p])%list w) id) with (snapshot_of w id).
  rewrite (Hsend _ _ _ _ (Hcollect env2
                            {| world := set_outbox (outbox w ++ [p])%list w; calls := 2 |}
                            (Hnf2 2%nat ltac:(lia)) eq_refl)).
  match goal with
  | |- context [post_and_stamp ?c ?sn ?dd ?a ?m ?e ?s] =>
      pose proof (post_and_stamp_outbox c sn dd a m e s) as Hout;
      destruct (post_and_stamp c sn dd a m e s) as [[b | ex] st]
  end; simpl in *; rewrite Hout, <- app_assoc; reflexivity.
Qed.

Lemma lost_stamp_sends_again_witness :
  exists e p,
    run (fmpfeedback_mailgun_pubsub example_cfg
           (pubsub_message FEEDBACK_PUBSUB_ACTION_NEWFEEDBACK "T1"))
      (failing_env example_now mailgun_accepts 5 ClientError) finalized_world
    = (Raise e, set_outbox (outbox finalized_world ++ [p])%list finalized_world)
    /\ outbox (snd (run (fmpfeedback_mailgun_pubsub example_cfg
                           (pubsub_message FEEDBACK_PUBSUB_ACTION_NEWFEEDBACK "T1"))
                      (example_env example_now mailgun_accepts)
                      (set_outbox (outbox finalized_world ++ [p])%list finalized_world)))
       = (outbox finalized_world ++ [p; p])%list.
Proof.
  apply (lost_stamp_sends_again example_cfg
           (pubsub_message FEEDBACK_PUBSUB_ACTION_NEWFEEDBACK "T1") "T1"
           (feedback_record "alice@example.org" "2021-05-01T11:58:00+00:00"
              "Bug" "Crashes" "Alice" "" true)
           (VStr "") (VBool true)
           (<["id" := VStr "<20210501120000.1@mg.example.org>"]> ∅)).
  - reflexivity.
  - apply example_names_record; [left; reflexivity | discriminate].
  - vm_compute. reflexivity.
  - apply example_record_wf.
  - eexists _, _, _, _. repeat split; vm_compute; reflexivity.
  - vm_compute. reflexivity.
  - reflexivity.
  - vm_compute. reflexivity.
  - intros _. repeat constructor; eexists; eexists _, _; repeat split; vm_compute; reflexivity.
  - intros n Hn. do 3 (destruct n as [| n]; [reflexivity |]). lia.
  - intros p. exists 200. split; reflexivity.
  - intros raw1 _. simpl. discriminate.
  - intros n _. reflexivity.
Defined.

(** X14. The entry point returns normally, having changed nothing (so
    the message is acknowledged and not retried), when the Mailgun
    variables are not configured, when the message names no record (no
    [feedbackDocId], an empty one, or one that is not a string), and when
    loading the record from Firestore fails. *)
Theorem delivery_acknowledges_what_it_cannot_load `{PyLib} cfg message env w :
  MAILGUN_RUNTIME_VARS_MISSING cfg = true
  \/ message !! FEEDBACK_PUBSUB_FIELD_DOCID = None
  \/ (exists v, message !! FEEDBACK_PUBSUB_FIELD_DOCID = Some v
                /\ (truthy v = false \/ forall id, v <> VStr id))
  \/ fault env 0%nat <> None
  \/ fault env 1%nat <> None ->
  run (fmpfeedback_mailgun_pubsub cfg message) env w = (Ret tt, w).
Proof.
  intros Hcase. unfold fmpfeedback_mailgun_pubsub.
  destruct (MAILGUN_RUNTIME_VARS_MISSING cfg); [reflexivity |].
  destruct Hcase as [Hv | Hcase]; [discriminate |].
  repeat (case_match; simpl in *; try discriminate); try reflexivity.
  all: rewrite run_pair; exec; simpl.
  all: destruct (fault env 0%nat) as [e0 |] eqn:Hf0; simpl; [reflexivity |].
  all: match goal with
       | Hid : _ !! FEEDBACK_PUBSUB_FIELD_DOCID = Some ?v |- _ => destruct v as [id | | |]
       end; simpl; try reflexivity.
  all: destruct (fault env 1%nat) as [e1 |] eqn:Hf1; simpl; [reflexivity |].
  all: exfalso; destruct Hcase as [Hc | [(v' & Hv' & Hc) | [Hc | Hc]]];
    try congruence.
  all: simplify_eq; destruct Hc as [Hc | Hc]; [| now apply (Hc id)].
  all: simpl in *; destruct (String.eqb id ""); discriminate.
Qed.

Lemma delivery_acknowledges_what_it_cannot_load_witness :
  run (fmpfeedback_mailgun_pubsub example_cfg
         (pubsub_message FEEDBACK_PUBSUB_ACTION_NEWFEEDBACK "T1"))
    (failing_env example_now mailgun_accepts 1 GoogleAPIError) finalized_world
  = (Ret tt, finalized_world).
Proof.
  apply (delivery_acknowledges_what_it_cannot_load example_cfg).
  right. right. right. right. discriminate.
Defined.

(** ** The debug entry point *)

(** The number of documents a query gives. *)
Lemma query_length (p : doc -> bool) (m : gmap string doc) :
  List.length (List.filter (fun kv => p (snd kv)) (map_to_list m))
  = size (filter (fun kv : string * doc => p (snd kv) = true) m).
Proof.
  rewrite map_filter_alt, list_filter_bool.
  rewrite map_size_list_to_map; [reflexivity |].
  apply NoDup_fmap_fst.
  - intros k x y Hx Hy.
    apply list_elem_of_filter in Hx as [_ Hx]. apply list_elem_of_filter in Hy as [_ Hy].
    apply elem_of_map_to_list in Hx. apply elem_of_map_to_list in Hy. congruence.
  - apply NoDup_filter, NoDup_map_to_list.
Qed.

(** One call of [_fmpfeedback_mailgun_send] posts at most one message
    and writes to no record but the one of its snapshot. *)
Lemma send_frame `{PyLib} cfg snap env s :
  let w' := world (snd (_fmpfeedback_mailgun_send cfg snap env s)) in
  (List.length (outbox w') <= S (List.length (outbox (world s))))%nat
  /\ (forall k, k <> snap_id snap -> feedback w' !! k = feedback (world s) !! k)
  /\ uploads w' = uploads (world s)
  /\ topic w' = topic (world s).
Proof.
  intros w'. subst w'.
  pose proof (send_effect_holds cfg snap env s) as Heff.
  inversion Heff as [Hr0 Hw | e Hr0 Hw | p' Hfail' Hr0 Hw | p' e Hacc Hr0 Hw
                     | p' d old now mid Hacc Hd Hold Hr0 Hw]; simpl.
  all: try rewrite List.length_app; simpl.
  all: repeat split; try lia; try reflexivity.
  intros k Hk. now rewrite lookup_insert_ne by congruence.
Qed.

Lemma bind_run {A B} (m : M A) (k : A -> M B) env s :
  bind m k env s
  = match m env s with
    | (Ret a, s') => k a env s'
    | (Raise e, s') => (Raise e, s')
    end.
Proof. unfold bind. destruct (m env s) as [[a | e] s']; reflexivity. Qed.

Lemma debug_loop `{PyLib} cfg (l : list (string * doc)) env s r s' :
  for_each l
    (fun fs_doc =>
       _fmpfeedback_mailgun_send cfg
         {| snap_id := fst fs_doc; to_dict := Some (snd fs_doc) |} ;;;
       ret tt) env s = (r, s') ->
  (List.length (outbox (world s')) <= List.length (outbox (world s)) + List.length l)%nat
  /\ (forall k, ~ In k (List.map fst l) -> feedback (world s') !! k = feedback (world s) !! k)
  /\ uploads (world s') = uploads (world s)
  /\ topic (world s') = topic (world s).
Proof.
  revert s. induction l as [| x l IH]; intros s Hrun.
  - injection Hrun as <- <-. simpl. repeat split; first [lia | reflexivity].
  - rewrite for_each_cons, bind_run, bind_run in Hrun.
    pose proof (send_frame cfg {| snap_id := fst x; to_dict := Some (snd x) |} env s)
      as (Hout & Hfb & Hup & Htop).
    destruct (_fmpfeedback_mailgun_send cfg _ env s) as [[b | e] s1]; simpl in *.
    + destruct (IH s1 Hrun) as (Hout' & Hfb' & Hup' & Htop').
      split; [lia |]. split; [| split; congruence].
      intros k Hk. rewrite Hfb' by tauto. apply Hfb. intros ->. tauto.
    + injection Hrun as <- <-.
      split; [lia |]. split; [| split; assumption].
      intros k Hk. apply Hfb. intros ->. tauto.
Qed.

(** X15. The debug entry point hands to [_fmpfeedback_mailgun_send] the
    records with a message and without an archive stamp, and no others:
    it posts at most one message for each of them, leaves every other
    record (archived, or a draft without a message) as it is, and touches
    neither the uploads nor the topic. *)
Theorem debug_sends_unsent_only `{PyLib} cfg env w :
  (List.length (outbox (snd (run (fmpfeedback_mailgun_debug cfg) env w)))
   <= List.length (outbox w)
      + size (filter (fun kv : string * doc => unsent (snd kv) = true) (feedback w)))%nat
  /\ (forall id d, feedback w !! id = Some d -> unsent d = false ->
        feedback (snd (run (fmpfeedback_mailgun_debug cfg) env w)) !! id = Some d)
  /\ uploads (snd (run (fmpfeedback_mailgun_debug cfg) env w)) = uploads w
  /\ topic (snd (run (fmpfeedback_mailgun_debug cfg) env w)) = topic w.
Proof.
  rewrite run_world. unfold fmpfeedback_mailgun_debug.
  destruct (MAILGUN_RUNTIME_VARS_MISSING cfg);
    [simpl; repeat split; first [lia | auto] |].
  exec. simpl.
  destruct (fault env 0%nat); simpl; [repeat split; first [lia | auto] |].
  destruct (fault env 1%nat); simpl; [repeat split; first [lia | auto] |].
  match goal with
  | |- context [for_each ?l ?body ?e ?s] =>
      destruct (for_each l body e s) as [r st] eqn:Hrun;
      destruct (debug_loop cfg l e s r st Hrun) as (Hout & Hfb & Hup & Htop);
      destruct r as [[] | ex]
  end; simpl in *.
  all: rewrite query_length in Hout.
  all: (split; [exact Hout |]); (split; [| split; [exact Hup | exact Htop]]).
  all: intros id d Hd Hno; rewrite Hfb; [exact Hd |].
  all: intros Hin; apply in_map_iff in Hin as ([k d'] & Hk & Hin); simpl in Hk; subst k.
  all: apply filter_In in Hin as [Hin Hp]; simpl in Hp.
  all: apply list_elem_of_In, elem_of_map_to_list in Hin; congruence.
Qed.

(** ** The sweep *)

Section Sweep.
Context `{PyLib}.
Variables (field : string) (threshold : Z).

Lemma expire_archived_body :
  expire_archived threshold
  = (fs_query_docs <- fs_query (field_ne_empty FEEDBACKDOC_FIELD_ARCHIVEDTIMESTAMP) ;;
     for_each fs_query_docs (sweep_body FEEDBACKDOC_FIELD_ARCHIVEDTIMESTAMP threshold)).
Proof. reflexivity. Qed.

Lemma reap_orphans_sweep :
  reap_orphans threshold
  = (fs_query_docs <- fs_query (field_eq_empty FEEDBACKDOC_FIELD_MESSAGE) ;;
     for_each fs_query_docs (sweep_body FEEDBACKDOC_FIELD_CREATETIMESTAMP threshold)).
Proof. reflexivity. Qed.

Lemma sweep_body_naive id d :
  parses_naive field d ->
  forall env s,
    sweep_body field threshold (id, d) env s
    = (if due field threshold d then fs_delete id else ret tt) env s.
Proof.
  intros (ts & t & Hts & Hparse & Hnaive) env s.
  unfold sweep_body, due, parsed_before, bind, getitem, as_str. simpl.
  rewrite Hts. cbv [ret]. rewrite Hparse, Hnaive. reflexivity.
Qed.

Lemma sweep_body_aware id d :
  parses_aware field d ->
  forall env s, sweep_body field threshold (id, d) env s = (Raise TypeError, s).
Proof.
  intros (ts & t & tz & Hts & Hparse & Haware) env s.
  unfold sweep_body, parsed_before, bind, getitem, as_str. simpl.
  rewrite Hts. cbv [ret]. rewrite Hparse, Haware. reflexivity.
Qed.

Lemma sweep_loop (l : list (string * doc)) env s :
  no_fault env ->
  Forall (fun kv => parses_naive field (snd kv)) l ->
  exists n,
    for_each l (sweep_body field threshold) env s
    = (Ret tt,
       {| world := set_feedback (foldl (sweep_one field threshold) (feedback (world s)) l)
                     (world s);
          calls := n |}).
Proof.
  intros Hnf Hall. revert s.
  induction Hall as [| [id d] l Hnaive _ IH]; intros s.
  - exists (calls s). simpl. destruct s as [[] ?]; reflexivity.
  - rewrite for_each_cons, bind_run, (sweep_body_naive id d Hnaive).
    cbn [foldl]. unfold sweep_one at 2. cbn [fst snd].
    destruct (due field threshold d).
    + unfold fs_delete, remote, interact. rewrite Hnf. simpl.
      match goal with
      | |- context [for_each l _ env ?st] => destruct (IH st) as [n Hn]
      end.
      exists n. rewrite Hn. reflexivity.
    + cbv [ret]. destruct (IH s) as [n Hn]. exists n. exact Hn.
Qed.

Lemma sweep_loop_aware (l : list (string * doc)) env s :
  l <> [] ->
  Forall (fun kv => parses_aware field (snd kv)) l ->
  for_each l (sweep_body field threshold) env s = (Raise TypeError, s).
Proof.
  intros Hne Hall. destruct Hall as [| [id d] l Haware _]; [congruence |].
  rewrite for_each_cons, bind_run, (sweep_body_aware id d Haware). reflexivity.
Qed.

Lemma sweep_fold_none l (m : gmap string doc) k :
  m !! k = None -> foldl (sweep_one field threshold) m l !! k = None.
Proof.
  revert m. induction l as [| [id d] l IH]; intros m Hk; simpl; [exact Hk |].
  apply IH. unfold sweep_one. simpl.
  destruct (due field threshold d); [| exact Hk].
  rewrite lookup_delete. case_decide; [reflexivity | exact Hk].
Qed.

Lemma sweep_fold_due l (m : gmap string doc) k d :
  In (k, d) l -> due field threshold d = true ->
  foldl (sweep_one field threshold) m l !! k = None.
Proof.
  revert m. induction l as [| [id d'] l IH]; intros m Hin Hdue; simpl; [destruct Hin |].
  destruct Hin as [Heq | Hin].
  - inversion Heq; subst. apply sweep_fold_none.
    unfold sweep_one. simpl. rewrite Hdue. apply lookup_delete_eq.
  - apply IH; assumption.
Qed.

Lemma sweep_fold_keep l (m : gmap string doc) k :
  (forall d, In (k, d) l -> due field threshold d = false) ->
  foldl (sweep_one field threshold) m l !! k = m !! k.
Proof.
  revert m. induction l as [| [id d'] l IH]; intros m Hkeep; simpl; [reflexivity |].
  rewrite IH by (intros d Hin; apply Hkeep; right; exact Hin).
  unfold sweep_one. simpl.
  destruct (due field threshold d') eqn:Hdue; [| reflexivity].
  apply lookup_delete_ne. intros ->.
  rewrite (Hkeep d') in Hdue by (left; reflexivity). discriminate.
Qed.

(** A deleting scan leaves the records that the query does not give or
    that are not due. *)
Lemma sweep_fold_filter (q : doc -> bool) (m : gmap string doc) :
  foldl (sweep_one field threshold) m
    (List.filter (fun kv => q (snd kv)) (map_to_list m))
  = filter (fun kv => q (snd kv) && due field threshold (snd kv) = false) m.
Proof.
  apply map_eq. intros k.
  destruct (m !! k) as [d |] eqn:Hk.
  - destruct (q d && due field threshold d) eqn:Hdue.
    + apply andb_true_iff in Hdue as [Hq Hdue].
      rewrite (sweep_fold_due _ _ k d); [| apply in_query; split; assumption | exact Hdue].
      symmetry. apply map_lookup_filter_None. right.
      intros d' Hd'. simpl. assert (d' = d) as -> by congruence.
      rewrite Hq, Hdue. discriminate.
    + rewrite sweep_fold_keep.
      * rewrite Hk. symmetry. apply map_lookup_filter_Some. split; [exact Hk | exact Hdue].
      * intros d' Hin. apply in_query in Hin as [Hd' Hq].
        assert (d' = d) as -> by congruence. rewrite Hq in Hdue. exact Hdue.
  - rewrite sweep_fold_none by exact Hk.
    symmetry. apply map_lookup_filter_None. left. exact Hk.
Qed.

(** A deleting scan on a state, when Firestore does not fail and the
    times of the documents of the query parse to naive times. *)
Lemma sweep_scan (q : doc -> bool) env s :
  no_fault env ->
  (forall id d, feedback (world s) !! id = Some d -> q d = true -> parses_naive field d) ->
  exists n,
    (fs_query_docs <- fs_query q ;; for_each fs_query_docs (sweep_body field threshold)) env s
    = (Ret tt,
       {| world := set_feedback
                     (filter (fun kv => q (snd kv) && due field threshold (snd kv) = false)
                        (feedback (world s))) (world s);
          calls := n |}).
Proof.
  intros Hnf Hnaive.
  rewrite bind_run. unfold fs_query, remote, interact. rewrite Hnf. cbn [world calls].
  match goal with
  | |- context [for_each ?l _ env ?st] => destruct (sweep_loop l env st Hnf) as [n Hn]
  end.
  { apply List.Forall_forall. intros [id d] Hin.
    apply in_query in Hin as [Hd Hq]. eapply Hnaive; eauto. }
  exists n. rewrite Hn. cbn [world]. now rewrite sweep_fold_filter.
Qed.

End Sweep.

(** X16. The scan for expired records deletes exactly the records whose
    [archivedTimestamp] is not empty and at or before the threshold, and
    changes nothing else: records that are not archived stay, whatever
    their age.  (Firestore does not fail, and the archive times parse to
    naive [datetime]s, as the delivery function writes them.) *)
Theorem expire_scan_deletes_by_archive_time `{PyLib} delete_prior_to_date env w :
  no_fault env ->
  (forall id d, feedback w !! id = Some d ->
     field_ne_empty FEEDBACKDOC_FIELD_ARCHIVEDTIMESTAMP d = true ->
     parses_naive FEEDBACKDOC_FIELD_ARCHIVEDTIMESTAMP d) ->
  run (expire_archived delete_prior_to_date) env w
  = (Ret tt,
     set_feedback
       (filter (fun kv => expired delete_prior_to_date (snd kv) = false) (feedback w)) w).
Proof.
  intros Hnf Hnaive. rewrite expire_archived_body.
  destruct (sweep_scan FEEDBACKDOC_FIELD_ARCHIVEDTIMESTAMP delete_prior_to_date
              (field_ne_empty FEEDBACKDOC_FIELD_ARCHIVEDTIMESTAMP) env
              {| world := w; calls := 0 |} Hnf Hnaive) as [n Hn].
  eapply run_state. exact Hn.
Qed.

Lemma expire_scan_deletes_by_archive_time_witness :
  run (expire_archived (wall_us example_now - 30 * us_per_day))
    (example_env example_now mailgun_accepts) archive_world
  = (Ret tt,
     set_feedback
       (filter (fun kv => expired (wall_us example_now - 30 * us_per_day) (snd kv) = false)
          (feedback archive_world)) archive_world).
Proof.
  apply (expire_scan_deletes_by_archive_time (wall_us example_now - 30 * us_per_day)
           (example_env example_now mailgun_accepts) archive_world).
  - intros n. reflexivity.
  - intros id d Hd _. simpl in Hd.
    rewrite lookup_insert in Hd. case_decide.
    + inversion Hd. eexists _, _. repeat split; vm_compute; reflexivity.
    + rewrite lookup_insert in Hd. case_decide; [| rewrite lookup_empty in Hd; discriminate].
      inversion Hd. eexists _, _. repeat split; vm_compute; reflexivity.
Defined.

(** ** The scan for stale records, and the retry messages *)

Section Stale.
Context `{PyLib}.
Variable threshold : Z.

Lemma collect_stale_naive (l : list (string * doc)) acc env s :
  Forall (fun kv => parses_naive FEEDBACKDOC_FIELD_CREATETIMESTAMP (snd kv)) l ->
  collect_stale l threshold acc env s
  = (Ret (acc ++ List.map fst
                   (List.filter
                      (fun kv => due FEEDBACKDOC_FIELD_CREATETIMESTAMP threshold (snd kv)) l))%list,
     s).
Proof.
  intros Hall. revert acc.
  induction Hall as [| [id d] l (ts & t & Hts & Hparse & Hnaive) _ IH]; intros acc.
  - simpl. now rewrite app_nil_r.
  - assert (due FEEDBACKDOC_FIELD_CREATETIMESTAMP threshold d = (wall_us t <=? threshold))
      as Hdue by (unfold due; simpl in Hts; now rewrite Hts, Hparse).
    cbn [collect_stale List.filter List.map fst snd]. rewrite Hdue.
    unfold parsed_before, bind, getitem, as_str. simpl in Hts.
    rewrite Hts. cbv [ret]. rewrite Hparse, Hnaive. rewrite IH.
    destruct (wall_us t <=? threshold); simpl; [now rewrite <- app_assoc | reflexivity].
Qed.

Lemma collect_stale_aware (l : list (string * doc)) acc env s :
  l <> [] ->
  Forall (fun kv => parses_aware FEEDBACKDOC_FIELD_CREATETIMESTAMP (snd kv)) l ->
  collect_stale l threshold acc env s = (Raise TypeError, s).
Proof.
  intros Hne Hall.
  destruct Hall as [| [id d] l (ts & t & tz & Hts & Hparse & Haware) _]; [congruence |].
  cbn [collect_stale fst snd]. unfold parsed_before, bind, getitem, as_str. simpl in Hts.
  rewrite Hts. cbv [ret]. rewrite Hparse, Haware. reflexivity.
Qed.

End Stale.

Lemma set_topic_same (w : World) : set_topic (topic w) w = w.
Proof. destruct w; reflexivity. Qed.

Lemma set_feedback_same (w : World) : set_feedback (feedback w) w = w.
Proof. destruct w; reflexivity. Qed.

(** The loop of lines 146-176 publishes the retry messages of a prefix
    of the ids, in order: of all of them when it answers OK. *)
Lemma republish_prefix (ids : list string) env s :
  exists k,
    (k <= List.length ids)%nat
    /\ world (snd (republish ids env s))
       = set_topic (topic (world s) ++ retries (take k ids))%list (world s)
    /\ ((fst (republish ids env s) = Ret (Text "OK") /\ k = List.length ids)
        \/ (fst (republish ids env s) = Ret (ErrorStatus "PUBSUB FAIL" 400)
            /\ (k < List.length ids)%nat)).
Proof.
  revert s. induction ids as [| id ids IH]; intros s.
  - exists 0%nat. simpl. rewrite app_nil_r, set_topic_same. auto.
  - simpl republish. rewrite bind_run.
    destruct (publish_action_world FEEDBACK_PUBSUB_ACTION_CARETAKER_RETRY id env s)
      as [[Hr Hw] | [Hr Hw]];
      destruct (publish_action FEEDBACK_PUBSUB_ACTION_CARETAKER_RETRY id env s)
        as [[[failure |] | ex] s1]; simpl in *; simplify_eq.
    + destruct (IH s1) as (k & Hk & Hworld & Hcase).
      exists (S k). split; [simpl; lia |]. split.
      * rewrite Hworld, Hw. simpl. unfold set_topic. simpl.
        now rewrite <- app_assoc.
      * destruct Hcase as [[-> ->] | [-> Hlt]]; [left; auto | right; split; [auto | simpl; lia]].
    + exists 0%nat. split; [simpl; lia |]. split.
      * rewrite Hw. simpl. now rewrite app_nil_r, set_topic_same.
      * right. split; [reflexivity | simpl; lia].
Qed.

Lemma republish_all (ids : list string) env s :
  no_fault env ->
  exists n,
    republish ids env s
    = (Ret (Text "OK"),
       {| world := set_topic (topic (world s) ++ retries ids)%list (world s); calls := n |}).
Proof.
  intros Hnf. revert s. induction ids as [| id ids IH]; intros s.
  - exists (calls s). simpl. rewrite app_nil_r, set_topic_same. destruct s; reflexivity.
  - simpl republish. rewrite bind_run. unfold publish_action. exec. simpl.
    repeat (rewrite Hnf; simpl).
    match goal with
    | |- context [republish ids env ?st] => destruct (IH st) as [n Hn]
    end.
    exists n. rewrite Hn. simpl. unfold set_topic. simpl. now rewrite <- app_assoc.
Qed.

(** X17. The retry loop publishes one [caretakerRetry] message per stale
    id, in the order of the ids, and stops at the first failure: it
    answers OK when it has published them all, and PUBSUB FAIL when it
    has published only the messages of the ids before the one that
    failed.  It changes nothing but the topic. *)
Theorem republish_publishes_prefix (ids : list string) env w :
  exists k,
    (k <= List.length ids)%nat
    /\ snd (run (republish ids) env w) = set_topic (topic w ++ retries (take k ids))%list w
    /\ ((fst (run (republish ids) env w) = Ret (Text "OK") /\ k = List.length ids)
        \/ (fst (run (republish ids) env w) = Ret (ErrorStatus "PUBSUB FAIL" 400)
            /\ (k < List.length ids)%nat)).
Proof.
  rewrite run_world, run_outcome.
  apply (republish_prefix ids env {| world := w; calls := 0 |}).
Qed.

(** ** The scan for orphans on the records the handlers write *)

(** C7 (the code departs from the specification). The scan for orphans
    deletes nothing when the records with an empty message have creation
    times that carry a UTC offset, as the upload and the comment calls
    write them ([datetime.now(timezone.utc)], lines 178 and 180 of their
    modules): the threshold of line 90 is naive ([datetime.utcnow()]),
    and the comparison of line 118 raises [TypeError] at the first
    document of the query, before any delete.  So it is for the draft
    that an upload call has created, swept an hour later: the draft is
    past the five minutes and is not deleted, and the sweep answers
    FIRESTORE FAIL. *)
Theorem orphan_scan_raises_on_recorded_drafts :
  (forall (runtime : PyLib) five_min_ago env w,
     fault env 0%nat = None ->
     (forall id d, feedback w !! id = Some d ->
        field_eq_empty FEEDBACKDOC_FIELD_MESSAGE d = true ->
        parses_aware FEEDBACKDOC_FIELD_CREATETIMESTAMP d) ->
     (exists id d, feedback w !! id = Some d
                   /\ field_eq_empty FEEDBACKDOC_FIELD_MESSAGE d = true) ->
     run (reap_orphans five_min_ago) env w = (Raise TypeError, w))
  /\ (let env := example_env an_hour_later mailgun_accepts in
      (exists d, feedback first_upload_world !! "doc03" = Some d
                 /\ d !! FEEDBACKDOC_FIELD_MESSAGE = Some (VStr "")
                 /\ d !! FEEDBACKDOC_FIELD_ARCHIVEDTIMESTAMP = Some (VStr "")
                 /\ d !! FEEDBACKDOC_FIELD_CREATETIMESTAMP
                    = Some (VStr "2021-05-01T12:00:00+00:00")
                 /\ orphan_due (wall_us an_hour_later - 5 * us_per_minute) d = true)
      /\ run (reap_orphans (wall_us an_hour_later - 5 * us_per_minute)) env first_upload_world
         = (Raise TypeError, first_upload_world)
      /\ run (fmpfeedback_caretaker example_cfg) env first_upload_world
         = (Ret (ErrorStatus "FIRESTORE FAIL" 400), first_upload_world)).
Proof.
  split.
  - intros runtime five_min_ago env w Hfault Haware (id & d & Hd & Hmsg).
    rewrite reap_orphans_sweep. eapply run_state.
    rewrite bind_run. unfold fs_query, remote, interact. cbn [world calls].
    rewrite Hfault.
    apply sweep_loop_aware.
    + intros Hnil.
      assert (In (id, d)
                (List.filter (fun kv => field_eq_empty FEEDBACKDOC_FIELD_MESSAGE (snd kv))
                   (map_to_list (feedback w)))) as Hin
        by (apply in_query; split; assumption).
      rewrite Hnil in Hin. destruct Hin.
    + apply List.Forall_forall. intros [id' d'] Hin.
      apply in_query in Hin as [Hd' Hmsg']. eapply Haware; eauto.
  - cbv zeta. split; [| split].
    + eexists. repeat split; vm_compute; reflexivity.
    + vm_compute. reflexivity.
    + vm_compute. reflexivity.
Qed.
